(** * locksmithctl/daemon.go: the reboot-coordination control loop

    A shallow embedding of [src/locksmithctl/daemon.go].  Pure code
    ([expBackoff]) is a function on 64-bit durations.  Code that talks to
    the outside world (systemd over D-Bus, the etcd lock, utmp, login1,
    update_engine) is written in a small trace monad: every call to a
    collaborator is recorded as an [event], and the answer of the k-th call
    to a collaborator is read from an environment [env] of scripted
    answers.  The two unbounded [for] loops take a fuel argument and return
    [None] when the fuel runs out while the loop is still running; a
    receive on a channel on which nothing arrives gives [None] as well. *)

From Stdlib Require Import ZArith List String Bool Lia Arith.
From Stdlib Require Import DecimalString.
Import ListNotations.

Local Open Scope Z_scope.
Local Open Scope string_scope.

(** ** Go values *)

(** [time.Duration] is an [int64] count of nanoseconds; arithmetic on it
    wraps around in two's complement. *)
Definition Duration := Z.

Definition int64_min : Z := - 2 ^ 63.
Definition int64_max : Z := 2 ^ 63 - 1.

Definition in_int64 (z : Z) : Prop := int64_min <= z <= int64_max.

Definition wrap64 (z : Z) : Z := (z + 2 ^ 63) mod 2 ^ 64 - 2 ^ 63.

(** [uint] has 64 bits on the targets the daemon is built for. *)
Definition wrap_uint (z : Z) : Z := z mod 2 ^ 64.

Definition Nanosecond : Duration := 1.
Definition Second : Duration := 1000000000 * Nanosecond.
Definition Minute : Duration := 60 * Second.
Definition Hour : Duration := 60 * Minute.

(** Go's [error] values.  [ErrExist] and [ErrNotExist] are the two sentinel
    errors of package [lock], compared by identity in the source; every
    other error value is carried with its message. *)
Inductive goerror : Type :=
| ErrExist
| ErrNotExist
| Errorf (msg : string).

(** A Go [error] interface value: [None] is [nil]. *)
Definition error := option goerror.

(** [err.Error()].  The texts of the two sentinels are those of package
    [lock]; nothing below depends on them. *)
Definition Error (e : goerror) : string :=
  match e with
  | ErrExist => "holder exists"
  | ErrNotExist => "holder does not exist"
  | Errorf msg => msg
  end.

(** [err == lock.ErrExist] and [err == lock.ErrNotExist] on an interface
    value. *)
Definition is_ErrExist (err : error) : bool :=
  match err with Some ErrExist => true | _ => false end.

Definition is_ErrNotExist (err : error) : bool :=
  match err with Some ErrNotExist => true | _ => false end.

Definition is_nil (err : error) : bool :=
  match err with None => true | Some _ => false end.

(** ** Constants of the package *)

Definition initialInterval : Duration := Second * 5.
Definition maxInterval : Duration := Minute * 5.
Definition loginsRebootDelay : Duration := Minute * 5.

Definition etcdServices : list string := ["etcd.service"; "etcd2.service"].

Definition StrategyReboot : string := "reboot".
Definition StrategyEtcdLock : string := "etcd-lock".
Definition StrategyBestEffort : string := "best-effort".
Definition StrategyOff : string := "off".

(** ** Backoff policy *)

(** [expBackoff]: double, then cap at [maxInterval]. *)
Definition expBackoff (interval : Duration) : Duration :=
  let interval := wrap64 (interval * 2) in
  if interval >? maxInterval then maxInterval else interval.

(** The intervals a retry loop goes through: [n] applications of
    [expBackoff]. *)
Fixpoint backoff_iter (n : nat) (interval : Duration) : Duration :=
  match n with
  | O => interval
  | S n' => backoff_iter n' (expBackoff interval)
  end.

(** ** Events and the environment *)

(** An argument of a [fmt] call.  Print calls are recorded with their
    format and arguments, spelled as in the source (escapes included). *)
Inductive farg : Type :=
| AStr (s : string)
| AStrs (l : list string)
| AInt (z : Z)
| ADur (d : Duration)
| AErr (e : goerror).

(** Handles of the collaborators: the index of the call that created
    them. *)
Definition dbus_Conn := nat.
Definition etcd_Client := nat.

Inductive login1_Conn : Type := Login1Conn.

(** [*lock.Lock], as built by [lock.New(mID, elc)]. *)
Record Lock : Type := mkLock { lck_id : string; lck_client : etcd_Client }.

Inductive event : Type :=
| EvDbusNew
| EvGetUnitProperty (sys : dbus_Conn) (unit prop : string)
| EvDbusClose (sys : dbus_Conn)
| EvGetClient
| EvMachineID (root : string)
| EvLockNew (mID : string) (elc : etcd_Client)
| EvLock (lck : Lock)
| EvUnlock (lck : Lock)
| EvSetutent
| EvOpenFile (path : string)
| EvGoWrite (line msg : string)
| EvSleep (d : Duration)
| EvAfter (d : Duration)
| EvSelect (stop : bool)
| EvWgDone
| EvReboot (askForAuth : bool)
| EvPrintf (format : string) (args : list farg)
| EvPrintln (args : list farg)
| EvFprintf_stderr (format : string) (args : list farg)
| EvFprintln_stderr (args : list farg)
| EvGetenv (key : string)
| EvSignalNotify
| EvUpdateengineNew
| EvLogin1New
| EvGoUnlockHeldLocks
| EvGoRebootNeededSignal
| EvGetStatus
| EvRecvStatus
| EvCloseStop
| EvWgWait
| EvNow.

(** The outside world: the answer of the k-th call to each collaborator
    (k counts from 0). *)
Record env : Type := mkEnv {
  (** [dbus.New()]: [None] when the k-th connection is made. *)
  dbus_New_err : nat -> error;
  (** [sys.GetUnitProperty(unit, prop)] on the connection [sys]: the
      property's string value, or an error. *)
  unit_property : dbus_Conn -> string -> string -> goerror + string;
  (** [getClient()] (another file of package main). *)
  getClient_err : nat -> error;
  (** [machineid.MachineID("/")]. *)
  machine_id : nat -> string;
  (** [lck.Lock()] and [lck.Unlock()]. *)
  Lock_err : nat -> error;
  Unlock_err : nat -> error;
  (** The utmp entries seen by the k-th [broadcast]: each line with
      whether [os.OpenFile] gives a tty. *)
  utmp_lines : nat -> list (string * bool);
  (** Whether the k-th [select] of the reaper takes the [<-stop] case. *)
  stop_ready : nat -> bool;
  (** The process environment, [updateengine.New()], [login1.New()],
      [ue.GetStatus()] and [time.Now()]. *)
  environ : list (string * string);
  updateengine_New_err : error;
  login1_New_err : error;
  GetStatus_result : goerror + string;
  now : Z;
  (** Whether a status ever arrives on the channel fed by
      [ue.RebootNeededSignal], so that the receive [<-ch] of [runDaemon]
      completes. *)
  RebootNeededSignal_fires : bool
}.

(** ** The trace monad *)

(** The events so far, newest first. *)
Definition trace := list event.

Definition M (A : Type) : Type := trace -> A * trace.

Definition ret {A : Type} (a : A) : M A := fun t => (a, t).

Definition bind {A B : Type} (m : M A) (f : A -> M B) : M B :=
  fun t => let (a, t') := m t in f a t'.

Declare Scope monad_scope.
Delimit Scope monad_scope with monad.

Notation "x <- c1 ;; c2" := (bind c1 (fun x => c2))
  (at level 61, c1 at next level, right associativity) : monad_scope.
Notation "' pat <- c1 ;; c2" := (bind c1 (fun x => match x with pat => c2 end))
  (at level 61, pat pattern, c1 at next level, right associativity) : monad_scope.
Notation "c1 ;; c2" := (bind c1 (fun _ => c2))
  (at level 61, right associativity) : monad_scope.

Local Open Scope monad_scope.

Definition emit (e : event) : M unit := fun t => (tt, e :: t).

(** How many of the events so far satisfy [p]. *)
Definition calls (p : event -> bool) (t : trace) : nat :=
  List.length (filter p t).

(** A call to a collaborator: it is recorded, and answered by the
    environment according to how many such calls came before. *)
Definition call {A : Type} (e : event) (p : event -> bool)
    (answer : nat -> A) : M A :=
  fun t => (answer (calls p t), e :: t).

(** The events in the order they happened. *)
Definition events (t : trace) : list event := rev t.

Definition is_DbusNew (e : event) : bool :=
  match e with EvDbusNew => true | _ => false end.
Definition is_GetClient (e : event) : bool :=
  match e with EvGetClient => true | _ => false end.
Definition is_MachineID (e : event) : bool :=
  match e with EvMachineID _ => true | _ => false end.
Definition is_LockNew (e : event) : bool :=
  match e with EvLockNew _ _ => true | _ => false end.
Definition is_Lock (e : event) : bool :=
  match e with EvLock _ => true | _ => false end.
Definition is_Unlock (e : event) : bool :=
  match e with EvUnlock _ => true | _ => false end.
Definition is_Setutent (e : event) : bool :=
  match e with EvSetutent => true | _ => false end.
Definition is_Select (e : event) : bool :=
  match e with EvSelect _ => true | _ => false end.
Definition is_Reboot (e : event) : bool :=
  match e with EvReboot _ => true | _ => false end.
Definition is_Now (e : event) : bool :=
  match e with EvNow => true | _ => false end.
(** Connecting to a collaborator: systemd's bus, etcd, update_engine,
    login1. *)
Definition is_connect (e : event) : bool :=
  match e with
  | EvDbusNew | EvGetClient | EvUpdateengineNew | EvLogin1New => true
  | _ => false
  end.

(** ** Formatting *)

(** [%v] of a [[]string]. *)
Definition fmt_v_strings (l : list string) : string :=
  "[" ++ String.concat " " l ++ "]".

(** [%d]. *)
Definition fmt_d (z : Z) : string := NilZero.string_of_int (Z.to_int z).

(** ** The program *)

Section Daemon.

(** Package [timeutil] of the repository is not among the sources: its
    type [Periodic] and the two functions the daemon calls are taken as
    given. *)
Variable Periodic : Type.
Variable ParsePeriodic : string -> string -> goerror + Periodic.
Variable DurationToStart : Periodic -> Z -> Duration.

Variable E : env.

(** *** Collaborators *)

Definition dbus_New : M (dbus_Conn * error) :=
  fun t => let k := calls is_DbusNew t in ((k, dbus_New_err E k), EvDbusNew :: t).

Definition GetUnitProperty (sys : dbus_Conn) (unit prop : string)
    : M (goerror + string) :=
  fun t => (unit_property E sys unit prop, EvGetUnitProperty sys unit prop :: t).

Definition dbus_Close (sys : dbus_Conn) : M unit := emit (EvDbusClose sys).

Definition getClient : M (etcd_Client * error) :=
  fun t => let k := calls is_GetClient t in ((k, getClient_err E k), EvGetClient :: t).

Definition MachineID (root : string) : M string :=
  call (EvMachineID root) is_MachineID (machine_id E).

Definition lock_New (mID : string) (elc : etcd_Client) : M Lock :=
  emit (EvLockNew mID elc) ;; ret (mkLock mID elc).

Definition lck_Lock (lck : Lock) : M error :=
  call (EvLock lck) is_Lock (Lock_err E).

Definition lck_Unlock (lck : Lock) : M error :=
  call (EvUnlock lck) is_Unlock (Unlock_err E).

Definition lgn_Reboot (lgn : login1_Conn) (askForAuth : bool) : M unit :=
  emit (EvReboot askForAuth).

Definition Sleep (d : Duration) : M unit := emit (EvSleep d).

(** [time.After(interval)], evaluated on entering the [select]. *)
Definition After (d : Duration) : M unit := emit (EvAfter d).

(** The choice made by the reaper's [select]: [true] for the [<-stop]
    case, [false] for the timer. *)
Definition select_stop : M bool :=
  fun t => let stop := stop_ready E (calls is_Select t) in (stop, EvSelect stop :: t).

Definition Printf (format : string) (args : list farg) : M unit :=
  emit (EvPrintf format args).

Definition Println (args : list farg) : M unit := emit (EvPrintln args).

Definition Fprintf_stderr (format : string) (args : list farg) : M unit :=
  emit (EvFprintf_stderr format args).

Definition Fprintln_stderr (args : list farg) : M unit :=
  emit (EvFprintln_stderr args).

(** [os.Getenv]: the value of the first entry for [key], empty when there
    is none. *)
Fixpoint lookup_env (key : string) (l : list (string * string)) : option string :=
  match l with
  | [] => None
  | (k, v) :: rest => if String.eqb k key then Some v else lookup_env key rest
  end.

Definition Getenv (key : string) : M string :=
  emit (EvGetenv key) ;;
  ret (match lookup_env key (environ E) with Some v => v | None => "" end).

(** *** broadcast *)

(** The loop over the utmp entries: a line that cannot be opened is
    skipped; one that can is counted and written to by a goroutine of its
    own. *)
Fixpoint broadcast_loop (msg : string) (entries : list (string * bool))
    (cnt : Z) : M Z :=
  match entries with
  | [] => ret cnt
  | (line, opened) :: rest =>
      emit (EvOpenFile ("/dev/" ++ line)) ;;
      if opened
      then emit (EvGoWrite line msg) ;;
           broadcast_loop msg rest (wrap_uint (cnt + 1))
      else broadcast_loop msg rest cnt
  end.

Definition broadcast (msg : string) : M Z :=
  entries <- call EvSetutent is_Setutent (utmp_lines E) ;;
  broadcast_loop msg entries 0.

(** *** rebootAndSleep *)

Definition rebootAndSleep (lgn : login1_Conn) : M unit :=
  let delaymins := Z.quot loginsRebootDelay Minute in
  lines <- broadcast ("System reboot in " ++ fmt_d delaymins ++ " minutes!") ;;
  (if negb (0 =? lines)%Z
   then Printf "Logins detected, delaying reboot for %d minutes.\n" [ADur delaymins] ;;
        Sleep loginsRebootDelay
   else ret tt) ;;
  lgn_Reboot lgn false ;;
  Println [AStr "Reboot sent. Going to sleep."] ;;
  Sleep (Hour * 24 * 7).

(** *** lockAndReboot *)

Record rebooter : Type := mkRebooter { strategy : string; lgn : login1_Conn }.

(** The [for] loop of [lockAndReboot]; [None] when the fuel is used up
    with the loop still retrying. *)
Fixpoint lockAndReboot_loop (r : rebooter) (lck : Lock) (fuel : nat)
    (interval : Duration) : M (option unit) :=
  match fuel with
  | O => ret None
  | S fuel' =>
      err <- lck_Lock lck ;;
      if negb (is_nil err) && negb (is_ErrExist err)
      then
        let interval := expBackoff interval in
        Printf "Retrying in %v. Error locking: %v\n"
               [ADur interval; match err with Some e => AErr e | None => AStr "" end] ;;
        Sleep interval ;;
        lockAndReboot_loop r lck fuel' interval
      else
        rebootAndSleep (lgn r) ;;
        ret (Some tt)
  end.

Definition lockAndReboot (r : rebooter) (lck : Lock) (fuel : nat)
    : M (option unit) :=
  lockAndReboot_loop r lck fuel initialInterval.

(** *** setupLock *)

Definition setupLock : M (goerror + Lock) :=
  '(elc, err) <- getClient ;;
  match err with
  | Some e => ret (inl (Errorf ("Error initializing etcd client: " ++ Error e)))
  | None =>
      mID <- MachineID "/" ;;
      if String.eqb mID ""
      then ret (inl (Errorf "Cannot read machine-id"))
      else lck <- lock_New mID elc ;; ret (inr lck)
  end.

(** *** etcdActive *)

(** The [range] loop of [etcdActive].  A failed query is skipped; in the
    [switch], "inactive" continues the loop, and the [break] of the
    default case leaves the [switch] only, so the loop goes on to the
    next service. *)
Fixpoint etcdActive_range (sys : dbus_Conn) (services : list string)
    (active : bool) (name : string) : M (bool * string) :=
  match services with
  | [] => ret (active, name)
  | service :: rest =>
      prop <- GetUnitProperty sys service "ActiveState" ;;
      match prop with
      | inl _ => etcdActive_range sys rest active name
      | inr value =>
          if String.eqb value "inactive"
          then etcdActive_range sys rest active name
          else etcdActive_range sys rest true service
      end
  end.

Definition etcdActive : M (bool * string * error) :=
  '(sys, err) <- dbus_New ;;
  match err with
  | Some _ => ret (false, "", err)
  | None =>
      '(active, name) <- etcdActive_range sys etcdServices false "" ;;
      dbus_Close sys ;;
      ret (active, name, None)
  end.

(** *** useLock *)

Definition useLock (r : rebooter) : M (bool * error) :=
  if String.eqb (strategy r) StrategyBestEffort then
    '(active, name, err) <- etcdActive ;;
    match err with
    | Some _ => ret (false, err)
    | None =>
        if active
        then Printf "%s is active\n" [AStr name] ;; ret (true, None)
        else Printf "%v are inactive\n" [AStrs etcdServices] ;; ret (false, None)
    end
  else if String.eqb (strategy r) StrategyEtcdLock then ret (true, None)
  else if String.eqb (strategy r) StrategyReboot then ret (false, None)
  else ret (false, Some (Errorf ("Unknown strategy: " ++ strategy r))).

(** *** unlockIfHeld *)

Definition unlockIfHeld (lck : Lock) : M error :=
  err <- lck_Unlock lck ;;
  if is_ErrNotExist err then ret None
  else if is_nil err
  then Println [AStr "Unlocked existing lock for this machine"] ;; ret None
  else ret err.

(** *** reboot *)

Definition reboot (r : rebooter) (fuel : nat) : M (option Z) :=
  '(use, err) <- useLock r ;;
  match err with
  | Some e => Fprintln_stderr [AErr e] ;; ret (Some 1)
  | None =>
      let finish : M (option Z) :=
        rebootAndSleep (lgn r) ;;
        Println [AStr "Error: reboot attempt never finished"] ;;
        ret (Some 1) in
      if (use : bool) then
        lck <- setupLock ;;
        match lck with
        | inl e => Fprintln_stderr [AErr e] ;; ret (Some 1)
        | inr lck =>
            err <- unlockIfHeld lck ;;
            match err with
            | Some e => Fprintln_stderr [AErr e] ;; ret (Some 1)
            | None =>
                done <- lockAndReboot r lck fuel ;;
                match done with
                | None => ret None
                | Some _ => finish
                end
            end
        end
      else finish
  end.

(** *** unlockHeldLocks *)

(** The [time.After] case of the [select]: [None] when the function
    returns, [Some reason] when it breaks out of the [select] with a
    reason to retry. *)
Definition unlockHeldLocks_tick : M (option string) :=
  '(active, _, err) <- etcdActive ;;
  match err with
  | Some _ => ret (Some ("error checking status of " ++ fmt_v_strings etcdServices))
  | None =>
      unreachable <-
        (if negb active
         then '(_, err) <- getClient ;; ret (negb (is_nil err))
         else ret false) ;;
      if (unreachable : bool)
      then ret (Some (fmt_v_strings etcdServices
                        ++ " are inactive and remote cluster not available"))
      else
        lck <- setupLock ;;
        match lck with
        | inl e => ret (Some ("error setting up lock: " ++ Error e))
        | inr lck =>
            err <- unlockIfHeld lck ;;
            match err with
            | None => ret None
            | Some e => ret (Some (Error e))
            end
        end
  end.

(** The [for] loop of [unlockHeldLocks]: [Some tt] when the function
    returns (its deferred [wg.Done()] then runs), [None] when the fuel is
    used up with the loop still running. *)
Fixpoint unlockHeldLocks_loop (fuel : nat) (interval : Duration)
    : M (option unit) :=
  match fuel with
  | O => ret None
  | S fuel' =>
      After interval ;;
      stop <- select_stop ;;
      if (stop : bool) then emit EvWgDone ;; ret (Some tt)
      else
        reason <- unlockHeldLocks_tick ;;
        match reason with
        | None => emit EvWgDone ;; ret (Some tt)
        | Some reason =>
            let interval := expBackoff interval in
            Printf "Unlocking old locks failed: %v. Retrying in %v.\n"
                   [AStr reason; ADur interval] ;;
            unlockHeldLocks_loop fuel' interval
        end
  end.

Definition unlockHeldLocks (fuel : nat) : M (option unit) :=
  unlockHeldLocks_loop fuel initialInterval.

(** *** runDaemon *)

(** [updateengine.UpdateStatusUpdatedNeedReboot], a constant of package
    [updateengine], which is not among the sources. *)
Variable UpdateStatusUpdatedNeedReboot : string.

Definition updateengine_New : M error :=
  emit EvUpdateengineNew ;; ret (updateengine_New_err E).

Definition login1_New : M (login1_Conn * error) :=
  emit EvLogin1New ;; ret (Login1Conn, login1_New_err E).

Definition GetStatus : M (goerror + string) :=
  emit EvGetStatus ;; ret (GetStatus_result E).

Definition Now : M Z := emit EvNow ;; ret (now E).

(** The receive [<-ch] of line 372: the main flow enters it, and gets out
    of it only if a status arrives. *)
Definition recv_status : M bool :=
  emit EvRecvStatus ;; ret (RebootNeededSignal_fires E).

(** The wait for the reboot window, lines 378-385. *)
Definition wait_for_window (period : option Periodic) : M unit :=
  match period with
  | Some p =>
      now <- Now ;;
      let sleeptime := DurationToStart p now in
      if sleeptime >? 0
      then Printf "Waiting for %s to reboot.\n" [ADur sleeptime] ;;
           Sleep sleeptime
      else ret tt
  | None => ret tt
  end.

(** [runDaemon] from line 327 on, once the strategy and the window are
    read.  The goroutines are put in sequence: the steps of the reaper are
    recorded where the main flow joins it, at [wg.Wait()], and
    [stop_ready] says at which of its [select]s it sees [stop] closed.
    The signal handler, which ends the process from outside this flow, is
    left out.  The result is [None] when the main flow has not returned:
    it waits in [<-ch] for a status that does not arrive, or the fuel is
    used up in one of the two loops.  The reaper goes on while the main
    flow waits in [<-ch]; as its steps are recorded at the join, a run
    that stays in [<-ch] shows none of them. *)
Definition runDaemon_coordinate (strategy : string) (period : option Periodic)
    (fuel : nat) : M (option Z) :=
  emit EvSignalNotify ;;
  err <- updateengine_New ;;
  match err with
  | Some e =>
      Fprintln_stderr [AStr "Error initializing update1 client:"; AErr e] ;;
      ret (Some 1)
  | None =>
      '(lgn, err) <- login1_New ;;
      match err with
      | Some e =>
          Fprintln_stderr [AStr "Error initializing login1 client:"; AErr e] ;;
          ret (Some 1)
      | None =>
          (if negb (String.eqb strategy StrategyReboot)
           then emit EvGoUnlockHeldLocks else ret tt) ;;
          emit EvGoRebootNeededSignal ;;
          let r := mkRebooter strategy lgn in
          result <- GetStatus ;;
          match result with
          | inl e =>
              Fprintln_stderr [AStr "Cannot get update engine status:"; AErr e] ;;
              ret (Some 1)
          | inr currentOperation =>
              Printf "locksmithd starting currentOperation=%q strategy=%q\n"
                     [AStr currentOperation; AStr strategy] ;;
              received <-
                (if negb (String.eqb currentOperation UpdateStatusUpdatedNeedReboot)
                 then recv_status else ret true) ;;
              if (received : bool) then
                emit EvCloseStop ;;
                emit EvWgWait ;;
                reaped <- (if negb (String.eqb strategy StrategyReboot)
                           then unlockHeldLocks fuel else ret (Some tt)) ;;
                match reaped with
                | None => ret None
                | Some _ =>
                    wait_for_window period ;;
                    reboot r fuel
                end
              else ret None
          end
      end
  end.

Definition runDaemon (fuel : nat) : M (option Z) :=
  strategy <- Getenv "REBOOT_STRATEGY" ;;
  let strategy := if String.eqb strategy "" then StrategyBestEffort else strategy in
  if String.eqb strategy StrategyOff then
    Fprintf_stderr "Reboot strategy is %q - shutting down.\n" [AStr strategy] ;;
    ret (Some 0)
  else
    startw <- Getenv "REBOOT_WINDOW_START" ;;
    lengthw <- Getenv "REBOOT_WINDOW_LENGTH" ;;
    if negb (Bool.eqb (String.eqb startw "") (String.eqb lengthw "")) then
      Fprintln_stderr
        [AStr "either both or neither $REBOOT_WINDOW_START and $REBOOT_WINDOW_LENGTH must be set"] ;;
      ret (Some 1)
    else
      let parsed : goerror + option Periodic :=
        if negb (String.eqb startw "") && negb (String.eqb lengthw "")
        then match ParsePeriodic startw lengthw with
             | inl err => inl err
             | inr p => inr (Some p)
             end
        else inr None in
      match parsed with
      | inl err =>
          Fprintf_stderr "error parsing reboot window: %s\n" [AErr err] ;;
          ret (Some 1)
      | inr period => runDaemon_coordinate strategy period fuel
      end.

End Daemon.

Arguments runDaemon {Periodic}.
Arguments runDaemon_coordinate {Periodic}.
Arguments wait_for_window {Periodic}.

(** ** Environments *)

(** [E] with other answers to the unit queries. *)
Definition with_units (E : env) (f : dbus_Conn -> string -> string -> goerror + string)
    : env :=
  {| dbus_New_err := dbus_New_err E; unit_property := f;
     getClient_err := getClient_err E; machine_id := machine_id E;
     Lock_err := Lock_err E; Unlock_err := Unlock_err E;
     utmp_lines := utmp_lines E; stop_ready := stop_ready E;
     environ := environ E; updateengine_New_err := updateengine_New_err E;
     login1_New_err := login1_New_err E; GetStatus_result := GetStatus_result E;
     now := now E;
     RebootNeededSignal_fires := RebootNeededSignal_fires E |}.

(** [E] with another process environment. *)
Definition with_environ (E : env) (vars : list (string * string)) : env :=
  {| dbus_New_err := dbus_New_err E; unit_property := unit_property E;
     getClient_err := getClient_err E; machine_id := machine_id E;
     Lock_err := Lock_err E; Unlock_err := Unlock_err E;
     utmp_lines := utmp_lines E; stop_ready := stop_ready E;
     environ := vars; updateengine_New_err := updateengine_New_err E;
     login1_New_err := login1_New_err E; GetStatus_result := GetStatus_result E;
     now := now E;
     RebootNeededSignal_fires := RebootNeededSignal_fires E |}.

(** ** Specification-side definitions *)

(** What a query of a unit's ActiveState tells: active when the query
    succeeds with a value other than "inactive". *)
Definition service_active (E : env) (sys : dbus_Conn) (service : string) : bool :=
  match unit_property E sys service "ActiveState" with
  | inr value => negb (String.eqb value "inactive")
  | inl _ => false
  end.

(** The first service, in list order, that is active. *)
Definition first_active (E : env) (sys : dbus_Conn) (services : list string)
    : option string :=
  find (service_active E sys) services.

(** The last service, in list order, that is active. *)
Definition last_active (E : env) (sys : dbus_Conn) (services : list string)
    : option string :=
  find (service_active E sys) (rev services).

(** The environment in which every failed unit query answers "inactive"
    instead. *)
Definition errors_as_inactive (E : env) : env :=
  with_units E (fun sys unit prop =>
    match unit_property E sys unit prop with
    | inl _ => inr "inactive"
    | inr value => inr value
    end).

(** The outcome of [lck.Lock()] that lets the executor go on: success, or
    the lock is already held. *)
Definition acquired (err : error) : bool := is_nil err || is_ErrExist err.

(** The outcome of [lck.Unlock()] that ends the reaper: success, or there
    was no lock to release. *)
Definition released (err : error) : bool := is_nil err || is_ErrNotExist err.

(** What [n] failed acquisitions in a row leave in the trace, the first of
    them being the [k]-th call of [Lock]: each is followed by the retry
    message and a sleep of the next backoff interval. *)
Fixpoint retry_events (E : env) (lck : Lock) (n k : nat) (interval : Duration)
    (t : trace) : trace :=
  match n with
  | O => t
  | S n' =>
      let interval := expBackoff interval in
      retry_events E lck n' (S k) interval
        (EvSleep interval
         :: EvPrintf "Retrying in %v. Error locking: %v\n"
              [ADur interval;
               match Lock_err E k with Some e => AErr e | None => AStr "" end]
         :: EvLock lck :: t)
  end.

(** What [rebootAndSleep] leaves in the trace after the broadcast, newest
    first: with [delay], the notice and the five-minute sleep come before
    the reboot request. *)
Definition reboot_events (delay : bool) (t : trace) : trace :=
  EvSleep (Hour * 24 * 7)
  :: EvPrintln [AStr "Reboot sent. Going to sleep."]
  :: EvReboot false
  :: (if delay
      then EvSleep loginsRebootDelay
           :: EvPrintf "Logins detected, delaying reboot for %d minutes.\n" [ADur 5]
           :: t
      else t).

(** The second half of the reaper's timer case, lines 275-285: set up
    the lock handle and release the lock if it is held. *)
Definition release_step (E : env) (t : trace) : option string * trace :=
  match setupLock E t with
  | (inl e, t2) => (Some ("error setting up lock: " ++ Error e), t2)
  | (inr lck, t2) =>
      match unlockIfHeld E lck t2 with
      | (None, t3) => (None, t3)
      | (Some e, t3) => (Some (Error e), t3)
      end
  end.

(** The message the reaper prints when it defers. *)
Definition deferred_message (reason : string) (interval : Duration) : event :=
  EvPrintf "Unlocking old locks failed: %v. Retrying in %v.\n"
    [AStr reason; ADur interval].

(** Whether the reaper, entering its timer case with trace [t], gets as
    far as calling [release()]: the probe has no error; the service is
    active, or it is inactive and the store is reachable; and the lock
    handle can be set up (etcd client made, machine id read).  The
    reachability check is a [getClient] call of its own, made only when
    the service is inactive, so the set-up's [getClient] is then the next
    one. *)
Definition release_due (E : env) (t : trace) : bool :=
  match fst (etcdActive E t) with
  | (_, _, Some _) => false
  | (active, _, None) =>
      let g := calls is_GetClient t in
      (active || is_nil (getClient_err E g))
      && is_nil (getClient_err E (if active then g else S g))
      && negb (String.eqb (machine_id E (calls is_MachineID t)) "")
  end.

(** What the reaper's timer case answers once [release()] has been
    called: [None] (the task is over) on success and on NotHeld, the text
    of the error otherwise. *)
Definition release_outcome (err : error) : option string :=
  match err with
  | None | Some ErrNotExist => None
  | Some e => Some (Error e)
  end.

(** What [os.Getenv] answers in [E]. *)
Definition getenv (E : env) (key : string) : string :=
  match lookup_env key (environ E) with Some v => v | None => "" end.

(** The strategy [runDaemon] works with: best-effort when none is
    configured. *)
Definition configured_strategy (E : env) : string :=
  if String.eqb (getenv E "REBOOT_STRATEGY") "" then StrategyBestEffort
  else getenv E "REBOOT_STRATEGY".

(** The three reads of the environment that open [runDaemon], newest
    first. *)
Definition config_reads (t : trace) : trace :=
  EvGetenv "REBOOT_WINDOW_LENGTH" :: EvGetenv "REBOOT_WINDOW_START"
  :: EvGetenv "REBOOT_STRATEGY" :: t.

(** The queries the probe makes on the connection [sys], newest first. *)
Definition query_events (sys : dbus_Conn) (services : list string) : trace :=
  rev (map (fun s => EvGetUnitProperty sys s "ActiveState") services).

(** ** Example environments *)

(** An environment in which nothing fails: the bus answers, every unit is
    "inactive", etcd is reachable, no lock is held for this machine, no
    terminal is open, and the reaper is stopped at its first [select]. *)
Definition env_quiet : env :=
  {| dbus_New_err := fun _ => None;
     unit_property := fun _ _ _ => inr "inactive";
     getClient_err := fun _ => None;
     machine_id := fun _ => "0123456789abcdef";
     Lock_err := fun _ => None;
     Unlock_err := fun _ => Some ErrNotExist;
     utmp_lines := fun _ => [];
     stop_ready := fun _ => true;
     environ := [];
     updateengine_New_err := None;
     login1_New_err := None;
     GetStatus_result := inr "UPDATE_STATUS_UPDATED_NEED_REBOOT";
     now := 0;
     RebootNeededSignal_fires := true |}.

(** Both etcd units are running. *)
Definition env_both_active : env :=
  with_units env_quiet (fun _ _ _ => inr "active").

(** systemd knows neither unit: every query fails. *)
Definition env_units_unknown : env :=
  with_units env_quiet (fun _ _ _ => inl (Errorf "Unit not found")).

(** The lock service of the retry scenario: acquisition fails twice, then
    succeeds. *)
Definition env_lock_fails_twice : env :=
  {| dbus_New_err := dbus_New_err env_quiet;
     unit_property := unit_property env_quiet;
     getClient_err := getClient_err env_quiet;
     machine_id := machine_id env_quiet;
     Lock_err := fun k => if (k <? 2)%nat then Some (Errorf "etcd timeout") else None;
     Unlock_err := Unlock_err env_quiet;
     utmp_lines := utmp_lines env_quiet;
     stop_ready := stop_ready env_quiet;
     environ := [("REBOOT_STRATEGY", "etcd-lock")];
     updateengine_New_err := None;
     login1_New_err := None;
     GetStatus_result := GetStatus_result env_quiet;
     now := 0;
     RebootNeededSignal_fires := true |}.

(** Two users are logged in, on tty1 and pts/0; a third utmp entry has no
    line that can be opened. *)
Definition env_logins : env :=
  {| dbus_New_err := dbus_New_err env_quiet;
     unit_property := unit_property env_quiet;
     getClient_err := getClient_err env_quiet;
     machine_id := machine_id env_quiet;
     Lock_err := Lock_err env_quiet;
     Unlock_err := Unlock_err env_quiet;
     utmp_lines := fun _ => [("tty1", true); ("~", false); ("pts/0", true)];
     stop_ready := stop_ready env_quiet;
     environ := environ env_quiet;
     updateengine_New_err := None;
     login1_New_err := None;
     GetStatus_result := GetStatus_result env_quiet;
     now := 0;
     RebootNeededSignal_fires := true |}.

(** Both etcd units are running, etcd is reachable, no lock is held for
    this machine, and the reaper is not told to stop. *)
Definition env_reaper_active : env :=
  {| dbus_New_err := dbus_New_err env_both_active;
     unit_property := unit_property env_both_active;
     getClient_err := getClient_err env_both_active;
     machine_id := machine_id env_both_active;
     Lock_err := Lock_err env_both_active;
     Unlock_err := Unlock_err env_both_active;
     utmp_lines := utmp_lines env_both_active;
     stop_ready := fun _ => false;
     environ := environ env_both_active;
     updateengine_New_err := None;
     login1_New_err := None;
     GetStatus_result := GetStatus_result env_both_active;
     now := 0;
     RebootNeededSignal_fires := true |}.

(** As [env_reaper_active], but the first release fails with an error of
    the store and the second finds the lock gone. *)
Definition env_release_fails_once : env :=
  {| dbus_New_err := dbus_New_err env_both_active;
     unit_property := unit_property env_both_active;
     getClient_err := getClient_err env_both_active;
     machine_id := machine_id env_both_active;
     Lock_err := Lock_err env_both_active;
     Unlock_err := fun k => match k with
                            | O => Some (Errorf "etcd timeout")
                            | S _ => Some ErrNotExist
                            end;
     utmp_lines := utmp_lines env_both_active;
     stop_ready := fun _ => false;
     environ := environ env_both_active;
     updateengine_New_err := None;
     login1_New_err := None;
     GetStatus_result := GetStatus_result env_both_active;
     now := 0;
     RebootNeededSignal_fires := true |}.

(** Strategy off, and only the start of the window set. *)
Definition env_off_window_start_only : env :=
  with_environ env_quiet
    [("REBOOT_STRATEGY", "off"); ("REBOOT_WINDOW_START", "02:00")].

(** Strategy reboot, the start of the window set to the empty string and
    its length not set. *)
Definition env_window_start_empty : env :=
  with_environ env_quiet
    [("REBOOT_STRATEGY", "reboot"); ("REBOOT_WINDOW_START", "")].

(** Strategy reboot, and only the length of the window set. *)
Definition env_window_length_only : env :=
  with_environ env_quiet
    [("REBOOT_STRATEGY", "reboot"); ("REBOOT_WINDOW_LENGTH", "1h")].

(** Strategy reboot, and a window whose start is no time of day. *)
Definition env_window_unparsable : env :=
  with_environ env_quiet
    [("REBOOT_STRATEGY", "reboot"); ("REBOOT_WINDOW_START", "25:99");
     ("REBOOT_WINDOW_LENGTH", "1h")].

(** Strategy reboot and no window. *)
Definition env_no_window : env :=
  with_environ env_quiet [("REBOOT_STRATEGY", "reboot")].

(** Stand-ins for package [timeutil] in the examples: a window is its two
    strings, nothing parses but "02:00" with "1h", and the window is
    always an hour away. *)
Definition example_ParsePeriodic (start length : string)
    : goerror + (string * string) :=
  if String.eqb start "02:00" && String.eqb length "1h"
  then inr (start, length)
  else inl (Errorf "cannot parse the reboot window").

Definition example_DurationToStart (p : string * string) (now : Z) : Duration :=
  Hour.

Definition example_NeedReboot : string := "UPDATE_STATUS_UPDATED_NEED_REBOOT".

(** ** Event classes *)

Definition is_GetUnitProperty (e : event) : bool :=
  match e with EvGetUnitProperty _ _ _ => true | _ => false end.
Definition is_DbusClose (e : event) : bool :=
  match e with EvDbusClose _ => true | _ => false end.
Definition is_OpenFile (e : event) : bool :=
  match e with EvOpenFile _ => true | _ => false end.
Definition is_GoWrite (e : event) : bool :=
  match e with EvGoWrite _ _ => true | _ => false end.
Definition is_WgDone (e : event) : bool :=
  match e with EvWgDone => true | _ => false end.
Definition is_Sleep (e : event) : bool :=
  match e with EvSleep _ => true | _ => false end.

(** The events of the liveness probe. *)
Definition probe_event (e : event) : bool :=
  match e with
  | EvDbusNew | EvGetUnitProperty _ _ _ | EvDbusClose _ => true
  | _ => false
  end.

(** The events of [setupLock]. *)
Definition setup_event (e : event) : bool :=
  match e with
  | EvGetClient | EvMachineID _ | EvLockNew _ _ => true
  | _ => false
  end.

(** The events of [unlockIfHeld]. *)
Definition release_event (e : event) : bool :=
  match e with
  | EvUnlock _ | EvPrintln _ => true
  | _ => false
  end.

(** The events of [rebootAndSleep], [broadcast] included. *)
Definition notify_event (e : event) : bool :=
  match e with
  | EvSetutent | EvOpenFile _ | EvGoWrite _ _ | EvPrintf _ _ | EvSleep _
  | EvReboot _ | EvPrintln _ => true
  | _ => false
  end.

(** What the reaper's timer case may add to the trace: probe, set-up and
    release events only. *)
Definition tick_event (e : event) : bool :=
  probe_event e || setup_event e || release_event e.

(** All that the stale-lock reaper may do: wait on its timer and on
    [stop], probe systemd, reach for etcd, build a handle, release, print,
    and sign off. *)
Definition reaper_event (e : event) : bool :=
  probe_event e || setup_event e || release_event e
  || match e with
     | EvAfter _ | EvSelect _ | EvWgDone | EvPrintf _ _ => true
     | _ => false
     end.

(** All that the reboot executor may do. *)
Definition executor_event (e : event) : bool :=
  probe_event e || setup_event e || release_event e || notify_event e
  || match e with
     | EvLock _ | EvFprintln_stderr _ => true
     | _ => false
     end.

(** [t'] is [t] with more events on top, all of them in the class [q]. *)
Definition extends (q : event -> bool) (t t' : trace) : Prop :=
  exists new, t' = (new ++ t)%list /\ forallb q new = true.

(** What [broadcast] does for one utmp entry, in order: it tries to open
    the line, and starts a writer when that gave a tty. *)
Definition tty_events (msg : string) (entry : string * bool) : list event :=
  let (line, opened) := entry in
  EvOpenFile ("/dev/" ++ line)
  :: (if opened then [EvGoWrite line msg] else []).

(** ** More example environments *)

Definition with_bus (E : env) (f : nat -> error) : env :=
  {| dbus_New_err := f; unit_property := unit_property E;
     getClient_err := getClient_err E; machine_id := machine_id E;
     Lock_err := Lock_err E; Unlock_err := Unlock_err E;
     utmp_lines := utmp_lines E; stop_ready := stop_ready E;
     environ := environ E; updateengine_New_err := updateengine_New_err E;
     login1_New_err := login1_New_err E; GetStatus_result := GetStatus_result E;
     now := now E;
     RebootNeededSignal_fires := RebootNeededSignal_fires E |}.

Definition with_etcd (E : env) (client : nat -> error) (id : nat -> string)
    (lock unlock : nat -> error) : env :=
  {| dbus_New_err := dbus_New_err E; unit_property := unit_property E;
     getClient_err := client; machine_id := id;
     Lock_err := lock; Unlock_err := unlock;
     utmp_lines := utmp_lines E; stop_ready := stop_ready E;
     environ := environ E; updateengine_New_err := updateengine_New_err E;
     login1_New_err := login1_New_err E; GetStatus_result := GetStatus_result E;
     now := now E;
     RebootNeededSignal_fires := RebootNeededSignal_fires E |}.

Definition with_stop (E : env) (f : nat -> bool) : env :=
  {| dbus_New_err := dbus_New_err E; unit_property := unit_property E;
     getClient_err := getClient_err E; machine_id := machine_id E;
     Lock_err := Lock_err E; Unlock_err := Unlock_err E;
     utmp_lines := utmp_lines E; stop_ready := f;
     environ := environ E; updateengine_New_err := updateengine_New_err E;
     login1_New_err := login1_New_err E; GetStatus_result := GetStatus_result E;
     now := now E;
     RebootNeededSignal_fires := RebootNeededSignal_fires E |}.

Definition with_services (E : env) (ue lgn : error) (status : goerror + string)
    : env :=
  {| dbus_New_err := dbus_New_err E; unit_property := unit_property E;
     getClient_err := getClient_err E; machine_id := machine_id E;
     Lock_err := Lock_err E; Unlock_err := Unlock_err E;
     utmp_lines := utmp_lines E; stop_ready := stop_ready E;
     environ := environ E; updateengine_New_err := ue;
     login1_New_err := lgn; GetStatus_result := status;
     now := now E;
     RebootNeededSignal_fires := RebootNeededSignal_fires E |}.

(** The system bus cannot be reached. *)
Definition env_bus_down : env :=
  with_bus env_quiet (fun _ => Some (Errorf "no system bus")).

(** /etc/machine-id cannot be read. *)
Definition env_no_machine_id : env :=
  with_etcd env_quiet (getClient_err env_quiet) (fun _ => "")
    (Lock_err env_quiet) (Unlock_err env_quiet).

(** etcd cannot be reached, the etcd units are inactive, and the reaper is
    never told to stop. *)
Definition env_store_unreachable : env :=
  with_stop
    (with_etcd env_quiet (fun _ => Some (Errorf "connection refused"))
       (machine_id env_quiet) (Lock_err env_quiet) (Unlock_err env_quiet))
    (fun _ => false).

(** The lock is never obtained. *)
Definition env_lock_never : env :=
  with_etcd env_quiet (getClient_err env_quiet) (machine_id env_quiet)
    (fun _ => Some (Errorf "semaphore is full")) (Unlock_err env_quiet).

(** The bus is down and the reaper's third [select] sees [stop]. *)
Definition env_stop_at_third : env :=
  with_stop env_bus_down (fun k => (2 <=? k)%nat).

(** update_engine cannot be reached. *)
Definition env_no_update_engine : env :=
  with_services (with_environ env_quiet [("REBOOT_STRATEGY", "etcd-lock")])
    (Some (Errorf "no update_engine")) None (GetStatus_result env_quiet).

(** ** The orchestrator *)

(** What [runDaemon] itself may do before it hands over to [reboot]: read
    its configuration, set up the signal handler, connect to
    update_engine and login1, start and join its goroutines, read the
    status, wait for the window, and print. *)
Definition orchestrator_event (e : event) : bool :=
  match e with
  | EvGetenv _ | EvSignalNotify | EvUpdateengineNew | EvLogin1New
  | EvGoUnlockHeldLocks | EvGoRebootNeededSignal | EvGetStatus | EvRecvStatus
  | EvCloseStop | EvWgWait | EvNow | EvSleep _ | EvPrintf _ _
  | EvFprintln_stderr _ | EvFprintf_stderr _ _ => true
  | _ => false
  end.

(** The same, the reaper included. *)
Definition daemon_event (e : event) : bool :=
  orchestrator_event e || reaper_event e.

(** update_engine and login1 are there and the status can be read. *)
Definition connected (E : env) : Prop :=
  updateengine_New_err E = None /\ login1_New_err E = None
  /\ exists status, GetStatus_result E = inr status.

(** The window configuration is accepted: both variables read as empty, or
    both are non-empty and parse. *)
Definition window_accepted {Periodic : Type}
    (ParsePeriodic : string -> string -> goerror + Periodic) (E : env) : Prop :=
  (getenv E "REBOOT_WINDOW_START" = "" /\ getenv E "REBOOT_WINDOW_LENGTH" = "")
  \/ (getenv E "REBOOT_WINDOW_START" <> ""
      /\ getenv E "REBOOT_WINDOW_LENGTH" <> ""
      /\ exists p, ParsePeriodic (getenv E "REBOOT_WINDOW_START")
                     (getenv E "REBOOT_WINDOW_LENGTH") = inr p).

(** The durations the reaper's timer was set to, in the order they were
    set. *)
Definition timer_of (e : event) : list Duration :=
  match e with EvAfter d => [d] | _ => [] end.

Definition timers (t : trace) : list Duration := flat_map timer_of (rev t).

(** The main flow of [runDaemon] stays in the receive [<-ch]: the status
    read does not ask for a reboot, and no status arrives on the
    channel. *)
Definition waits_for_signal (E : env) (NeedReboot : string) : bool :=
  match GetStatus_result E with
  | inr status =>
      negb (String.eqb status NeedReboot) && negb (RebootNeededSignal_fires E)
  | inl _ => false
  end.

Definition with_signal (E : env) (status : goerror + string) (fires : bool)
    : env :=
  {| dbus_New_err := dbus_New_err E; unit_property := unit_property E;
     getClient_err := getClient_err E; machine_id := machine_id E;
     Lock_err := Lock_err E; Unlock_err := Unlock_err E;
     utmp_lines := utmp_lines E; stop_ready := stop_ready E;
     environ := environ E; updateengine_New_err := updateengine_New_err E;
     login1_New_err := login1_New_err E; GetStatus_result := status;
     now := now E;
     RebootNeededSignal_fires := fires |}.

(** Strategy reboot, no update pending, and none ever comes. *)
Definition env_idle_for_ever : env :=
  with_signal env_no_window (inr "UPDATE_STATUS_IDLE") false.

(** Strategy reboot, no update pending at first, and then one comes. *)
Definition env_update_comes : env :=
  with_signal env_no_window (inr "UPDATE_STATUS_IDLE") true.

(** * Properties *)

(** ** Backoff policy *)

Lemma wrap64_id (z : Z) : in_int64 z -> wrap64 z = z.
Proof.
  unfold in_int64, int64_min, int64_max, wrap64. intros H.
  rewrite Z.mod_small; lia.
Qed.

Lemma expBackoff_wrapped (i : Duration) :
  expBackoff i = Z.min (wrap64 (i * 2)) maxInterval.
Proof.
  unfold expBackoff. destruct (Z.gtb_spec (wrap64 (i * 2)) maxInterval); lia.
Qed.

Lemma wrap64_range (z : Z) : in_int64 (wrap64 z).
Proof.
  unfold in_int64, int64_min, int64_max, wrap64.
  pose proof (Z.mod_pos_bound (z + 2 ^ 63) (2 ^ 64) ltac:(lia)). lia.
Qed.

(** C5 (as amended): for every duration [i], the result of [expBackoff]
    is a 64-bit duration (the function is total: it cannot fail); and for
    every [i] whose double is representable in 64 bits, [expBackoff i] is
    the minimum of [2 * i] and [maxInterval]; in particular it is
    [maxInterval] from [maxInterval] on. *)
Theorem expBackoff_min (i : Duration) :
  in_int64 (expBackoff i)
  /\ (- 2 ^ 62 <= i < 2 ^ 62 ->
      expBackoff i = Z.min (2 * i) maxInterval
      /\ (maxInterval <= i -> expBackoff i = maxInterval)).
Proof.
  rewrite expBackoff_wrapped. split.
  - pose proof (wrap64_range (i * 2)) as Hw.
    unfold in_int64, int64_min, int64_max in *.
    assert (Hmax : maxInterval = 300000000000) by reflexivity. lia.
  - intros Hi.
    assert (Hw : wrap64 (i * 2) = 2 * i).
    { rewrite wrap64_id; [lia | unfold in_int64, int64_min, int64_max; lia]. }
    rewrite Hw. split; [reflexivity|].
    intros Hm. assert (0 < maxInterval) by reflexivity. lia.
Qed.

Lemma expBackoff_min_witness :
  - 2 ^ 62 <= maxInterval < 2 ^ 62
  /\ in_int64 (expBackoff maxInterval)
  /\ expBackoff maxInterval = Z.min (2 * maxInterval) maxInterval
  /\ (maxInterval <= maxInterval -> expBackoff maxInterval = maxInterval).
Proof.
  split; [vm_compute; split; [discriminate | reflexivity] |].
  destruct (expBackoff_min maxInterval) as [Hrange Hmin].
  split; [exact Hrange|].
  apply Hmin. vm_compute; split; [discriminate | reflexivity].
Defined.

(** C5, as stated, fails where the doubling overflows: at 2^62 ns, a
    duration above [maxInterval], the result is the wrapped double. *)
Lemma expBackoff_overflow :
  in_int64 (2 ^ 62) /\ maxInterval <= 2 ^ 62
  /\ expBackoff (2 ^ 62) = - 2 ^ 63
  /\ expBackoff (2 ^ 62) <> maxInterval
  /\ expBackoff (2 ^ 62) <> Z.min (2 * 2 ^ 62) maxInterval.
Proof.
  repeat split; vm_compute; congruence.
Qed.

(** ** Running the monad *)

Lemma calls_cons (p : event -> bool) (e : event) (t : trace) :
  calls p (e :: t) = if p e then S (calls p t) else calls p t.
Proof. unfold calls. simpl. destruct (p e); reflexivity. Qed.

Lemma bind_run {A B : Type} (m : M A) (f : A -> M B) (t : trace) :
  bind m f t = f (fst (m t)) (snd (m t)).
Proof. unfold bind. destruct (m t); reflexivity. Qed.

Lemma find_snoc {A : Type} (p : A -> bool) (l : list A) (x : A) :
  find p (l ++ [x])%list =
  match find p l with
  | Some y => Some y
  | None => if p x then Some x else None
  end.
Proof.
  induction l as [|a l IH]; simpl.
  - reflexivity.
  - destruct (p a); [reflexivity | exact IH].
Qed.

(** ** The liveness probe *)

(** What the [range] loop computes: each service is queried once, in list
    order; the flag is set when some service is active, and the name is
    that of the last active one. *)
Lemma etcdActive_range_run (E : env) (sys : dbus_Conn) (services : list string) :
  forall (active : bool) (name : string) (t : trace),
  etcdActive_range E sys services active name t =
  ((active || existsb (service_active E sys) services,
    match last_active E sys services with Some n => n | None => name end),
   (query_events sys services ++ t)%list).
Proof.
  unfold last_active, query_events.
  induction services as [|s rest IH]; intros active name t.
  - simpl. rewrite orb_false_r. reflexivity.
  - cbn [etcdActive_range]. rewrite bind_run. cbn [GetUnitProperty fst snd].
    set (t' := EvGetUnitProperty sys s "ActiveState" :: t).
    assert (Hstep :
      match unit_property E sys s "ActiveState" with
      | inl _ => etcdActive_range E sys rest active name
      | inr value =>
          if String.eqb value "inactive"
          then etcdActive_range E sys rest active name
          else etcdActive_range E sys rest true s
      end t' =
      etcdActive_range E sys rest (active || service_active E sys s)
        (if service_active E sys s then s else name) t').
    { unfold service_active.
      destruct (unit_property E sys s "ActiveState") as [e|value].
      - rewrite orb_false_r. reflexivity.
      - destruct (String.eqb value "inactive"); cbn [negb].
        + rewrite orb_false_r. reflexivity.
        + rewrite orb_true_r. reflexivity. }
    rewrite Hstep, IH. clear IH Hstep. subst t'.
    cbn [existsb map rev]. rewrite find_snoc, <- app_assoc, orb_assoc. cbn [app].
    destruct (find (service_active E sys) (rev rest));
      destruct (service_active E sys s); reflexivity.
Qed.

(** [etcdActive] in closed form. *)
Lemma etcdActive_run (E : env) (t : trace) :
  etcdActive E t =
  let k := calls is_DbusNew t in
  match dbus_New_err E k with
  | Some e => ((false, "", Some e), EvDbusNew :: t)
  | None =>
      ((existsb (service_active E k) etcdServices,
        match last_active E k etcdServices with Some n => n | None => "" end,
        None),
       EvDbusClose k :: (query_events k etcdServices ++ EvDbusNew :: t)%list)
  end.
Proof.
  unfold etcdActive. rewrite bind_run. cbn [dbus_New fst snd].
  destruct (dbus_New_err E (calls is_DbusNew t)) as [e|]; [reflexivity|].
  rewrite bind_run, etcdActive_range_run. reflexivity.
Qed.

(** The probe touches nothing but the system bus. *)
Lemma etcdActive_calls (E : env) (p : event -> bool) (t : trace) :
  p EvDbusNew = false ->
  (forall sys unit prop, p (EvGetUnitProperty sys unit prop) = false) ->
  (forall sys, p (EvDbusClose sys) = false) ->
  calls p (snd (etcdActive E t)) = calls p t.
Proof.
  intros Hn Hq Hc. rewrite etcdActive_run. cbv zeta.
  destruct (dbus_New_err E (calls is_DbusNew t)); cbn [snd].
  - rewrite calls_cons, Hn. reflexivity.
  - unfold query_events, etcdServices. cbn [map rev app].
    rewrite !calls_cons, Hn, Hc, !Hq. reflexivity.
Qed.

(** C3 (the code departs from it): when the bus answers, the probe says
    active exactly when some listed service is active, and inactive with
    no error otherwise; but the name it returns is that of the last
    active service in list order, not of the first: the [break] of the
    default case ends the [switch], not the loop.  With both etcd units
    running it names etcd2.service, where the first active one is
    etcd.service. *)
Theorem etcdActive_names_last_active :
  (forall (E : env) (t : trace),
     fst (etcdActive E t) =
     match dbus_New_err E (calls is_DbusNew t) with
     | Some e => (false, "", Some e)
     | None =>
         (existsb (service_active E (calls is_DbusNew t)) etcdServices,
          match last_active E (calls is_DbusNew t) etcdServices with
          | Some n => n
          | None => ""
          end,
          None)
     end)
  /\ fst (etcdActive env_both_active []) = (true, "etcd2.service", None)
  /\ first_active env_both_active 0%nat etcdServices = Some "etcd.service"
  /\ events (snd (etcdActive env_both_active [])) =
     [EvDbusNew;
      EvGetUnitProperty 0%nat "etcd.service" "ActiveState";
      EvGetUnitProperty 0%nat "etcd2.service" "ActiveState";
      EvDbusClose 0%nat].
Proof.
  split.
  - intros E t. rewrite etcdActive_run. cbv zeta.
    destruct (dbus_New_err E (calls is_DbusNew t)); reflexivity.
  - split; [reflexivity|]. split; reflexivity.
Qed.

(** ** The lock gate *)

Lemma useLock_best_effort_run (E : env) (r : rebooter) (t : trace) :
  strategy r = StrategyBestEffort ->
  fst (useLock E r t) =
  match dbus_New_err E (calls is_DbusNew t) with
  | Some e => (false, Some e)
  | None => (existsb (service_active E (calls is_DbusNew t)) etcdServices, None)
  end.
Proof.
  intros Hs. unfold useLock. rewrite Hs, String.eqb_refl.
  rewrite bind_run, etcdActive_run. cbv zeta.
  destruct (dbus_New_err E (calls is_DbusNew t)) as [e|]; cbn [fst snd].
  - reflexivity.
  - destruct (existsb (service_active E (calls is_DbusNew t)) etcdServices);
      reflexivity.
Qed.

(** C4: the lock gate, strategy by strategy.  [Reboot] answers
    [(false, nil)] and [EtcdLock] answers [(true, nil)] without touching
    anything; [BestEffort] hands on the error of the probe when it has
    one, and otherwise answers [(true, nil)] exactly when some monitored
    service is active, else [(false, nil)]; any other strategy gives the
    unknown-strategy error. *)
Theorem useLock_by_strategy (E : env) (r : rebooter) (t : trace) :
  (strategy r = StrategyReboot -> useLock E r t = ((false, None), t))
  /\ (strategy r = StrategyEtcdLock -> useLock E r t = ((true, None), t))
  /\ (strategy r = StrategyBestEffort ->
      (forall e, snd (fst (etcdActive E t)) = Some e ->
                 fst (useLock E r t) = (false, Some e))
      /\ (snd (fst (etcdActive E t)) = None ->
          fst (useLock E r t) =
          (existsb (service_active E (calls is_DbusNew t)) etcdServices, None)))
  /\ (strategy r <> StrategyReboot -> strategy r <> StrategyEtcdLock ->
      strategy r <> StrategyBestEffort ->
      useLock E r t =
      ((false, Some (Errorf ("Unknown strategy: " ++ strategy r))), t)).
Proof.
  repeat split.
  - intros Hs. unfold useLock. rewrite Hs. reflexivity.
  - intros Hs. unfold useLock. rewrite Hs. reflexivity.
  - intros e He. rewrite useLock_best_effort_run by assumption.
    rewrite etcdActive_run in He. cbv zeta in He.
    destruct (dbus_New_err E (calls is_DbusNew t)); cbn [fst snd] in He.
    + congruence.
    + discriminate.
  - intros He. rewrite useLock_best_effort_run by assumption.
    rewrite etcdActive_run in He. cbv zeta in He.
    destruct (dbus_New_err E (calls is_DbusNew t)); cbn [fst snd] in He.
    + discriminate.
    + reflexivity.
  - intros Hr Hl Hb. unfold useLock.
    apply String.eqb_neq in Hr, Hl, Hb. rewrite Hr, Hl, Hb. reflexivity.
Qed.

Lemma useLock_by_strategy_witness :
  useLock env_both_active (mkRebooter "reboot" Login1Conn) [] = ((false, None), [])
  /\ useLock env_quiet (mkRebooter "etcd-lock" Login1Conn) [] = ((true, None), [])
  /\ fst (useLock env_both_active (mkRebooter "best-effort" Login1Conn) [])
     = (true, None)
  /\ useLock env_quiet (mkRebooter "off" Login1Conn) [] =
     ((false, Some (Errorf "Unknown strategy: off")), []).
Proof.
  split; [|split; [|split]].
  - apply (useLock_by_strategy env_both_active (mkRebooter "reboot" Login1Conn) []).
    reflexivity.
  - apply (useLock_by_strategy env_quiet (mkRebooter "etcd-lock" Login1Conn) []).
    reflexivity.
  - apply (useLock_by_strategy env_both_active
             (mkRebooter "best-effort" Login1Conn) []); reflexivity.
  - apply (useLock_by_strategy env_quiet (mkRebooter "off" Login1Conn) []);
      discriminate.
Defined.

(** C10: the error the probe returns is the error of [dbus.New()] and
    nothing else; a unit query that fails counts as an inactive unit (the
    probe answers as if the query had said "inactive"); so when the bus
    is there and every query fails, the probe answers [(false, "", nil)]
    and strategy [BestEffort] goes on without the lock. *)
Theorem etcdActive_error_only_from_bus (E : env) (t : trace) :
  snd (fst (etcdActive E t)) = dbus_New_err E (calls is_DbusNew t)
  /\ fst (etcdActive E t) = fst (etcdActive (errors_as_inactive E) t)
  /\ (dbus_New_err E (calls is_DbusNew t) = None ->
      (forall s, In s etcdServices ->
         exists e, unit_property E (calls is_DbusNew t) s "ActiveState" = inl e) ->
      fst (etcdActive E t) = (false, "", None)
      /\ forall r, strategy r = StrategyBestEffort ->
                   fst (useLock E r t) = (false, None)).
Proof.
  set (k := calls is_DbusNew t).
  assert (Hrun := etcdActive_run E t). cbv zeta in Hrun. fold k in Hrun.
  repeat split.
  - rewrite Hrun. destruct (dbus_New_err E k); reflexivity.
  - rewrite Hrun, etcdActive_run. cbv zeta. fold k.
    cbn [errors_as_inactive with_units dbus_New_err].
    destruct (dbus_New_err E k); [reflexivity|]. cbn [fst].
    unfold last_active, etcdServices, service_active.
    cbn [existsb rev app find errors_as_inactive with_units unit_property].
    destruct (unit_property E k "etcd.service" "ActiveState");
      destruct (unit_property E k "etcd2.service" "ActiveState"); reflexivity.
  - rewrite Hrun. rewrite H. cbn [fst].
    destruct (H0 "etcd.service") as [e1 H1]; [simpl; auto|].
    destruct (H0 "etcd2.service") as [e2 H2]; [simpl; auto|].
    unfold last_active, etcdServices, service_active.
    cbn [existsb rev app find]. rewrite H1, H2. reflexivity.
  - intros r Hr. rewrite useLock_best_effort_run by assumption. fold k.
    rewrite H.
    destruct (H0 "etcd.service") as [e1 H1]; [simpl; auto|].
    destruct (H0 "etcd2.service") as [e2 H2]; [simpl; auto|].
    unfold etcdServices, service_active. cbn [existsb]. rewrite H1, H2.
    reflexivity.
Qed.

Lemma etcdActive_error_only_from_bus_witness :
  fst (etcdActive env_units_unknown []) = (false, "", None)
  /\ fst (useLock env_units_unknown (mkRebooter "best-effort" Login1Conn) [])
     = (false, None).
Proof.
  destruct (etcdActive_error_only_from_bus env_units_unknown []) as (_ & _ & H).
  destruct H as [Ha Hu].
  - reflexivity.
  - intros s _. exists (Errorf "Unit not found"). reflexivity.
  - split; [exact Ha | apply Hu; reflexivity].
Defined.

(** ** Notification and reboot *)

Lemma broadcast_loop_counts (msg : string) (entries : list (string * bool)) :
  forall (cnt : Z) (t : trace),
  0 <= cnt -> cnt + Z.of_nat (List.length entries) < 2 ^ 64 ->
  fst (broadcast_loop msg entries cnt t)
  = cnt + Z.of_nat (List.length (filter snd entries)).
Proof.
  induction entries as [|[line opened] rest IH]; intros cnt t Hc Hlen.
  - simpl. lia.
  - cbn [broadcast_loop]. rewrite bind_run. cbn [emit fst snd].
    cbn [List.length filter] in *. destruct opened; cbn [snd].
    + rewrite bind_run. cbn [emit fst snd].
      assert (Hw : wrap_uint (cnt + 1) = cnt + 1).
      { unfold wrap_uint. apply Z.mod_small. lia. }
      rewrite Hw, IH by lia. cbn [List.length]. lia.
    + rewrite IH by lia. reflexivity.
Qed.

(** The broadcast leaves only its own events. *)
Lemma broadcast_loop_calls (p : event -> bool) (msg : string)
    (entries : list (string * bool)) :
  (forall path, p (EvOpenFile path) = false) ->
  (forall line m, p (EvGoWrite line m) = false) ->
  forall (cnt : Z) (t : trace),
  calls p (snd (broadcast_loop msg entries cnt t)) = calls p t.
Proof.
  intros Ho Hw.
  induction entries as [|[line opened] rest IH]; intros cnt t.
  - reflexivity.
  - cbn [broadcast_loop]. rewrite bind_run. cbn [emit fst snd].
    destruct opened.
    + rewrite bind_run. cbn [emit fst snd]. rewrite IH, !calls_cons, Hw, Ho.
      reflexivity.
    + rewrite IH, calls_cons, Ho. reflexivity.
Qed.

Lemma broadcast_calls (E : env) (p : event -> bool) (msg : string) (t : trace) :
  p EvSetutent = false ->
  (forall path, p (EvOpenFile path) = false) ->
  (forall line m, p (EvGoWrite line m) = false) ->
  calls p (snd (broadcast E msg t)) = calls p t.
Proof.
  intros Hs Ho Hw. unfold broadcast. rewrite bind_run. cbn [call fst snd].
  rewrite broadcast_loop_calls, calls_cons, Hs by assumption. reflexivity.
Qed.

(** [rebootAndSleep] in closed form. *)
Lemma rebootAndSleep_run (E : env) (lgn : login1_Conn) (t : trace) :
  rebootAndSleep E lgn t =
  (tt, reboot_events
         (negb (0 =? fst (broadcast E "System reboot in 5 minutes!" t))%Z)
         (snd (broadcast E "System reboot in 5 minutes!" t))).
Proof.
  unfold rebootAndSleep.
  change (Z.quot loginsRebootDelay Minute) with 5.
  change ("System reboot in " ++ fmt_d 5 ++ " minutes!")
    with "System reboot in 5 minutes!".
  cbv zeta. rewrite bind_run.
  destruct (negb (0 =? fst (broadcast E "System reboot in 5 minutes!" t))%Z);
    reflexivity.
Qed.

Lemma rebootAndSleep_reboots_once (E : env) (lgn : login1_Conn) (t : trace) :
  calls is_Reboot (snd (rebootAndSleep E lgn t)) = S (calls is_Reboot t).
Proof.
  rewrite rebootAndSleep_run. cbn [snd]. unfold reboot_events.
  destruct (negb _); rewrite !calls_cons; cbn [is_Reboot];
    rewrite broadcast_calls by reflexivity; reflexivity.
Qed.

Lemma rebootAndSleep_no_lock (E : env) (lgn : login1_Conn) (t : trace) :
  calls is_Lock (snd (rebootAndSleep E lgn t)) = calls is_Lock t.
Proof.
  rewrite rebootAndSleep_run. cbn [snd]. unfold reboot_events.
  destruct (negb _); rewrite !calls_cons; cbn [is_Lock];
    rewrite broadcast_calls by reflexivity; reflexivity.
Qed.

(** C7: when the broadcast reaches no terminal line (it returns 0), the
    reboot request comes right after it, with no delay; when it reaches
    one line or more, the executor first announces and sleeps the fixed
    delay, which is five minutes, and then issues the reboot request.
    The count the broadcast returns is that of the utmp entries whose
    line could be opened (a count of 2^64 lines and more would wrap).
    The trace is read newest first. *)
Theorem rebootAndSleep_delay (E : env) (lgn : login1_Conn) (t : trace) :
  let entries := utmp_lines E (calls is_Setutent t) in
  let lines := fst (broadcast E "System reboot in 5 minutes!" t) in
  let t1 := snd (broadcast E "System reboot in 5 minutes!" t) in
  loginsRebootDelay = 5 * Minute
  /\ (Z.of_nat (List.length entries) < 2 ^ 64 ->
      lines = Z.of_nat (List.length (filter snd entries)))
  /\ (lines = 0 ->
      rebootAndSleep E lgn t =
      (tt, EvSleep (Hour * 24 * 7)
           :: EvPrintln [AStr "Reboot sent. Going to sleep."]
           :: EvReboot false :: t1))
  /\ (lines <> 0 ->
      rebootAndSleep E lgn t =
      (tt, EvSleep (Hour * 24 * 7)
           :: EvPrintln [AStr "Reboot sent. Going to sleep."]
           :: EvReboot false
           :: EvSleep (5 * Minute)
           :: EvPrintf "Logins detected, delaying reboot for %d minutes.\n" [ADur 5]
           :: t1)).
Proof.
  intros entries lines t1. split; [reflexivity|]. split; [|split].
  - intros Hlen. subst lines. unfold broadcast. rewrite bind_run.
    cbn [call fst snd].
    rewrite broadcast_loop_counts; [reflexivity | lia | exact Hlen].
  - intros Hr. rewrite rebootAndSleep_run. fold lines. rewrite Hr. reflexivity.
  - intros Hr. rewrite rebootAndSleep_run. fold lines.
    destruct (Z.eqb_spec 0 lines) as [Hz|Hz]; [congruence|]. reflexivity.
Qed.

Lemma rebootAndSleep_delay_witness :
  events (snd (rebootAndSleep env_logins Login1Conn [])) =
  [EvSetutent;
   EvOpenFile "/dev/tty1"; EvGoWrite "tty1" "System reboot in 5 minutes!";
   EvOpenFile "/dev/~";
   EvOpenFile "/dev/pts/0"; EvGoWrite "pts/0" "System reboot in 5 minutes!";
   EvPrintf "Logins detected, delaying reboot for %d minutes.\n" [ADur 5];
   EvSleep 300000000000;
   EvReboot false;
   EvPrintln [AStr "Reboot sent. Going to sleep."];
   EvSleep 604800000000000]
  /\ events (snd (rebootAndSleep env_quiet Login1Conn [])) =
     [EvSetutent;
      EvReboot false;
      EvPrintln [AStr "Reboot sent. Going to sleep."];
      EvSleep 604800000000000].
Proof.
  split.
  - destruct (rebootAndSleep_delay env_logins Login1Conn []) as (_ & _ & _ & H).
    rewrite H; [reflexivity | discriminate].
  - destruct (rebootAndSleep_delay env_quiet Login1Conn []) as (_ & _ & H & _).
    rewrite H; reflexivity.
Defined.

(** ** The locking loop *)

Lemma lockAndReboot_loop_retry (E : env) (r : rebooter) (lck : Lock)
    (fuel : nat) (interval : Duration) (t : trace) :
  acquired (Lock_err E (calls is_Lock t)) = false ->
  lockAndReboot_loop E r lck (S fuel) interval t =
  lockAndReboot_loop E r lck fuel (expBackoff interval)
    (retry_events E lck 1 (calls is_Lock t) interval t).
Proof.
  intros Ha. cbn [lockAndReboot_loop retry_events]. rewrite bind_run.
  cbn [lck_Lock call fst snd].
  rewrite <- negb_orb. fold (acquired (Lock_err E (calls is_Lock t))).
  rewrite Ha. reflexivity.
Qed.

Lemma lockAndReboot_loop_acquired (E : env) (r : rebooter) (lck : Lock)
    (fuel : nat) (interval : Duration) (t : trace) :
  acquired (Lock_err E (calls is_Lock t)) = true ->
  lockAndReboot_loop E r lck (S fuel) interval t =
  (Some tt, snd (rebootAndSleep E (lgn r) (EvLock lck :: t))).
Proof.
  intros Ha. cbn [lockAndReboot_loop]. rewrite bind_run.
  cbn [lck_Lock call fst snd].
  rewrite <- negb_orb. fold (acquired (Lock_err E (calls is_Lock t))).
  rewrite Ha. cbn [negb]. rewrite bind_run. reflexivity.
Qed.

Lemma retry_events_calls (E : env) (lck : Lock) (p : event -> bool) (n : nat) :
  (forall d, p (EvSleep d) = false) ->
  (forall f a, p (EvPrintf f a) = false) ->
  forall (k : nat) (interval : Duration) (t : trace),
  calls p (retry_events E lck n k interval t)
  = ((if p (EvLock lck) then n else 0) + calls p t)%nat.
Proof.
  intros Hs Hp. induction n as [|n IH]; intros k interval t.
  - destruct (p (EvLock lck)); reflexivity.
  - cbn [retry_events]. rewrite IH, !calls_cons, Hs, Hp.
    destruct (p (EvLock lck)); lia.
Qed.

(** While acquisition keeps failing the loop keeps retrying, with the
    interval backed off once per failure. *)
Lemma lockAndReboot_loop_retries (E : env) (r : rebooter) (lck : Lock) (n : nat) :
  forall (fuel : nat) (interval : Duration) (t : trace),
  (forall k, (k < n)%nat -> acquired (Lock_err E (calls is_Lock t + k)) = false) ->
  lockAndReboot_loop E r lck (n + fuel) interval t =
  lockAndReboot_loop E r lck fuel (backoff_iter n interval)
    (retry_events E lck n (calls is_Lock t) interval t).
Proof.
  induction n as [|n IH]; intros fuel interval t Hfail.
  - reflexivity.
  - cbn [Nat.add]. rewrite lockAndReboot_loop_retry.
    2:{ specialize (Hfail 0%nat). rewrite Nat.add_0_r in Hfail. apply Hfail. lia. }
    rewrite IH.
    + cbn [retry_events backoff_iter]. rewrite !calls_cons. reflexivity.
    + intros k Hk. cbn [retry_events]. rewrite !calls_cons. cbn [is_Lock].
      replace (S (calls is_Lock t) + k)%nat with (calls is_Lock t + S k)%nat by lia.
      apply Hfail. lia.
Qed.

(** After [n] failed acquisitions and one that succeeds or finds the
    lock already held, the loop hands over to [rebootAndSleep]. *)
Lemma lockAndReboot_loop_acquires (E : env) (r : rebooter) (lck : Lock)
    (n fuel : nat) (interval : Duration) (t : trace) :
  (forall k, (k < n)%nat -> acquired (Lock_err E (calls is_Lock t + k)) = false) ->
  acquired (Lock_err E (calls is_Lock t + n)) = true ->
  (n < fuel)%nat ->
  lockAndReboot_loop E r lck fuel interval t =
  (Some tt,
   snd (rebootAndSleep E (lgn r)
          (EvLock lck :: retry_events E lck n (calls is_Lock t) interval t))).
Proof.
  intros Hfail Hacq Hfuel.
  replace fuel with (n + S (fuel - n - 1))%nat by lia.
  rewrite lockAndReboot_loop_retries by assumption.
  apply lockAndReboot_loop_acquired.
  rewrite retry_events_calls by reflexivity. cbn [is_Lock].
  rewrite Nat.add_comm. exact Hacq.
Qed.

Lemma lockAndReboot_loop_acquires_reboots (E : env) (r : rebooter) (lck : Lock)
    (n : nat) (interval : Duration) (t : trace) :
  calls is_Reboot
    (snd (rebootAndSleep E (lgn r)
            (EvLock lck :: retry_events E lck n (calls is_Lock t) interval t)))
  = S (calls is_Reboot t).
Proof.
  rewrite rebootAndSleep_reboots_once, calls_cons. cbn [is_Reboot].
  rewrite retry_events_calls by reflexivity. reflexivity.
Qed.

(** C2: in the locking loop, while [acquire] fails with anything but
    AlreadyHeld the executor backs off, sleeps and tries again, whatever
    the number [n] of failures: no amount of fuel up to [n] gets it out
    of the loop, and no reboot is requested meanwhile.  When the call
    after [n] failures succeeds or says AlreadyHeld, the executor goes on
    to notify and reboot: [Lock] has been called exactly [n + 1] times,
    and exactly one reboot request follows.  With two failures that is
    three calls. *)
Theorem lockAndReboot_retries_until_acquired (E : env) (r : rebooter)
    (lck : Lock) (n : nat) (t : trace) :
  (forall k, (k < n)%nat -> acquired (Lock_err E (calls is_Lock t + k)) = false) ->
  (forall fuel, (fuel <= n)%nat ->
     lockAndReboot E r lck fuel t =
     (None, retry_events E lck fuel (calls is_Lock t) initialInterval t)
     /\ calls is_Reboot (snd (lockAndReboot E r lck fuel t)) = calls is_Reboot t)
  /\ (acquired (Lock_err E (calls is_Lock t + n)) = true ->
      forall fuel, (n < fuel)%nat ->
      lockAndReboot E r lck fuel t =
      (Some tt,
       snd (rebootAndSleep E (lgn r)
              (EvLock lck
               :: retry_events E lck n (calls is_Lock t) initialInterval t)))
      /\ calls is_Lock (snd (lockAndReboot E r lck fuel t))
         = (calls is_Lock t + (n + 1))%nat
      /\ calls is_Reboot (snd (lockAndReboot E r lck fuel t))
         = S (calls is_Reboot t)).
Proof.
  intros Hfail. unfold lockAndReboot. split.
  - intros fuel Hfuel.
    assert (Hrun : lockAndReboot_loop E r lck fuel initialInterval t =
                   (None, retry_events E lck fuel (calls is_Lock t) initialInterval t)).
    { replace fuel with (fuel + 0)%nat at 1 by lia.
      rewrite lockAndReboot_loop_retries by (intros; apply Hfail; lia).
      reflexivity. }
    rewrite Hrun. split; [reflexivity|]. cbn [snd].
    rewrite retry_events_calls by reflexivity. reflexivity.
  - intros Hacq fuel Hfuel.
    assert (Hrun : lockAndReboot_loop E r lck fuel initialInterval t =
      (Some tt,
       snd (rebootAndSleep E (lgn r)
              (EvLock lck
               :: retry_events E lck n (calls is_Lock t) initialInterval t)))).
    { apply lockAndReboot_loop_acquires; assumption. }
    rewrite Hrun. cbn [snd]. split; [reflexivity|]. split.
    + rewrite rebootAndSleep_no_lock, calls_cons. cbn [is_Lock].
      rewrite retry_events_calls by reflexivity. cbn [is_Lock]. lia.
    + apply lockAndReboot_loop_acquires_reboots.
Qed.

Lemma lockAndReboot_retries_until_acquired_witness :
  events (snd (lockAndReboot env_lock_fails_twice
                 (mkRebooter "etcd-lock" Login1Conn) (mkLock "id" 0%nat) 3 [])) =
  [EvLock (mkLock "id" 0%nat);
   EvPrintf "Retrying in %v. Error locking: %v\n"
     [ADur 10000000000; AErr (Errorf "etcd timeout")];
   EvSleep 10000000000;
   EvLock (mkLock "id" 0%nat);
   EvPrintf "Retrying in %v. Error locking: %v\n"
     [ADur 20000000000; AErr (Errorf "etcd timeout")];
   EvSleep 20000000000;
   EvLock (mkLock "id" 0%nat);
   EvSetutent;
   EvReboot false;
   EvPrintln [AStr "Reboot sent. Going to sleep."];
   EvSleep 604800000000000]
  /\ calls is_Lock (snd (lockAndReboot env_lock_fails_twice
                 (mkRebooter "etcd-lock" Login1Conn) (mkLock "id" 0%nat) 3 [])) = 3%nat
  /\ calls is_Reboot (snd (lockAndReboot env_lock_fails_twice
                 (mkRebooter "etcd-lock" Login1Conn) (mkLock "id" 0%nat) 3 [])) = 1%nat.
Proof.
  destruct (lockAndReboot_retries_until_acquired env_lock_fails_twice
              (mkRebooter "etcd-lock" Login1Conn) (mkLock "id" 0%nat) 2 [])
    as [_ Hacq].
  - intros k Hk. destruct k as [|[|k]]; [reflexivity | reflexivity | lia].
  - destruct (Hacq eq_refl 3%nat) as (Hrun & Hlock & Hreboot); [lia|].
    split; [rewrite Hrun; reflexivity | split; [exact Hlock | exact Hreboot]].
Defined.

(** ** The reboot executor *)

Lemma useLock_calls (E : env) (r : rebooter) (p : event -> bool) (t : trace) :
  p EvDbusNew = false ->
  (forall sys unit prop, p (EvGetUnitProperty sys unit prop) = false) ->
  (forall sys, p (EvDbusClose sys) = false) ->
  (forall f a, p (EvPrintf f a) = false) ->
  calls p (snd (useLock E r t)) = calls p t.
Proof.
  intros Hn Hq Hc Hp. unfold useLock.
  destruct (String.eqb (strategy r) StrategyBestEffort).
  - rewrite bind_run.
    pose proof (etcdActive_calls E p t Hn Hq Hc) as Hcalls.
    destruct (etcdActive E t) as [[[active name] err] t1]. cbn [fst snd] in *.
    destruct err; [exact Hcalls|].
    destruct active; rewrite bind_run; cbn [Printf emit ret fst snd];
      rewrite calls_cons, Hp; exact Hcalls.
  - destruct (String.eqb (strategy r) StrategyEtcdLock); [reflexivity|].
    destruct (String.eqb (strategy r) StrategyReboot); reflexivity.
Qed.

(** [setupLock] in closed form. *)
Lemma setupLock_run (E : env) (t : trace) :
  setupLock E t =
  let k := calls is_GetClient t in
  match getClient_err E k with
  | Some e =>
      (inl (Errorf ("Error initializing etcd client: " ++ Error e)),
       EvGetClient :: t)
  | None =>
      let mID := machine_id E (calls is_MachineID t) in
      if String.eqb mID ""
      then (inl (Errorf "Cannot read machine-id"),
            EvMachineID "/" :: EvGetClient :: t)
      else (inr (mkLock mID k),
            EvLockNew mID k :: EvMachineID "/" :: EvGetClient :: t)
  end.
Proof.
  unfold setupLock. rewrite bind_run. cbn [getClient fst snd]. cbv zeta.
  destruct (getClient_err E (calls is_GetClient t)); [reflexivity|].
  rewrite bind_run. cbn [MachineID call fst snd]. rewrite calls_cons.
  cbn [is_MachineID].
  destruct (String.eqb (machine_id E (calls is_MachineID t)) ""); reflexivity.
Qed.

Lemma setupLock_calls (E : env) (p : event -> bool) (t : trace) :
  p EvGetClient = false ->
  (forall root, p (EvMachineID root) = false) ->
  (forall mID elc, p (EvLockNew mID elc) = false) ->
  calls p (snd (setupLock E t)) = calls p t.
Proof.
  intros Hg Hm Hl. rewrite setupLock_run. cbv zeta.
  destruct (getClient_err E (calls is_GetClient t)); cbn [snd].
  - rewrite calls_cons, Hg. reflexivity.
  - destruct (String.eqb _ ""); cbn [snd]; rewrite !calls_cons, ?Hl, Hm, Hg;
      reflexivity.
Qed.

(** [unlockIfHeld] in closed form: one call of [Unlock]; success and
    NotHeld both give [nil]. *)
Lemma unlockIfHeld_run (E : env) (lck : Lock) (t : trace) :
  unlockIfHeld E lck t =
  match Unlock_err E (calls is_Unlock t) with
  | None =>
      (None, EvPrintln [AStr "Unlocked existing lock for this machine"]
             :: EvUnlock lck :: t)
  | Some ErrNotExist => (None, EvUnlock lck :: t)
  | Some e => (Some e, EvUnlock lck :: t)
  end.
Proof.
  unfold unlockIfHeld. rewrite bind_run. cbn [lck_Unlock call fst snd].
  destruct (Unlock_err E (calls is_Unlock t)) as [[| |msg]|]; reflexivity.
Qed.

Lemma unlockIfHeld_calls (E : env) (lck : Lock) (p : event -> bool) (t : trace) :
  (forall a, p (EvPrintln a) = false) ->
  calls p (snd (unlockIfHeld E lck t))
  = if p (EvUnlock lck) then S (calls p t) else calls p t.
Proof.
  intros Hp. rewrite unlockIfHeld_run.
  destruct (Unlock_err E (calls is_Unlock t)) as [[| |msg]|]; cbn [snd];
    rewrite ?(calls_cons p (EvPrintln _)), ?Hp, calls_cons; reflexivity.
Qed.

(** C9: when the gate asks for the lock, the handle is set up, the stale
    lock is out of the way, and acquisition succeeds (or says
    AlreadyHeld) after [n] failures, [rebootAndSleep] runs twice: once
    inside [lockAndReboot], and once more after it returns; so two reboot
    requests are issued before the failure message is printed and
    [reboot] returns 1. *)
Theorem reboot_requests_reboot_twice (E : env) (r : rebooter) (lck : Lock)
    (n fuel : nat) (t : trace) :
  let t1 := snd (useLock E r t) in
  let t2 := snd (setupLock E t1) in
  let t3 := snd (unlockIfHeld E lck t2) in
  let t4 := EvLock lck :: retry_events E lck n (calls is_Lock t) initialInterval t3 in
  fst (useLock E r t) = (true, None) ->
  fst (setupLock E t1) = inr lck ->
  fst (unlockIfHeld E lck t2) = None ->
  (forall k, (k < n)%nat -> acquired (Lock_err E (calls is_Lock t + k)) = false) ->
  acquired (Lock_err E (calls is_Lock t + n)) = true ->
  (n < fuel)%nat ->
  lockAndReboot E r lck fuel t3 = (Some tt, snd (rebootAndSleep E (lgn r) t4))
  /\ reboot E r fuel t =
     (Some 1,
      EvPrintln [AStr "Error: reboot attempt never finished"]
      :: snd (rebootAndSleep E (lgn r) (snd (rebootAndSleep E (lgn r) t4))))
  /\ calls is_Reboot (snd (reboot E r fuel t)) = (calls is_Reboot t + 2)%nat.
Proof.
  intros t1 t2 t3 t4 Huse Hsetup Hunlock Hfail Hacq Hfuel.
  assert (Hlock3 : calls is_Lock t3 = calls is_Lock t).
  { subst t3 t2 t1.
    rewrite unlockIfHeld_calls, setupLock_calls, useLock_calls by reflexivity.
    reflexivity. }
  assert (Hreb3 : calls is_Reboot t3 = calls is_Reboot t).
  { subst t3 t2 t1.
    rewrite unlockIfHeld_calls, setupLock_calls, useLock_calls by reflexivity.
    reflexivity. }
  assert (Hrun : lockAndReboot E r lck fuel t3 =
                 (Some tt, snd (rebootAndSleep E (lgn r) t4))).
  { unfold lockAndReboot. subst t4. rewrite <- Hlock3.
    apply lockAndReboot_loop_acquires; rewrite ?Hlock3; assumption. }
  assert (Hcount : calls is_Reboot (snd (rebootAndSleep E (lgn r) t4))
                   = S (calls is_Reboot t3)).
  { subst t4. rewrite <- Hlock3. apply lockAndReboot_loop_acquires_reboots. }
  assert (Hreboot : reboot E r fuel t =
     (Some 1,
      EvPrintln [AStr "Error: reboot attempt never finished"]
      :: snd (rebootAndSleep E (lgn r) (snd (rebootAndSleep E (lgn r) t4))))).
  { unfold reboot. rewrite bind_run, Huse. fold t1.
    rewrite bind_run, Hsetup. fold t2.
    rewrite bind_run, Hunlock. fold t3.
    rewrite bind_run, Hrun. cbn [fst snd].
    rewrite bind_run. reflexivity. }
  split; [exact Hrun|]. split; [exact Hreboot|].
  rewrite Hreboot. cbn [snd]. rewrite calls_cons. cbn [is_Reboot].
  rewrite rebootAndSleep_reboots_once, Hcount, Hreb3. lia.
Qed.

Lemma reboot_requests_reboot_twice_witness :
  events (snd (reboot env_lock_fails_twice
                 (mkRebooter "etcd-lock" Login1Conn) 3 [])) =
  [EvGetClient; EvMachineID "/"; EvLockNew "0123456789abcdef" 0%nat;
   EvUnlock (mkLock "0123456789abcdef" 0%nat);
   EvLock (mkLock "0123456789abcdef" 0%nat);
   EvPrintf "Retrying in %v. Error locking: %v\n"
     [ADur 10000000000; AErr (Errorf "etcd timeout")];
   EvSleep 10000000000;
   EvLock (mkLock "0123456789abcdef" 0%nat);
   EvPrintf "Retrying in %v. Error locking: %v\n"
     [ADur 20000000000; AErr (Errorf "etcd timeout")];
   EvSleep 20000000000;
   EvLock (mkLock "0123456789abcdef" 0%nat);
   EvSetutent; EvReboot false;
   EvPrintln [AStr "Reboot sent. Going to sleep."];
   EvSleep 604800000000000;
   EvSetutent; EvReboot false;
   EvPrintln [AStr "Reboot sent. Going to sleep."];
   EvSleep 604800000000000;
   EvPrintln [AStr "Error: reboot attempt never finished"]]
  /\ fst (reboot env_lock_fails_twice (mkRebooter "etcd-lock" Login1Conn) 3 [])
     = Some 1.
Proof.
  destruct (reboot_requests_reboot_twice env_lock_fails_twice
              (mkRebooter "etcd-lock" Login1Conn)
              (mkLock "0123456789abcdef" 0%nat) 2 3 [])
    as (_ & Hrun & _).
  - reflexivity.
  - reflexivity.
  - reflexivity.
  - intros k Hk. destruct k as [|[|k]]; [reflexivity | reflexivity | lia].
  - reflexivity.
  - lia.
  - rewrite Hrun. split; reflexivity.
Defined.

(** ** The stale-lock reaper *)

(** The timer case in closed form: the reachability check is made only
    when the probe says inactive. *)
Lemma unlockHeldLocks_tick_run (E : env) (t : trace) :
  unlockHeldLocks_tick E t =
  let t1 := snd (etcdActive E t) in
  match fst (etcdActive E t) with
  | (_, _, Some _) =>
      (Some ("error checking status of " ++ fmt_v_strings etcdServices), t1)
  | (true, _, None) => release_step E t1
  | (false, _, None) =>
      match getClient_err E (calls is_GetClient t) with
      | Some _ =>
          (Some (fmt_v_strings etcdServices
                   ++ " are inactive and remote cluster not available"),
           EvGetClient :: t1)
      | None => release_step E (EvGetClient :: t1)
      end
  end.
Proof.
  unfold unlockHeldLocks_tick. rewrite bind_run. cbv zeta.
  pose proof (etcdActive_calls E is_GetClient t eq_refl
                (fun _ _ _ => eq_refl) (fun _ => eq_refl)) as Hg.
  destruct (etcdActive E t) as [[[active name] err] t1]. cbn [fst snd] in *.
  destruct err as [e|]; [destruct active; reflexivity|].
  assert (Hrel : forall t2,
    (lck <- setupLock E;;
     match lck with
     | inl e => ret (Some ("error setting up lock: " ++ Error e))
     | inr lck0 =>
         err <- unlockIfHeld E lck0;;
         match err with
         | Some e => ret (Some (Error e))
         | None => ret None
         end
     end) t2 = release_step E t2).
  { intros t2. unfold release_step. rewrite bind_run.
    destruct (setupLock E t2) as [[e|lck] t3]; cbn [fst snd]; [reflexivity|].
    rewrite bind_run. destruct (unlockIfHeld E lck t3) as [[e|] t4]; reflexivity. }
  destruct active; cbn [negb].
  - rewrite bind_run. cbn [ret fst snd]. apply Hrel.
  - rewrite !bind_run. cbn [getClient ret fst snd]. rewrite Hg.
    destruct (getClient_err E (calls is_GetClient t)); cbn [is_nil negb].
    + reflexivity.
    + apply Hrel.
Qed.

(** What [release_step] does, by cases on the set-up: without a handle
    nothing is released and a reason comes back; with one, [Unlock] is
    called once and its outcome decides. *)
Lemma release_step_cases (E : env) (t : trace) :
  let g := calls is_GetClient t in
  let setup_ok := getClient_err E g = None
                  /\ machine_id E (calls is_MachineID t) <> "" in
  let t' := snd (release_step E t) in
  calls is_GetClient t' = S g
  /\ (setup_ok ->
      calls is_LockNew t' = S (calls is_LockNew t)
      /\ calls is_Unlock t' = S (calls is_Unlock t)
      /\ fst (release_step E t) =
         match Unlock_err E (calls is_Unlock t) with
         | None | Some ErrNotExist => None
         | Some e => Some (Error e)
         end)
  /\ (~ setup_ok ->
      calls is_LockNew t' = calls is_LockNew t
      /\ calls is_Unlock t' = calls is_Unlock t
      /\ exists reason, fst (release_step E t) = Some reason).
Proof.
  cbv zeta. unfold release_step. rewrite setupLock_run. cbv zeta.
  destruct (getClient_err E (calls is_GetClient t)) as [e|].
  { cbn [fst snd]. rewrite !calls_cons. cbn [is_GetClient is_LockNew is_Unlock].
    split; [reflexivity|]. split.
    - intros [Hc _]. discriminate.
    - intros _. eauto. }
  destruct (String.eqb_spec (machine_id E (calls is_MachineID t)) "") as [Hm|Hm].
  { cbn [fst snd]. rewrite !calls_cons. cbn [is_GetClient is_LockNew is_Unlock].
    split; [reflexivity|]. split.
    - intros [_ Hc]. contradiction.
    - intros _. eauto. }
  rewrite unlockIfHeld_run, !calls_cons. cbn [is_Unlock].
  destruct (Unlock_err E (calls is_Unlock t)) as [[| |msg]|]; cbn [fst snd];
    rewrite !calls_cons; cbn [is_GetClient is_LockNew is_Unlock];
    (split; [reflexivity|]); (split; [intros _; repeat split | intros Hc; exfalso; apply Hc; split; [reflexivity | exact Hm]]).
Qed.

(** One turn of the reaper's loop when the timer fires. *)
Lemma unlockHeldLocks_loop_timer (E : env) (fuel : nat) (interval : Duration)
    (t0 : trace) :
  stop_ready E (calls is_Select t0) = false ->
  unlockHeldLocks_loop E (S fuel) interval t0 =
  let t := EvSelect false :: EvAfter interval :: t0 in
  match unlockHeldLocks_tick E t with
  | (None, t') => (Some tt, EvWgDone :: t')
  | (Some reason, t') =>
      unlockHeldLocks_loop E fuel (expBackoff interval)
        (deferred_message reason (expBackoff interval) :: t')
  end.
Proof.
  intros Hstop. cbn [unlockHeldLocks_loop]. rewrite bind_run.
  cbn [After emit fst snd]. rewrite bind_run. cbn [select_stop fst snd].
  rewrite calls_cons. cbn [is_Select]. rewrite Hstop. rewrite bind_run. cbv zeta.
  destruct (unlockHeldLocks_tick E (EvSelect false :: EvAfter interval :: t0))
    as [[reason|] t']; cbn [fst snd].
  - rewrite bind_run. reflexivity.
  - rewrite bind_run. reflexivity.
Qed.

(** One turn of the reaper's loop when [stop] is taken. *)
Lemma unlockHeldLocks_loop_stop (E : env) (fuel : nat) (interval : Duration)
    (t0 : trace) :
  stop_ready E (calls is_Select t0) = true ->
  unlockHeldLocks_loop E (S fuel) interval t0 =
  (Some tt, EvWgDone :: EvSelect true :: EvAfter interval :: t0).
Proof.
  intros Hstop. cbn [unlockHeldLocks_loop]. rewrite bind_run.
  cbn [After emit fst snd]. rewrite bind_run. cbn [select_stop fst snd].
  rewrite calls_cons. cbn [is_Select]. rewrite Hstop. rewrite bind_run.
  reflexivity.
Qed.

(** The timer case, by cases on [release_due]. *)
Lemma unlockHeldLocks_tick_cases (E : env) (t : trace) :
  let t' := snd (unlockHeldLocks_tick E t) in
  (release_due E t = true ->
   calls is_LockNew t' = S (calls is_LockNew t)
   /\ calls is_Unlock t' = S (calls is_Unlock t)
   /\ fst (unlockHeldLocks_tick E t)
      = release_outcome (Unlock_err E (calls is_Unlock t)))
  /\ (release_due E t = false ->
      calls is_LockNew t' = calls is_LockNew t
      /\ calls is_Unlock t' = calls is_Unlock t
      /\ exists reason, fst (unlockHeldLocks_tick E t) = Some reason).
Proof.
  cbv zeta. unfold release_due. rewrite unlockHeldLocks_tick_run. cbv zeta.
  pose proof (etcdActive_calls E is_GetClient t eq_refl
                (fun _ _ _ => eq_refl) (fun _ => eq_refl)) as Hg.
  pose proof (etcdActive_calls E is_MachineID t eq_refl
                (fun _ _ _ => eq_refl) (fun _ => eq_refl)) as Hm.
  pose proof (etcdActive_calls E is_LockNew t eq_refl
                (fun _ _ _ => eq_refl) (fun _ => eq_refl)) as Hl.
  pose proof (etcdActive_calls E is_Unlock t eq_refl
                (fun _ _ _ => eq_refl) (fun _ => eq_refl)) as Hu.
  destruct (etcdActive E t) as [[[active name] err] t1]. cbn [fst snd] in *.
  destruct err as [e|].
  { destruct active; cbn [fst snd]; (split; [discriminate|]); intros _; eauto. }
  destruct active; cbn [orb andb].
  - destruct (release_step_cases E t1) as (_ & Hok & Hno).
    rewrite Hg, Hm, Hl, Hu in *. unfold release_outcome. split.
    + intros Hdue. apply andb_prop in Hdue as [Hc Hid]. apply Hok. split.
      * destruct (getClient_err E (calls is_GetClient t)); [discriminate | reflexivity].
      * apply negb_true_iff, String.eqb_neq in Hid. exact Hid.
    + intros Hdue. apply Hno. intros [Hc Hid].
      rewrite Hc in Hdue. apply String.eqb_neq in Hid. rewrite Hid in Hdue.
      discriminate.
  - destruct (getClient_err E (calls is_GetClient t)) as [e|] eqn:Hreach;
      cbn [is_nil andb].
    { cbn [fst snd]. rewrite !calls_cons. cbn [is_LockNew is_Unlock].
      split; [discriminate|]. intros _. rewrite Hl, Hu. eauto. }
    destruct (release_step_cases E (EvGetClient :: t1)) as (_ & Hok & Hno).
    rewrite !calls_cons in Hok, Hno. cbn [is_GetClient is_MachineID is_LockNew is_Unlock] in Hok, Hno.
    rewrite Hg, Hm, Hl, Hu in *. unfold release_outcome. split.
    + intros Hdue. apply andb_prop in Hdue as [Hc Hid]. apply Hok. split.
      * destruct (getClient_err E (S (calls is_GetClient t))); [discriminate | reflexivity].
      * apply negb_true_iff, String.eqb_neq in Hid. exact Hid.
    + intros Hdue. apply Hno. intros [Hc Hid].
      rewrite Hc in Hdue. apply String.eqb_neq in Hid. rewrite Hid in Hdue.
      discriminate.
Qed.

Lemma release_outcome_released (err : error) :
  release_outcome err = None <-> released err = true.
Proof.
  destruct err as [[| |msg]|]; cbn; split; intros H; congruence.
Qed.

(** C1 (as amended): in an iteration of the reaper whose timer fires,
    [release()] is called exactly when [release_due] holds: the probe has
    no error, the service is active or else the store is reachable, and
    the lock handle can be set up.  When the probe reports the service
    active, that alone never defers the reaper: no reachability check is
    made (the iteration calls [getClient] once, for the handle), and what
    remains of [release_due] is the set-up of the handle.  When
    [release_due] fails, the reaper defers: no handle is built, [release()]
    is not called, a reason is recorded, and the loop goes on with the
    interval backed off. *)
Theorem unlockHeldLocks_release_gate (E : env) (fuel : nat)
    (interval : Duration) (t0 : trace) :
  let t := EvSelect false :: EvAfter interval :: t0 in
  let t' := snd (unlockHeldLocks_tick E t) in
  stop_ready E (calls is_Select t0) = false ->
  (forall name, fst (etcdActive E t) = (true, name, None) ->
     release_due E t =
     is_nil (getClient_err E (calls is_GetClient t0))
     && negb (String.eqb (machine_id E (calls is_MachineID t0)) "")
     /\ calls is_GetClient t' = S (calls is_GetClient t0))
  /\ (release_due E t = true ->
      calls is_LockNew t' = S (calls is_LockNew t0)
      /\ calls is_Unlock t' = S (calls is_Unlock t0))
  /\ (release_due E t = false ->
      calls is_LockNew t' = calls is_LockNew t0
      /\ calls is_Unlock t' = calls is_Unlock t0
      /\ exists reason,
           fst (unlockHeldLocks_tick E t) = Some reason
           /\ unlockHeldLocks_loop E (S fuel) interval t0 =
              unlockHeldLocks_loop E fuel (expBackoff interval)
                (deferred_message reason (expBackoff interval) :: t')).
Proof.
  intros t t' Hstop.
  destruct (unlockHeldLocks_tick_cases E t) as [Hdue Hdefer].
  fold t' in Hdue, Hdefer. split; [|split].
  - intros name Hprobe. split.
    + unfold release_due. rewrite Hprobe. reflexivity.
    + subst t'. rewrite unlockHeldLocks_tick_run. cbv zeta. rewrite Hprobe.
      destruct (release_step_cases E (snd (etcdActive E t))) as (Hg & _).
      rewrite Hg, etcdActive_calls by reflexivity. reflexivity.
  - intros H. destruct (Hdue H) as (Hl & Hu & _). split; assumption.
  - intros H. destruct (Hdefer H) as (Hl & Hu & reason & Hr).
    split; [exact Hl|]. split; [exact Hu|]. exists reason. split; [exact Hr|].
    rewrite unlockHeldLocks_loop_timer by exact Hstop. cbv zeta. fold t.
    subst t'. destruct (unlockHeldLocks_tick E t) as [r t1].
    cbn [fst snd] in *. subst r. reflexivity.
Qed.

Lemma unlockHeldLocks_release_gate_witness :
  release_due env_reaper_active [EvSelect false; EvAfter initialInterval] = true
  /\ calls is_GetClient
       (snd (unlockHeldLocks_tick env_reaper_active
               [EvSelect false; EvAfter initialInterval])) = 1%nat
  /\ calls is_Unlock
       (snd (unlockHeldLocks_tick env_reaper_active
               [EvSelect false; EvAfter initialInterval])) = 1%nat.
Proof.
  destruct (unlockHeldLocks_release_gate env_reaper_active 0 initialInterval [])
    as (Hactive & Hdue & _); [reflexivity|].
  destruct (Hactive "etcd2.service") as [Hd Hg]; [reflexivity|].
  split; [rewrite Hd; reflexivity|]. split; [exact Hg|].
  apply Hdue. rewrite Hd. reflexivity.
Defined.

(** C1, as stated, fails: with both etcd units running, so that the probe
    reports the service active with no error, the first iteration of the
    reaper does not defer: it builds a lock handle and calls [release()]
    (here the lock is not held, and the task ends). *)
Lemma unlockHeldLocks_releases_while_active :
  fst (etcdActive env_reaper_active [EvSelect false; EvAfter initialInterval])
  = (true, "etcd2.service", None)
  /\ unlockHeldLocks env_reaper_active 1 [] =
     (Some tt,
      rev [EvAfter 5000000000; EvSelect false;
           EvDbusNew;
           EvGetUnitProperty 0%nat "etcd.service" "ActiveState";
           EvGetUnitProperty 0%nat "etcd2.service" "ActiveState";
           EvDbusClose 0%nat;
           EvGetClient; EvMachineID "/";
           EvLockNew "0123456789abcdef" 0%nat;
           EvUnlock (mkLock "0123456789abcdef" 0%nat);
           EvWgDone]).
Proof. split; reflexivity. Qed.

(** C6: once the reaper has called [release()], success and NotHeld both
    end the task at once, and any other outcome is recorded as the reason,
    the interval is backed off and the loop goes on.  When no lock is
    held for this machine (every [release()] says NotHeld), a run of the
    reaper, however long, calls [release()] at most once, and when it has
    called it the task is over. *)
Theorem unlockHeldLocks_stops_after_release (E : env) :
  (forall (fuel : nat) (interval : Duration) (t0 : trace),
     let t := EvSelect false :: EvAfter interval :: t0 in
     let t' := snd (unlockHeldLocks_tick E t) in
     stop_ready E (calls is_Select t0) = false ->
     release_due E t = true ->
     (released (Unlock_err E (calls is_Unlock t0)) = true ->
      unlockHeldLocks_loop E (S fuel) interval t0 = (Some tt, EvWgDone :: t')
      /\ calls is_Unlock (EvWgDone :: t') = S (calls is_Unlock t0))
     /\ (released (Unlock_err E (calls is_Unlock t0)) = false ->
         exists e, Unlock_err E (calls is_Unlock t0) = Some e
           /\ unlockHeldLocks_loop E (S fuel) interval t0 =
              unlockHeldLocks_loop E fuel (expBackoff interval)
                (deferred_message (Error e) (expBackoff interval) :: t')))
  /\ ((forall k, Unlock_err E k = Some ErrNotExist) ->
      forall (fuel : nat) (interval : Duration) (t0 : trace),
      calls is_Unlock (snd (unlockHeldLocks_loop E fuel interval t0))
      = calls is_Unlock t0
      \/ (fst (unlockHeldLocks_loop E fuel interval t0) = Some tt
          /\ calls is_Unlock (snd (unlockHeldLocks_loop E fuel interval t0))
             = S (calls is_Unlock t0))).
Proof.
  split.
  - intros fuel interval t0 t t' Hstop Hdue.
    destruct (unlockHeldLocks_tick_cases E t) as [Hcase _].
    destruct (Hcase Hdue) as (_ & Hu & Hr). fold t' in Hu.
    change (calls is_Unlock t) with (calls is_Unlock t0) in Hu, Hr.
    pose proof (unlockHeldLocks_loop_timer E fuel interval t0 Hstop) as Hloop.
    cbv zeta in Hloop. fold t in Hloop. subst t'.
    destruct (unlockHeldLocks_tick E t) as [r t1]. cbn [fst snd] in *.
    split.
    + intros Hrel. apply release_outcome_released in Hrel.
      rewrite Hrel in Hr. subst r. split; [exact Hloop|].
      rewrite calls_cons. exact Hu.
    + intros Hrel.
      destruct (Unlock_err E (calls is_Unlock t0)) as [[| |msg]|];
        try discriminate; subst r; eexists; (split; [reflexivity | exact Hloop]).
  - intros Hnone fuel.
    induction fuel as [|fuel IH]; intros interval t0.
    + left. reflexivity.
    + destruct (stop_ready E (calls is_Select t0)) eqn:Hstop.
      * rewrite unlockHeldLocks_loop_stop by exact Hstop. left. reflexivity.
      * rewrite unlockHeldLocks_loop_timer by exact Hstop. cbv zeta.
        destruct (unlockHeldLocks_tick_cases E
                    (EvSelect false :: EvAfter interval :: t0)) as [Hdue Hdefer].
        change (calls is_Unlock (EvSelect false :: EvAfter interval :: t0))
          with (calls is_Unlock t0) in Hdue, Hdefer.
        destruct (release_due E (EvSelect false :: EvAfter interval :: t0)).
        -- destruct (Hdue eq_refl) as (_ & Hu & Hr).
           rewrite Hnone in Hr. cbn [release_outcome] in Hr.
           destruct (unlockHeldLocks_tick E
                       (EvSelect false :: EvAfter interval :: t0)) as [r t1].
           cbn [fst snd] in *. subst r. right. cbn [fst snd].
           rewrite calls_cons. split; [reflexivity | exact Hu].
        -- destruct (Hdefer eq_refl) as (_ & Hu & reason & Hr).
           destruct (unlockHeldLocks_tick E
                       (EvSelect false :: EvAfter interval :: t0)) as [r t1].
           cbn [fst snd] in *. subst r.
           specialize (IH (expBackoff interval)
                          (deferred_message reason (expBackoff interval) :: t1)).
           assert (Hsame : calls is_Unlock
                             (deferred_message reason (expBackoff interval) :: t1)
                           = calls is_Unlock t0).
           { rewrite calls_cons. exact Hu. }
           rewrite Hsame in IH. exact IH.
Qed.

Lemma unlockHeldLocks_stops_after_release_witness :
  (exists e, Unlock_err env_release_fails_once 0 = Some e
     /\ unlockHeldLocks_loop env_release_fails_once 2 initialInterval [] =
        unlockHeldLocks_loop env_release_fails_once 1 (expBackoff initialInterval)
          (deferred_message (Error e) (expBackoff initialInterval)
           :: snd (unlockHeldLocks_tick env_release_fails_once
                     [EvSelect false; EvAfter initialInterval])))
  /\ unlockHeldLocks_loop env_reaper_active 1 initialInterval [] =
     (Some tt,
      EvWgDone :: snd (unlockHeldLocks_tick env_reaper_active
                         [EvSelect false; EvAfter initialInterval]))
  /\ (calls is_Unlock (snd (unlockHeldLocks_loop env_reaper_active 7 initialInterval []))
      = 0%nat
      \/ (fst (unlockHeldLocks_loop env_reaper_active 7 initialInterval []) = Some tt
          /\ calls is_Unlock
               (snd (unlockHeldLocks_loop env_reaper_active 7 initialInterval []))
             = 1%nat)).
Proof.
  split; [|split].
  - destruct (unlockHeldLocks_stops_after_release env_release_fails_once)
      as [Hiter _].
    destruct (Hiter 1%nat initialInterval []) as [_ Hfail];
      [reflexivity | reflexivity |].
    apply Hfail. reflexivity.
  - destruct (unlockHeldLocks_stops_after_release env_reaper_active)
      as [Hiter _].
    destruct (Hiter 0%nat initialInterval []) as [Hok _];
      [reflexivity | reflexivity |].
    apply Hok. reflexivity.
  - destruct (unlockHeldLocks_stops_after_release env_reaper_active)
      as [_ Hrun].
    apply (Hrun (fun _ => eq_refl) 7%nat initialInterval []).
Defined.

(** ** The daemon *)

(** Nothing in the reaper or in the executor reads the clock. *)
Lemma rebootAndSleep_no_clock (E : env) (lgn : login1_Conn) (t : trace) :
  calls is_Now (snd (rebootAndSleep E lgn t)) = calls is_Now t.
Proof.
  rewrite rebootAndSleep_run. cbn [snd]. unfold reboot_events.
  destruct (negb _); rewrite !calls_cons; cbn [is_Now];
    rewrite broadcast_calls by reflexivity; reflexivity.
Qed.

Lemma lockAndReboot_loop_no_clock (E : env) (r : rebooter) (lck : Lock)
    (fuel : nat) :
  forall (interval : Duration) (t : trace),
  calls is_Now (snd (lockAndReboot_loop E r lck fuel interval t)) = calls is_Now t.
Proof.
  induction fuel as [|fuel IH]; intros interval t.
  - reflexivity.
  - destruct (acquired (Lock_err E (calls is_Lock t))) eqn:Ha.
    + rewrite lockAndReboot_loop_acquired by exact Ha. cbn [snd].
      rewrite rebootAndSleep_no_clock, calls_cons. reflexivity.
    + rewrite lockAndReboot_loop_retry by exact Ha.
      rewrite IH. cbn [retry_events]. rewrite !calls_cons. reflexivity.
Qed.

Lemma reboot_no_clock (E : env) (r : rebooter) (fuel : nat) (t : trace) :
  calls is_Now (snd (reboot E r fuel t)) = calls is_Now t.
Proof.
  unfold reboot. rewrite bind_run.
  pose proof (useLock_calls E r is_Now t eq_refl (fun _ _ _ => eq_refl)
                (fun _ => eq_refl) (fun _ _ => eq_refl)) as Hu.
  destruct (useLock E r t) as [[use err] t1]. cbn [fst snd] in *.
  destruct err as [e|].
  { rewrite bind_run. cbn [Fprintln_stderr emit ret fst snd].
    rewrite calls_cons. exact Hu. }
  assert (Hfinish : forall t2,
    calls is_Now
      (snd ((rebootAndSleep E (lgn r);;
             Println [AStr "Error: reboot attempt never finished"];;
             ret (Some 1)) t2)) = calls is_Now t2).
  { intros t2. rewrite !bind_run. cbn [Println emit ret fst snd].
    rewrite calls_cons. cbn [is_Now]. apply rebootAndSleep_no_clock. }
  cbv zeta. destruct use; [|rewrite Hfinish; exact Hu].
  rewrite bind_run.
  pose proof (setupLock_calls E is_Now t1 eq_refl (fun _ => eq_refl)
                (fun _ _ => eq_refl)) as Hs.
  destruct (setupLock E t1) as [[e|lck] t2]; cbn [fst snd] in *.
  { rewrite bind_run. cbn [Fprintln_stderr emit ret fst snd].
    rewrite calls_cons. cbn [is_Now]. congruence. }
  rewrite bind_run.
  pose proof (unlockIfHeld_calls E lck is_Now t2 (fun _ => eq_refl)) as Hl.
  cbn [is_Now] in Hl.
  destruct (unlockIfHeld E lck t2) as [[e|] t3]; cbn [fst snd] in *.
  { rewrite bind_run. cbn [Fprintln_stderr emit ret fst snd].
    rewrite calls_cons. cbn [is_Now]. congruence. }
  rewrite bind_run. unfold lockAndReboot.
  pose proof (lockAndReboot_loop_no_clock E r lck fuel initialInterval t3) as Hk.
  destruct (lockAndReboot_loop E r lck fuel initialInterval t3) as [[[]|] t4];
    cbn [fst snd] in *.
  - rewrite Hfinish. congruence.
  - cbn [ret snd]. congruence.
Qed.

Lemma unlockHeldLocks_tick_no_clock (E : env) (t : trace) :
  calls is_Now (snd (unlockHeldLocks_tick E t)) = calls is_Now t.
Proof.
  assert (Hrel : forall t2, calls is_Now (snd (release_step E t2)) = calls is_Now t2).
  { intros t2. unfold release_step.
    pose proof (setupLock_calls E is_Now t2 eq_refl (fun _ => eq_refl)
                  (fun _ _ => eq_refl)) as Hs.
    destruct (setupLock E t2) as [[e|lck] t3]; cbn [fst snd] in *; [exact Hs|].
    pose proof (unlockIfHeld_calls E lck is_Now t3 (fun _ => eq_refl)) as Hl.
    cbn [is_Now] in Hl.
    destruct (unlockIfHeld E lck t3) as [[e|] t4]; cbn [fst snd] in *; congruence. }
  rewrite unlockHeldLocks_tick_run. cbv zeta.
  pose proof (etcdActive_calls E is_Now t eq_refl (fun _ _ _ => eq_refl)
                (fun _ => eq_refl)) as Ha.
  destruct (etcdActive E t) as [[[active name] err] t1]. cbn [fst snd] in *.
  destruct err as [e|]; [destruct active; exact Ha|].
  destruct active.
  - rewrite Hrel. exact Ha.
  - destruct (getClient_err E (calls is_GetClient t)); cbn [snd].
    + rewrite calls_cons. exact Ha.
    + rewrite Hrel, calls_cons. exact Ha.
Qed.

Lemma unlockHeldLocks_loop_no_clock (E : env) (fuel : nat) :
  forall (interval : Duration) (t : trace),
  calls is_Now (snd (unlockHeldLocks_loop E fuel interval t)) = calls is_Now t.
Proof.
  induction fuel as [|fuel IH]; intros interval t.
  - reflexivity.
  - destruct (stop_ready E (calls is_Select t)) eqn:Hstop.
    + rewrite unlockHeldLocks_loop_stop by exact Hstop. reflexivity.
    + rewrite unlockHeldLocks_loop_timer by exact Hstop. cbv zeta.
      pose proof (unlockHeldLocks_tick_no_clock E
                    (EvSelect false :: EvAfter interval :: t)) as Ht.
      destruct (unlockHeldLocks_tick E (EvSelect false :: EvAfter interval :: t))
        as [[reason|] t1]; cbn [fst snd] in *.
      * rewrite IH. unfold deferred_message. rewrite calls_cons. exact Ht.
      * rewrite calls_cons. exact Ht.
Qed.

Lemma Getenv_run (E : env) (key : string) (t : trace) :
  Getenv E key t = (getenv E key, EvGetenv key :: t).
Proof. reflexivity. Qed.

(** With no window, the daemon never reads the clock on its way to the
    reboot. *)
Lemma runDaemon_coordinate_no_clock {Periodic : Type}
    (DurationToStart : Periodic -> Z -> Duration) (E : env)
    (NeedReboot strategy : string) (fuel : nat) (t : trace) :
  calls is_Now
    (snd (runDaemon_coordinate DurationToStart E NeedReboot strategy None fuel t))
  = calls is_Now t.
Proof.
  unfold runDaemon_coordinate. rewrite !bind_run.
  cbn [emit updateengine_New ret bind fst snd].
  destruct (updateengine_New_err E) as [e|].
  { rewrite bind_run. reflexivity. }
  rewrite bind_run. cbn [login1_New emit ret bind fst snd].
  destruct (login1_New_err E) as [e|].
  { rewrite bind_run. reflexivity. }
  rewrite bind_run.
  set (t1 := snd ((if negb (String.eqb strategy StrategyReboot)
                   then emit EvGoUnlockHeldLocks else ret tt)
                    (EvLogin1New :: EvUpdateengineNew :: EvSignalNotify :: t))).
  assert (H1 : calls is_Now t1 = calls is_Now t).
  { subst t1. destruct (negb (String.eqb strategy StrategyReboot)); reflexivity. }
  rewrite !bind_run. cbn [emit GetStatus ret bind fst snd].
  destruct (GetStatus_result E) as [e|currentOperation].
  { rewrite bind_run. cbn [Fprintln_stderr emit ret fst snd].
    rewrite !calls_cons. exact H1. }
  rewrite !bind_run. cbn [Printf emit fst snd].
  set (recv := (if negb (String.eqb currentOperation NeedReboot)
                then recv_status E else ret true) _).
  assert (H2 : calls is_Now (snd recv) = calls is_Now t).
  { subst recv. destruct (negb (String.eqb currentOperation NeedReboot));
      cbn [recv_status emit ret bind fst snd]; rewrite !calls_cons; exact H1. }
  destruct recv as [received t2]. cbn [fst snd] in *.
  destruct received; [|cbn [ret snd]; exact H2].
  rewrite !bind_run. cbn [emit fst snd].
  set (reaper := if negb (String.eqb strategy StrategyReboot)
                 then unlockHeldLocks E fuel else ret (Some tt)).
  assert (H3 : forall t3, calls is_Now (snd (reaper t3)) = calls is_Now t3).
  { intros t3. subst reaper.
    destruct (negb (String.eqb strategy StrategyReboot)); [|reflexivity].
    apply unlockHeldLocks_loop_no_clock. }
  specialize (H3 (EvWgWait :: EvCloseStop :: t2)).
  destruct (reaper (EvWgWait :: EvCloseStop :: t2)) as [[[]|] t4];
    cbn [fst snd] in *.
  - rewrite bind_run. cbn [wait_for_window ret fst snd].
    rewrite reboot_no_clock, H3, !calls_cons. exact H2.
  - cbn [ret snd]. rewrite H3, !calls_cons. exact H2.
Qed.

(** C8 (as amended): when the strategy is not off, and exactly one of
    REBOOT_WINDOW_START and REBOOT_WINDOW_LENGTH reads as a non-empty
    string, or both do and the window does not parse, the daemon returns
    1 having done nothing but read its three variables and print the
    error: it has connected to no collaborator.  When both read as empty
    (unset is read as empty), the daemon goes on with no window, and from
    there on never reads the clock to wait for one. *)
Theorem runDaemon_window_config {Periodic : Type}
    (ParsePeriodic : string -> string -> goerror + Periodic)
    (DurationToStart : Periodic -> Z -> Duration) (E : env)
    (NeedReboot : string) (fuel : nat) (t : trace) :
  let startw := getenv E "REBOOT_WINDOW_START" in
  let lengthw := getenv E "REBOOT_WINDOW_LENGTH" in
  let run := runDaemon ParsePeriodic DurationToStart E NeedReboot fuel t in
  configured_strategy E <> StrategyOff ->
  ((startw = "" /\ lengthw <> "") \/ (startw <> "" /\ lengthw = "") ->
   run = (Some 1,
          EvFprintln_stderr
            [AStr "either both or neither $REBOOT_WINDOW_START and $REBOOT_WINDOW_LENGTH must be set"]
          :: config_reads t)
   /\ calls is_connect (snd run) = calls is_connect t)
  /\ (startw <> "" -> lengthw <> "" ->
      forall err, ParsePeriodic startw lengthw = inl err ->
      run = (Some 1,
             EvFprintf_stderr "error parsing reboot window: %s\n" [AErr err]
             :: config_reads t)
      /\ calls is_connect (snd run) = calls is_connect t)
  /\ (startw = "" -> lengthw = "" ->
      run = runDaemon_coordinate DurationToStart E NeedReboot
              (configured_strategy E) None fuel (config_reads t)
      /\ calls is_Now (snd run) = calls is_Now t).
Proof.
  intros startw lengthw run Hoff.
  assert (Hrun : run =
    (startw <- Getenv E "REBOOT_WINDOW_START" ;;
     lengthw <- Getenv E "REBOOT_WINDOW_LENGTH" ;;
     if negb (Bool.eqb (String.eqb startw "") (String.eqb lengthw "")) then
       Fprintln_stderr
         [AStr "either both or neither $REBOOT_WINDOW_START and $REBOOT_WINDOW_LENGTH must be set"] ;;
       ret (Some 1)
     else
       match
         (if negb (String.eqb startw "") && negb (String.eqb lengthw "")
          then match ParsePeriodic startw lengthw with
               | inl err => inl err
               | inr p => inr (Some p)
               end
          else inr None)
       with
       | inl err =>
           Fprintf_stderr "error parsing reboot window: %s\n" [AErr err] ;;
           ret (Some 1)
       | inr period =>
           runDaemon_coordinate DurationToStart E NeedReboot
             (configured_strategy E) period fuel
       end) (EvGetenv "REBOOT_STRATEGY" :: t)).
  { subst run. unfold runDaemon. rewrite bind_run, Getenv_run. cbn [fst snd].
    cbv zeta. fold (configured_strategy E).
    apply String.eqb_neq in Hoff. rewrite Hoff. reflexivity. }
  rewrite bind_run, Getenv_run in Hrun. cbn [fst snd] in Hrun.
  rewrite bind_run, Getenv_run in Hrun. cbn [fst snd] in Hrun.
  fold startw lengthw in Hrun. fold (config_reads t) in Hrun.
  split; [|split].
  - intros Hpart.
    assert (Hne : Bool.eqb (String.eqb startw "") (String.eqb lengthw "") = false).
    { destruct Hpart as [[Hs Hl]|[Hs Hl]].
      - apply String.eqb_eq in Hs. apply String.eqb_neq in Hl.
        rewrite Hs, Hl. reflexivity.
      - apply String.eqb_neq in Hs. apply String.eqb_eq in Hl.
        rewrite Hs, Hl. reflexivity. }
    rewrite Hne in Hrun. cbn [negb] in Hrun. rewrite Hrun.
    split; reflexivity.
  - intros Hs Hl err Hparse.
    apply String.eqb_neq in Hs, Hl. rewrite Hs, Hl, Hparse in Hrun.
    cbn [Bool.eqb negb andb] in Hrun. rewrite Hrun. split; reflexivity.
  - intros Hs Hl.
    apply String.eqb_eq in Hs, Hl. rewrite Hs, Hl in Hrun.
    cbn [Bool.eqb negb andb] in Hrun. rewrite Hrun. split; [reflexivity|].
    rewrite runDaemon_coordinate_no_clock. reflexivity.
Qed.

Lemma runDaemon_window_config_witness :
  runDaemon example_ParsePeriodic example_DurationToStart
    env_window_length_only example_NeedReboot 3 [] =
  (Some 1,
   [EvFprintln_stderr
      [AStr "either both or neither $REBOOT_WINDOW_START and $REBOOT_WINDOW_LENGTH must be set"];
    EvGetenv "REBOOT_WINDOW_LENGTH"; EvGetenv "REBOOT_WINDOW_START";
    EvGetenv "REBOOT_STRATEGY"])
  /\ runDaemon example_ParsePeriodic example_DurationToStart
       env_window_unparsable example_NeedReboot 3 [] =
     (Some 1,
      [EvFprintf_stderr "error parsing reboot window: %s\n"
         [AErr (Errorf "cannot parse the reboot window")];
       EvGetenv "REBOOT_WINDOW_LENGTH"; EvGetenv "REBOOT_WINDOW_START";
       EvGetenv "REBOOT_STRATEGY"])
  /\ calls is_Now
       (snd (runDaemon example_ParsePeriodic example_DurationToStart
               env_no_window example_NeedReboot 3 [])) = 0%nat.
Proof.
  split; [|split].
  - destruct (runDaemon_window_config example_ParsePeriodic
                example_DurationToStart env_window_length_only
                example_NeedReboot 3 []) as (Hpart & _ & _); [discriminate|].
    apply Hpart. left. split; [reflexivity | discriminate].
  - destruct (runDaemon_window_config example_ParsePeriodic
                example_DurationToStart env_window_unparsable
                example_NeedReboot 3 []) as (_ & Hparse & _); [discriminate|].
    apply Hparse; [discriminate | discriminate | reflexivity].
  - destruct (runDaemon_window_config example_ParsePeriodic
                example_DurationToStart env_no_window
                example_NeedReboot 3 []) as (_ & _ & Hnone); [discriminate|].
    apply Hnone; reflexivity.
Defined.

(** C8, as stated, fails in two ways.  With strategy off the daemon
    returns 0 before it looks at the window, so a window of which only
    the start is set does not make it return 1.  And a variable set to
    the empty string reads as unset: with the start set to the empty
    string and the length not set, exactly one of the two is set, yet the
    daemon does not stop with 1: it goes on and connects to update_engine
    and login1. *)
Lemma runDaemon_partial_window_not_rejected :
  (lookup_env "REBOOT_WINDOW_START" (environ env_off_window_start_only)
   = Some "02:00"
   /\ lookup_env "REBOOT_WINDOW_LENGTH" (environ env_off_window_start_only) = None
   /\ runDaemon example_ParsePeriodic example_DurationToStart
        env_off_window_start_only example_NeedReboot 3 [] =
      (Some 0,
       [EvFprintf_stderr "Reboot strategy is %q - shutting down.\n" [AStr "off"];
        EvGetenv "REBOOT_STRATEGY"]))
  /\ (lookup_env "REBOOT_WINDOW_START" (environ env_window_start_empty) = Some ""
      /\ lookup_env "REBOOT_WINDOW_LENGTH" (environ env_window_start_empty) = None
      /\ calls is_connect
           (snd (runDaemon example_ParsePeriodic example_DurationToStart
                   env_window_start_empty example_NeedReboot 3 [])) = 2%nat
      /\ calls is_Reboot
           (snd (runDaemon example_ParsePeriodic example_DurationToStart
                   env_window_start_empty example_NeedReboot 3 [])) = 1%nat).
Proof. repeat split. Qed.

(** * Further properties *)

(** ** Traces that grow *)

Lemma extends_refl (q : event -> bool) (t : trace) : extends q t t.
Proof. exists []. split; reflexivity. Qed.

Lemma extends_cons (q : event -> bool) (e : event) (t t' : trace) :
  q e = true -> extends q t t' -> extends q t (e :: t').
Proof.
  intros He (new & -> & Hnew). exists (e :: new). split; [reflexivity|].
  cbn [forallb]. rewrite He, Hnew. reflexivity.
Qed.

Lemma extends_trans (q : event -> bool) (t1 t2 t3 : trace) :
  extends q t1 t2 -> extends q t2 t3 -> extends q t1 t3.
Proof.
  intros (n1 & -> & H1) (n2 & -> & H2). exists (n2 ++ n1)%list. split.
  - rewrite app_assoc. reflexivity.
  - rewrite forallb_app, H1, H2. reflexivity.
Qed.

Lemma extends_weaken (q q' : event -> bool) (t t' : trace) :
  (forall e, q e = true -> q' e = true) -> extends q t t' -> extends q' t t'.
Proof.
  intros Hsub (new & -> & Hnew). exists new. split; [reflexivity|].
  rewrite forallb_forall in *. intros e He. apply Hsub, Hnew, He.
Qed.

(** Events outside the class are not added. *)
Lemma extends_calls (p q : event -> bool) (t t' : trace) :
  extends q t t' -> (forall e, q e = true -> p e = false) ->
  calls p t' = calls p t.
Proof.
  intros (new & -> & Hnew) Hdisj. unfold calls. rewrite filter_app, length_app.
  assert (Hnone : filter p new = []).
  { induction new as [|e new IH]; [reflexivity|].
    cbn [forallb] in Hnew. apply andb_prop in Hnew as [He Hnew].
    cbn [filter]. rewrite (Hdisj e He). apply IH, Hnew. }
  rewrite Hnone. reflexivity.
Qed.

Lemma extends_calls_le (p q : event -> bool) (t t' : trace) :
  extends q t t' -> (calls p t <= calls p t')%nat.
Proof.
  intros (new & -> & _). unfold calls. rewrite filter_app, length_app. lia.
Qed.

(** ** More on the backoff policy *)

(** X1: the backoff never exceeds the ceiling, whatever it is given; from
    an interval between zero and the ceiling it never shrinks, and it
    stands still only at zero and at the ceiling. *)
Theorem expBackoff_grows_to_ceiling (i : Duration) :
  expBackoff i <= maxInterval
  /\ (0 <= i <= maxInterval ->
      i <= expBackoff i /\ (expBackoff i = i <-> i = 0 \/ i = maxInterval)).
Proof.
  rewrite expBackoff_wrapped. split; [lia|]. intros Hi.
  assert (Hmax : maxInterval = 300000000000) by reflexivity.
  rewrite wrap64_id by (unfold in_int64, int64_min, int64_max; lia).
  lia.
Qed.

Lemma expBackoff_grows_to_ceiling_witness :
  initialInterval <= expBackoff initialInterval
  /\ (expBackoff initialInterval = initialInterval <->
      initialInterval = 0 \/ initialInterval = maxInterval).
Proof.
  apply (expBackoff_grows_to_ceiling initialInterval).
  split; discriminate.
Defined.

Lemma backoff_iter_closed (n : nat) :
  forall i : Duration, 0 < i <= maxInterval ->
  backoff_iter n i = Z.min (i * 2 ^ Z.of_nat n) maxInterval.
Proof.
  assert (Hmax : maxInterval = 300000000000) by reflexivity.
  induction n as [|n IH]; intros i Hi.
  - cbn [backoff_iter]. change (2 ^ Z.of_nat 0) with 1. lia.
  - cbn [backoff_iter].
    assert (Hstep : expBackoff i = Z.min (2 * i) maxInterval).
    { rewrite expBackoff_wrapped.
      rewrite wrap64_id by (unfold in_int64, int64_min, int64_max; lia). lia. }
    rewrite IH by lia. rewrite Hstep.
    rewrite Nat2Z.inj_succ, Z.pow_succ_r by lia.
    assert (Hpow : 1 <= 2 ^ Z.of_nat n) by (apply Z.pow_le_mono_r with (b := 0); lia).
    destruct (Z.le_gt_cases (2 * i) maxInterval) as [Hle|Hgt].
    + rewrite (Z.min_l (2 * i)) by lia. f_equal. lia.
    + rewrite (Z.min_r (2 * i)) by lia. rewrite !Z.min_r; [reflexivity | nia | nia].
Qed.

Lemma retry_events_head (E : env) (lck : Lock) (n : nat) :
  forall (k : nat) (interval : Duration) (t : trace),
  exists rest,
    retry_events E lck (S n) k interval t
    = EvSleep (backoff_iter (S n) interval) :: rest.
Proof.
  induction n as [|n IH]; intros k interval t.
  - cbn [retry_events backoff_iter]. eauto.
  - change (retry_events E lck (S (S n)) k interval t)
      with (retry_events E lck (S n) (S k) (expBackoff interval)
              (EvSleep (expBackoff interval)
               :: EvPrintf "Retrying in %v. Error locking: %v\n"
                    [ADur (expBackoff interval);
                     match Lock_err E k with Some e => AErr e | None => AStr "" end]
               :: EvLock lck :: t)).
    apply IH.
Qed.

(** X2: the schedule of the locking loop.  When acquisition has failed
    [n + 1] times in a row, the last thing the executor did is sleep
    [min (5 s * 2^(n+1), 5 min)]: 10 s, 20 s, 40 s, 80 s, 160 s, and
    5 min from the sixth failure on. *)
Theorem lockAndReboot_backoff_schedule (E : env) (r : rebooter) (lck : Lock)
    (n : nat) (t : trace) :
  (forall k, (k <= n)%nat -> acquired (Lock_err E (calls is_Lock t + k)) = false) ->
  (exists rest,
     snd (lockAndReboot E r lck (S n) t)
     = EvSleep (Z.min (initialInterval * 2 ^ Z.of_nat (S n)) maxInterval) :: rest)
  /\ ((5 <= n)%nat ->
      Z.min (initialInterval * 2 ^ Z.of_nat (S n)) maxInterval = maxInterval).
Proof.
  intros Hfail. split.
  - assert (Hrun : lockAndReboot E r lck (S n) t =
                   (None, retry_events E lck (S n) (calls is_Lock t) initialInterval t)).
    { unfold lockAndReboot. replace (S n) with (S n + 0)%nat at 1 by lia.
      rewrite lockAndReboot_loop_retries by (intros k Hk; apply Hfail; lia).
      reflexivity. }
    rewrite Hrun. cbn [snd].
    destruct (retry_events_head E lck n (calls is_Lock t) initialInterval t)
      as [rest Hrest].
    exists rest. rewrite Hrest, backoff_iter_closed; [reflexivity|].
    split; [reflexivity | discriminate].
  - intros Hn.
    assert (Hpow : 2 ^ 6 <= 2 ^ Z.of_nat (S n))
      by (apply Z.pow_le_mono_r; lia).
    assert (Hmax : maxInterval = 300000000000) by reflexivity.
    assert (Hini : initialInterval = 5000000000) by reflexivity.
    change (2 ^ 6) with 64 in Hpow. lia.
Qed.

Lemma lockAndReboot_backoff_schedule_witness :
  exists rest,
    snd (lockAndReboot env_lock_fails_twice (mkRebooter "etcd-lock" Login1Conn)
           (mkLock "id" 0%nat) 2 [])
    = EvSleep 20000000000 :: rest.
Proof.
  destruct (lockAndReboot_backoff_schedule env_lock_fails_twice
              (mkRebooter "etcd-lock" Login1Conn) (mkLock "id" 0%nat) 1 [])
    as [Hsleep _].
  - intros k Hk. destruct k as [|[|k]]; [reflexivity | reflexivity | lia].
  - exact Hsleep.
Defined.

(** ** More on the helpers *)

Lemma broadcast_loop_events (msg : string) (entries : list (string * bool)) :
  forall (cnt : Z) (t : trace),
  snd (broadcast_loop msg entries cnt t)
  = (rev (flat_map (tty_events msg) entries) ++ t)%list.
Proof.
  induction entries as [|[line opened] rest IH]; intros cnt t.
  - reflexivity.
  - cbn [broadcast_loop flat_map tty_events]. rewrite bind_run.
    cbn [emit fst snd]. destruct opened.
    + rewrite bind_run. cbn [emit fst snd]. rewrite IH.
      cbn [app rev]. rewrite <- !app_assoc. reflexivity.
    + rewrite IH. cbn [app rev]. rewrite <- !app_assoc. reflexivity.
Qed.

Lemma broadcast_loop_range (msg : string) (entries : list (string * bool)) :
  forall (cnt : Z) (t : trace),
  0 <= cnt < 2 ^ 64 -> 0 <= fst (broadcast_loop msg entries cnt t) < 2 ^ 64.
Proof.
  induction entries as [|[line opened] rest IH]; intros cnt t Hc.
  - exact Hc.
  - cbn [broadcast_loop]. rewrite bind_run. cbn [emit fst snd].
    destruct opened.
    + rewrite bind_run. cbn [emit fst snd]. apply IH.
      unfold wrap_uint. apply Z.mod_pos_bound. lia.
    + apply IH, Hc.
Qed.

(** X3: [broadcast] goes through the utmp entries in order, tries to open
    each line once, and starts a writer, with the message it was given,
    for the lines that opened and for no other.  The count it returns is
    a [uint]; it is the number of lines that opened as long as there are
    fewer than 2^64 entries, and so never more than the number of
    entries. *)
Theorem broadcast_writes_to_opened_lines (E : env) (msg : string) (t : trace) :
  let entries := utmp_lines E (calls is_Setutent t) in
  let opened := filter snd entries in
  events (snd (broadcast E msg t))
  = (events t ++ EvSetutent :: flat_map (tty_events msg) entries)%list
  /\ 0 <= fst (broadcast E msg t) < 2 ^ 64
  /\ (Z.of_nat (List.length entries) < 2 ^ 64 ->
      fst (broadcast E msg t) = Z.of_nat (List.length opened)
      /\ fst (broadcast E msg t) <= Z.of_nat (List.length entries)).
Proof.
  intros entries opened. unfold broadcast. rewrite bind_run.
  cbn [call fst snd]. fold entries. split; [|split].
  - rewrite broadcast_loop_events. unfold events.
    rewrite rev_app_distr, rev_involutive. cbn [rev].
    rewrite <- app_assoc. reflexivity.
  - apply broadcast_loop_range. lia.
  - intros Hlen. rewrite broadcast_loop_counts by lia. fold opened.
    split; [lia|]. subst opened.
    pose proof (filter_length_le snd entries). lia.
Qed.

Lemma broadcast_writes_to_opened_lines_witness :
  fst (broadcast env_logins "System reboot in 5 minutes!" []) = 2
  /\ fst (broadcast env_logins "System reboot in 5 minutes!" []) <= 3.
Proof.
  destruct (broadcast_writes_to_opened_lines env_logins
              "System reboot in 5 minutes!" []) as (_ & _ & H).
  apply H. reflexivity.
Defined.

(** X4: [setupLock] gives a handle exactly when the etcd client can be
    made and the machine id is not empty, and the handle then carries
    that id and that client.  When it fails no handle is built; when the
    client cannot be made the machine id is not even read. *)
Theorem setupLock_result (E : env) (t : trace) :
  let g := calls is_GetClient t in
  let mID := machine_id E (calls is_MachineID t) in
  let t' := snd (setupLock E t) in
  (forall lck, fst (setupLock E t) = inr lck <->
     getClient_err E g = None /\ mID <> "" /\ lck = mkLock mID g)
  /\ (forall e, fst (setupLock E t) = inl e ->
        calls is_LockNew t' = calls is_LockNew t)
  /\ (getClient_err E g <> None -> calls is_MachineID t' = calls is_MachineID t)
  /\ calls is_GetClient t' = S g
  /\ extends setup_event t t'.
Proof.
  cbv zeta. rewrite setupLock_run. cbv zeta.
  destruct (getClient_err E (calls is_GetClient t)) as [e|].
  { cbn [fst snd]. repeat split; try discriminate; try reflexivity.
    - intros (H & _); discriminate.
    - apply extends_cons; [reflexivity | apply extends_refl]. }
  destruct (String.eqb_spec (machine_id E (calls is_MachineID t)) "") as [Hm|Hm];
    cbn [fst snd].
  - repeat split; try discriminate; try reflexivity.
    + intros (_ & H & _); contradiction.
    + intros H; contradiction.
    + repeat (apply extends_cons; [reflexivity|]). apply extends_refl.
  - repeat split; try discriminate; try reflexivity; try assumption.
    + congruence.
    + intros (_ & _ & ->). reflexivity.
    + intros H; contradiction.
    + repeat (apply extends_cons; [reflexivity|]). apply extends_refl.
Qed.

Lemma setupLock_result_witness :
  fst (setupLock env_quiet []) = inr (mkLock "0123456789abcdef" 0%nat)
  /\ calls is_LockNew (snd (setupLock env_no_machine_id [])) = 0%nat.
Proof.
  destruct (setupLock_result env_quiet []) as (Hok & _).
  destruct (setupLock_result env_no_machine_id []) as (_ & Hfail & _).
  split.
  - apply Hok. split; [reflexivity | split; [discriminate | reflexivity]].
  - apply (Hfail (Errorf "Cannot read machine-id")). reflexivity.
Defined.

(** X5: [unlockIfHeld] calls [Unlock] once.  It answers [nil] exactly when
    the lock was released or was not held; any other error comes back
    unchanged; and it reports a release only when one has happened. *)
Theorem unlockIfHeld_result (E : env) (lck : Lock) (t : trace) :
  let err := Unlock_err E (calls is_Unlock t) in
  let t' := snd (unlockIfHeld E lck t) in
  (fst (unlockIfHeld E lck t) = None <-> released err = true)
  /\ (released err = false -> fst (unlockIfHeld E lck t) = err)
  /\ calls is_Unlock t' = S (calls is_Unlock t)
  /\ (t' = EvPrintln [AStr "Unlocked existing lock for this machine"]
           :: EvUnlock lck :: t <-> err = None)
  /\ (err <> None -> t' = EvUnlock lck :: t).
Proof.
  cbv zeta. rewrite unlockIfHeld_run.
  destruct (Unlock_err E (calls is_Unlock t)) as [[| |msg]|]; cbn [fst snd];
    rewrite ?calls_cons; cbn [is_Unlock released is_nil is_ErrNotExist orb];
    repeat split; try congruence; try discriminate.
Qed.

Lemma unlockIfHeld_result_witness :
  fst (unlockIfHeld env_release_fails_once (mkLock "id" 0%nat) [])
  = Some (Errorf "etcd timeout")
  /\ snd (unlockIfHeld env_release_fails_once (mkLock "id" 0%nat) [])
     = [EvUnlock (mkLock "id" 0%nat)].
Proof.
  destruct (unlockIfHeld_result env_release_fails_once (mkLock "id" 0%nat) [])
    as (_ & Hpass & _ & _ & Hquiet).
  split; [apply Hpass; reflexivity | apply Hquiet; discriminate].
Defined.

Lemma etcdActive_extends (E : env) (q : event -> bool) (t : trace) :
  (forall e, probe_event e = true -> q e = true) ->
  extends q t (snd (etcdActive E t)).
Proof.
  intros Hq. rewrite etcdActive_run. cbv zeta.
  destruct (dbus_New_err E (calls is_DbusNew t)); cbn [snd].
  - apply extends_cons; [apply Hq; reflexivity | apply extends_refl].
  - unfold query_events, etcdServices. cbn [map rev app].
    repeat (apply extends_cons; [apply Hq; reflexivity|]). apply extends_refl.
Qed.

(** X6: the probe opens one bus connection per call.  When the connection
    is made, it asks, on that connection, for the ActiveState of each
    listed service, once each and in list order (etcd.service, then
    etcd2.service), and closes the connection as the last thing; when the
    connection is not made, nothing is queried and nothing is closed.  The
    probe does nothing else. *)
Theorem etcdActive_closes_what_it_opens (E : env) (t : trace) :
  let k := calls is_DbusNew t in
  let t' := snd (etcdActive E t) in
  calls is_DbusNew t' = S k
  /\ extends probe_event t t'
  /\ (dbus_New_err E k = None ->
      events t'
      = (events t
         ++ EvDbusNew
            :: map (fun service => EvGetUnitProperty k service "ActiveState")
                 etcdServices
         ++ [EvDbusClose k])%list
      /\ NoDup etcdServices
      /\ calls is_GetUnitProperty t'
         = (calls is_GetUnitProperty t + List.length etcdServices)%nat
      /\ calls is_DbusClose t' = S (calls is_DbusClose t)
      /\ exists rest, t' = EvDbusClose k :: rest)
  /\ (dbus_New_err E k <> None ->
      events t' = (events t ++ [EvDbusNew])%list
      /\ calls is_GetUnitProperty t' = calls is_GetUnitProperty t
      /\ calls is_DbusClose t' = calls is_DbusClose t).
Proof.
  cbv zeta. split; [|split].
  - rewrite etcdActive_run. cbv zeta.
    destruct (dbus_New_err E (calls is_DbusNew t)); cbn [snd];
      unfold query_events, etcdServices; cbn [map rev app];
      rewrite !calls_cons; reflexivity.
  - apply etcdActive_extends. auto.
  - rewrite etcdActive_run. cbv zeta.
    destruct (dbus_New_err E (calls is_DbusNew t)); cbn [snd];
      unfold query_events, etcdServices, events;
      cbn [map rev app List.length];
      rewrite !calls_cons; cbn [is_GetUnitProperty is_DbusClose]; split.
    + discriminate.
    + intros _. split; [reflexivity|]. split; reflexivity.
    + intros _. split; [rewrite <- !app_assoc; reflexivity|].
      split.
      { repeat constructor; cbn; intuition discriminate. }
      split; [lia|]. split; [reflexivity | eauto].
    + intros H; contradiction.
Qed.

Lemma etcdActive_closes_what_it_opens_witness :
  events (snd (etcdActive env_both_active [])) =
  [EvDbusNew;
   EvGetUnitProperty 0%nat "etcd.service" "ActiveState";
   EvGetUnitProperty 0%nat "etcd2.service" "ActiveState";
   EvDbusClose 0%nat]
  /\ events (snd (etcdActive env_bus_down [])) = [EvDbusNew].
Proof.
  split.
  - destruct (etcdActive_closes_what_it_opens env_both_active [])
      as (_ & _ & Hopen & _).
    destruct Hopen as (Hevents & _); [reflexivity|]. exact Hevents.
  - destruct (etcdActive_closes_what_it_opens env_bus_down [])
      as (_ & _ & _ & Hdown).
    destruct Hdown as (Hevents & _); [discriminate|]. exact Hevents.
Defined.

(** ** More on the reboot executor *)

Lemma useLock_extends (E : env) (r : rebooter) (q : event -> bool) (t : trace) :
  (forall e, probe_event e = true -> q e = true) ->
  (forall f a, q (EvPrintf f a) = true) ->
  extends q t (snd (useLock E r t)).
Proof.
  intros Hq Hp. unfold useLock.
  destruct (String.eqb (strategy r) StrategyBestEffort).
  - rewrite bind_run.
    pose proof (etcdActive_extends E q t Hq) as Hext.
    destruct (etcdActive E t) as [[[active name] err] t1]. cbn [fst snd] in *.
    destruct err; [exact Hext|].
    destruct active; rewrite bind_run; cbn [Printf emit ret fst snd];
      (apply extends_cons; [apply Hp | exact Hext]).
  - destruct (String.eqb (strategy r) StrategyEtcdLock); [apply extends_refl|].
    destruct (String.eqb (strategy r) StrategyReboot); apply extends_refl.
Qed.

Lemma setupLock_extends (E : env) (q : event -> bool) (t : trace) :
  (forall e, setup_event e = true -> q e = true) ->
  extends q t (snd (setupLock E t)).
Proof.
  intros Hq. rewrite setupLock_run. cbv zeta.
  destruct (getClient_err E (calls is_GetClient t)); cbn [snd].
  - apply extends_cons; [apply Hq; reflexivity | apply extends_refl].
  - destruct (String.eqb _ ""); cbn [snd];
      repeat (apply extends_cons; [apply Hq; reflexivity|]); apply extends_refl.
Qed.

Lemma unlockIfHeld_extends (E : env) (lck : Lock) (q : event -> bool) (t : trace) :
  (forall e, release_event e = true -> q e = true) ->
  extends q t (snd (unlockIfHeld E lck t)).
Proof.
  intros Hq. rewrite unlockIfHeld_run.
  destruct (Unlock_err E (calls is_Unlock t)) as [[| |msg]|]; cbn [snd];
    repeat (apply extends_cons; [apply Hq; reflexivity|]); apply extends_refl.
Qed.

Lemma rebootAndSleep_extends (E : env) (lgn : login1_Conn) (q : event -> bool)
    (t : trace) :
  (forall e, notify_event e = true -> q e = true) ->
  extends q t (snd (rebootAndSleep E lgn t)).
Proof.
  intros Hq. rewrite rebootAndSleep_run. cbn [snd].
  assert (Hb : extends q t (snd (broadcast E "System reboot in 5 minutes!" t))).
  { unfold broadcast. rewrite bind_run. cbn [call fst snd].
    rewrite broadcast_loop_events.
    exists (rev (flat_map (tty_events "System reboot in 5 minutes!")
                   (utmp_lines E (calls is_Setutent t))) ++ [EvSetutent])%list.
    split; [rewrite <- app_assoc; reflexivity|].
    rewrite forallb_app. cbn [forallb]. rewrite (Hq EvSetutent eq_refl).
    rewrite andb_true_r. apply forallb_forall. intros e He.
    apply in_rev, in_flat_map in He. destruct He as ([line opened] & _ & He).
    apply Hq. cbn [tty_events] in He. destruct He as [<-|He]; [reflexivity|].
    destruct opened; [destruct He as [<-|[]]; reflexivity | destruct He]. }
  unfold reboot_events.
  destruct (negb _);
    repeat (apply extends_cons; [apply Hq; reflexivity|]); exact Hb.
Qed.

(** How the locking loop can end: out of fuel after as many failed
    acquisitions, with no reboot requested; or, after some failures and
    one acquisition that went through, with one reboot requested. *)
Lemma lockAndReboot_loop_outcome (E : env) (r : rebooter) (lck : Lock)
    (fuel : nat) :
  forall (interval : Duration) (t : trace),
  let res := lockAndReboot_loop E r lck fuel interval t in
  (fst res = None
   /\ calls is_Reboot (snd res) = calls is_Reboot t
   /\ calls is_Lock (snd res) = (calls is_Lock t + fuel)%nat
   /\ forall k, (k < fuel)%nat ->
        acquired (Lock_err E (calls is_Lock t + k)) = false)
  \/ (fst res = Some tt
      /\ calls is_Reboot (snd res) = S (calls is_Reboot t)
      /\ exists n, (n < fuel)%nat
           /\ calls is_Lock (snd res) = (calls is_Lock t + S n)%nat
           /\ acquired (Lock_err E (calls is_Lock t + n)) = true).
Proof.
  induction fuel as [|fuel IH]; intros interval t; cbv zeta.
  - left. cbn [lockAndReboot_loop ret fst snd].
    repeat split; [lia | intros k Hk; lia].
  - destruct (acquired (Lock_err E (calls is_Lock t))) eqn:Ha.
    + right. rewrite lockAndReboot_loop_acquired by exact Ha. cbn [fst snd].
      split; [reflexivity|]. split.
      * rewrite rebootAndSleep_reboots_once, calls_cons. reflexivity.
      * exists 0%nat. split; [lia|].
        rewrite rebootAndSleep_no_lock, calls_cons. cbn [is_Lock].
        rewrite Nat.add_0_r. split; [lia | exact Ha].
    + rewrite lockAndReboot_loop_retry by exact Ha.
      specialize (IH (expBackoff interval)
                     (retry_events E lck 1 (calls is_Lock t) interval t)).
      cbv zeta in IH.
      assert (Hl : calls is_Lock (retry_events E lck 1 (calls is_Lock t) interval t)
                   = S (calls is_Lock t)).
      { rewrite retry_events_calls by reflexivity. cbn [is_Lock]. lia. }
      assert (Hr : calls is_Reboot (retry_events E lck 1 (calls is_Lock t) interval t)
                   = calls is_Reboot t).
      { rewrite retry_events_calls by reflexivity. reflexivity. }
      rewrite Hl, Hr in IH.
      destruct IH as [(Hn & Hreb & Hlock & Hall)|(Hs & Hreb & n & Hn & Hlock & Hacq)].
      * left. repeat split; [exact Hn | exact Hreb | lia |].
        intros k Hk. destruct k as [|k].
        -- rewrite Nat.add_0_r. exact Ha.
        -- replace (calls is_Lock t + S k)%nat with (S (calls is_Lock t) + k)%nat
             by lia.
           apply Hall. lia.
      * right. split; [exact Hs|]. split; [exact Hreb|].
        exists (S n). split; [lia|]. split; [lia|].
        replace (calls is_Lock t + S n)%nat with (S (calls is_Lock t) + n)%nat
          by lia.
        exact Hacq.
Qed.

(** How [reboot] can end once the gate has asked for the lock. *)
Lemma reboot_lock_path (E : env) (r : rebooter) (fuel : nat) (t : trace) :
  fst (useLock E r t) = (true, None) ->
  let res := reboot E r fuel t in
  (fst res = Some 1
   /\ calls is_Reboot (snd res) = calls is_Reboot t
   /\ calls is_Lock (snd res) = calls is_Lock t)
  \/ (fst res = None
      /\ calls is_Reboot (snd res) = calls is_Reboot t
      /\ calls is_Lock (snd res) = (calls is_Lock t + fuel)%nat
      /\ forall k, (k < fuel)%nat ->
           acquired (Lock_err E (calls is_Lock t + k)) = false)
  \/ (fst res = Some 1
      /\ calls is_Reboot (snd res) = (calls is_Reboot t + 2)%nat
      /\ exists n, (n < fuel)%nat
           /\ calls is_Lock (snd res) = (calls is_Lock t + S n)%nat
           /\ acquired (Lock_err E (calls is_Lock t + n)) = true).
Proof.
  intros Huse. cbv zeta. unfold reboot. rewrite bind_run.
  pose proof (useLock_calls E r is_Reboot t eq_refl (fun _ _ _ => eq_refl)
                (fun _ => eq_refl) (fun _ _ => eq_refl)) as Hr1.
  pose proof (useLock_calls E r is_Lock t eq_refl (fun _ _ _ => eq_refl)
                (fun _ => eq_refl) (fun _ _ => eq_refl)) as Hl1.
  destruct (useLock E r t) as [[use err] t1]. cbn [fst snd] in *.
  injection Huse as -> ->. rewrite bind_run.
  pose proof (setupLock_calls E is_Reboot t1 eq_refl (fun _ => eq_refl)
                (fun _ _ => eq_refl)) as Hr2.
  pose proof (setupLock_calls E is_Lock t1 eq_refl (fun _ => eq_refl)
                (fun _ _ => eq_refl)) as Hl2.
  destruct (setupLock E t1) as [[e|lck] t2]; cbn [fst snd] in *.
  { left. rewrite bind_run. cbn [Fprintln_stderr emit ret fst snd].
    rewrite !calls_cons. cbn [is_Reboot is_Lock].
    repeat split; congruence. }
  rewrite bind_run.
  pose proof (unlockIfHeld_calls E lck is_Reboot t2 (fun _ => eq_refl)) as Hr3.
  pose proof (unlockIfHeld_calls E lck is_Lock t2 (fun _ => eq_refl)) as Hl3.
  cbn [is_Reboot is_Lock] in Hr3, Hl3.
  destruct (unlockIfHeld E lck t2) as [[e|] t3]; cbn [fst snd] in *.
  { left. rewrite bind_run. cbn [Fprintln_stderr emit ret fst snd].
    rewrite !calls_cons. cbn [is_Reboot is_Lock].
    repeat split; congruence. }
  rewrite bind_run. unfold lockAndReboot.
  pose proof (lockAndReboot_loop_outcome E r lck fuel initialInterval t3) as Hloop.
  cbv zeta in Hloop.
  assert (Hl : calls is_Lock t3 = calls is_Lock t) by congruence.
  assert (Hr : calls is_Reboot t3 = calls is_Reboot t) by congruence.
  rewrite Hl, Hr in Hloop.
  destruct (lockAndReboot_loop E r lck fuel initialInterval t3) as [done t4].
  cbn [fst snd] in *.
  destruct Hloop as [(-> & Hreb & Hlock & Hall)|(-> & Hreb & n & Hn & Hlock & Hacq)].
  - right. left. cbn [ret fst snd]. repeat split; assumption.
  - right. right. rewrite !bind_run. cbn [Println emit ret fst snd].
    rewrite !calls_cons. cbn [is_Reboot is_Lock].
    rewrite rebootAndSleep_reboots_once, rebootAndSleep_no_lock.
    split; [reflexivity|]. split; [lia|]. exists n. repeat split; assumption.
Qed.

Lemma reboot_run_gate_error (E : env) (r : rebooter) (fuel : nat) (t : trace)
    (b : bool) (e : goerror) :
  fst (useLock E r t) = (b, Some e) ->
  reboot E r fuel t = (Some 1, EvFprintln_stderr [AErr e] :: snd (useLock E r t)).
Proof.
  intros Huse. unfold reboot. rewrite bind_run, Huse. rewrite bind_run.
  reflexivity.
Qed.

Lemma reboot_run_no_lock (E : env) (r : rebooter) (fuel : nat) (t : trace) :
  fst (useLock E r t) = (false, None) ->
  reboot E r fuel t =
  (Some 1,
   EvPrintln [AStr "Error: reboot attempt never finished"]
   :: snd (rebootAndSleep E (lgn r) (snd (useLock E r t)))).
Proof.
  intros Huse. unfold reboot. rewrite bind_run, Huse. rewrite !bind_run.
  reflexivity.
Qed.

(** X7: the three fatal ways out of [reboot].  When the gate fails, when
    the lock handle cannot be set up, and when the stale lock cannot be
    released, [reboot] prints the error and returns 1, whatever the fuel;
    it has then neither tried to acquire the lock nor asked for a
    reboot. *)
Theorem reboot_fatal_paths (E : env) (r : rebooter) (fuel : nat) (t : trace) :
  let t1 := snd (useLock E r t) in
  let t2 := snd (setupLock E t1) in
  let untouched (t' : trace) :=
    calls is_Lock t' = calls is_Lock t /\ calls is_Reboot t' = calls is_Reboot t in
  (forall b e, fst (useLock E r t) = (b, Some e) ->
     reboot E r fuel t = (Some 1, EvFprintln_stderr [AErr e] :: t1)
     /\ untouched (snd (reboot E r fuel t)))
  /\ (fst (useLock E r t) = (true, None) ->
      (forall e, fst (setupLock E t1) = inl e ->
         reboot E r fuel t = (Some 1, EvFprintln_stderr [AErr e] :: t2)
         /\ untouched (snd (reboot E r fuel t)))
      /\ (forall lck e, fst (setupLock E t1) = inr lck ->
            fst (unlockIfHeld E lck t2) = Some e ->
            reboot E r fuel t =
            (Some 1, EvFprintln_stderr [AErr e] :: snd (unlockIfHeld E lck t2))
            /\ untouched (snd (reboot E r fuel t)))).
Proof.
  cbv zeta.
  pose proof (useLock_calls E r is_Reboot t eq_refl (fun _ _ _ => eq_refl)
                (fun _ => eq_refl) (fun _ _ => eq_refl)) as Hr1.
  pose proof (useLock_calls E r is_Lock t eq_refl (fun _ _ _ => eq_refl)
                (fun _ => eq_refl) (fun _ _ => eq_refl)) as Hl1.
  pose proof (setupLock_calls E is_Reboot (snd (useLock E r t)) eq_refl
                (fun _ => eq_refl) (fun _ _ => eq_refl)) as Hr2.
  pose proof (setupLock_calls E is_Lock (snd (useLock E r t)) eq_refl
                (fun _ => eq_refl) (fun _ _ => eq_refl)) as Hl2.
  split; [|intros Huse; split].
  - intros b e Huse.
    rewrite (reboot_run_gate_error E r fuel t b e Huse). cbn [snd].
    rewrite !calls_cons. cbn [is_Lock is_Reboot].
    repeat split; assumption.
  - intros e Hsetup.
    assert (Hrun : reboot E r fuel t =
      (Some 1, EvFprintln_stderr [AErr e] :: snd (setupLock E (snd (useLock E r t))))).
    { unfold reboot. rewrite bind_run, Huse. rewrite bind_run, Hsetup.
      rewrite bind_run. reflexivity. }
    rewrite Hrun. cbn [snd]. rewrite !calls_cons. cbn [is_Lock is_Reboot].
    split; [reflexivity|]. split; congruence.
  - intros lck e Hsetup Hunlock.
    pose proof (unlockIfHeld_calls E lck is_Reboot
                  (snd (setupLock E (snd (useLock E r t)))) (fun _ => eq_refl)) as Hr3.
    pose proof (unlockIfHeld_calls E lck is_Lock
                  (snd (setupLock E (snd (useLock E r t)))) (fun _ => eq_refl)) as Hl3.
    cbn [is_Reboot is_Lock] in Hr3, Hl3.
    assert (Hrun : reboot E r fuel t =
      (Some 1, EvFprintln_stderr [AErr e]
               :: snd (unlockIfHeld E lck (snd (setupLock E (snd (useLock E r t))))))).
    { unfold reboot. rewrite bind_run, Huse. rewrite bind_run, Hsetup.
      rewrite bind_run, Hunlock. rewrite bind_run. reflexivity. }
    rewrite Hrun. cbn [snd]. rewrite !calls_cons. cbn [is_Lock is_Reboot].
    split; [reflexivity|]. split; congruence.
Qed.

Lemma reboot_fatal_paths_witness :
  reboot env_bus_down (mkRebooter "best-effort" Login1Conn) 3 [] =
  (Some 1, [EvFprintln_stderr [AErr (Errorf "no system bus")]; EvDbusNew])
  /\ reboot env_no_machine_id (mkRebooter "etcd-lock" Login1Conn) 3 [] =
     (Some 1, [EvFprintln_stderr [AErr (Errorf "Cannot read machine-id")];
               EvMachineID "/"; EvGetClient])
  /\ reboot env_release_fails_once (mkRebooter "etcd-lock" Login1Conn) 3 [] =
     (Some 1, [EvFprintln_stderr [AErr (Errorf "etcd timeout")];
               EvUnlock (mkLock "0123456789abcdef" 0%nat);
               EvLockNew "0123456789abcdef" 0%nat; EvMachineID "/"; EvGetClient]).
Proof.
  split; [|split].
  - destruct (reboot_fatal_paths env_bus_down
                (mkRebooter "best-effort" Login1Conn) 3 []) as [Hgate _].
    apply (Hgate false (Errorf "no system bus")). reflexivity.
  - destruct (reboot_fatal_paths env_no_machine_id
                (mkRebooter "etcd-lock" Login1Conn) 3 []) as [_ Hlock].
    destruct (Hlock eq_refl) as [Hsetup _].
    apply (Hsetup (Errorf "Cannot read machine-id")). reflexivity.
  - destruct (reboot_fatal_paths env_release_fails_once
                (mkRebooter "etcd-lock" Login1Conn) 3 []) as [_ Hlock].
    destruct (Hlock eq_refl) as [_ Hunlock].
    apply (Hunlock (mkLock "0123456789abcdef" 0%nat) (Errorf "etcd timeout"));
      reflexivity.
Defined.

(** X8: when the gate says no lock is needed, [reboot] asks for the reboot
    once, prints that it never finished and returns 1, whatever the fuel;
    it never reaches for etcd: no client, no handle, no acquisition, no
    release. *)
Theorem reboot_without_lock (E : env) (r : rebooter) (fuel : nat) (t : trace) :
  fst (useLock E r t) = (false, None) ->
  let t' := snd (reboot E r fuel t) in
  reboot E r fuel t =
  (Some 1,
   EvPrintln [AStr "Error: reboot attempt never finished"]
   :: snd (rebootAndSleep E (lgn r) (snd (useLock E r t))))
  /\ calls is_Reboot t' = S (calls is_Reboot t)
  /\ calls is_GetClient t' = calls is_GetClient t
  /\ calls is_LockNew t' = calls is_LockNew t
  /\ calls is_Lock t' = calls is_Lock t
  /\ calls is_Unlock t' = calls is_Unlock t.
Proof.
  intros Huse. cbv zeta.
  rewrite (reboot_run_no_lock E r fuel t Huse). cbn [snd].
  split; [reflexivity|].
  assert (Hquiet : forall p,
            p (EvPrintln [AStr "Error: reboot attempt never finished"]) = false ->
            (forall e, notify_event e = true -> p e = false) ->
            (forall e, probe_event e = true -> p e = false) ->
            calls p (EvPrintln [AStr "Error: reboot attempt never finished"]
                     :: snd (rebootAndSleep E (lgn r) (snd (useLock E r t))))
            = calls p t).
  { intros p Hp Hn Hb. rewrite calls_cons, Hp.
    rewrite (extends_calls p notify_event (snd (useLock E r t)))
      by (apply rebootAndSleep_extends || exact Hn; auto).
    apply useLock_calls; intros;
      first [apply Hb; reflexivity | apply Hn; reflexivity]. }
  split.
  - rewrite calls_cons. cbn [is_Reboot]. rewrite rebootAndSleep_reboots_once.
    rewrite useLock_calls by reflexivity. reflexivity.
  - repeat split; apply Hquiet; try reflexivity;
      intros e He; destruct e; try reflexivity; discriminate He.
Qed.

Lemma reboot_without_lock_witness :
  reboot env_quiet (mkRebooter "reboot" Login1Conn) 0 [] =
  (Some 1,
   [EvPrintln [AStr "Error: reboot attempt never finished"];
    EvSleep 604800000000000;
    EvPrintln [AStr "Reboot sent. Going to sleep."];
    EvReboot false; EvSetutent]).
Proof.
  destruct (reboot_without_lock env_quiet (mkRebooter "reboot" Login1Conn) 0 [])
    as [Hrun _]; [reflexivity|].
  rewrite Hrun. reflexivity.
Defined.

(** X9: no reboot without the lock.  When the gate asks for the lock,
    [reboot] asks for a reboot only after a call of [Lock] that succeeded
    or found the lock already held; so as long as every acquisition
    fails, no reboot is requested, whatever the fuel. *)
Theorem reboot_only_with_the_lock (E : env) (r : rebooter) (fuel : nat)
    (t : trace) :
  fst (useLock E r t) = (true, None) ->
  let t' := snd (reboot E r fuel t) in
  (calls is_Reboot t' <> calls is_Reboot t ->
   exists k, (calls is_Lock t <= k < calls is_Lock t')%nat
             /\ acquired (Lock_err E k) = true)
  /\ ((forall k, acquired (Lock_err E k) = false) ->
      calls is_Reboot t' = calls is_Reboot t).
Proof.
  intros Huse. cbv zeta.
  destruct (reboot_lock_path E r fuel t Huse)
    as [(_ & Hreb & _)|[(_ & Hreb & _)|(_ & Hreb & n & Hn & Hlock & Hacq)]].
  - split; [intros H; contradiction | intros _; exact Hreb].
  - split; [intros H; contradiction | intros _; exact Hreb].
  - split.
    + intros _. exists (calls is_Lock t + n)%nat. split; [lia | exact Hacq].
    + intros Hnever. rewrite Hnever in Hacq. discriminate.
Qed.

Lemma reboot_only_with_the_lock_witness :
  calls is_Reboot (snd (reboot env_lock_never
                          (mkRebooter "etcd-lock" Login1Conn) 9 [])) = 0%nat.
Proof.
  destruct (reboot_only_with_the_lock env_lock_never
              (mkRebooter "etcd-lock" Login1Conn) 9 []) as [_ Hnever];
    [reflexivity|].
  apply Hnever. intros k. reflexivity.
Defined.

(** X10: [reboot] never returns 0: when it returns, it returns 1.  It is
    still running when the fuel is used up only if the gate asked for the
    lock and every acquisition so far has failed, and then no reboot has
    been requested. *)
Theorem reboot_exit_status (E : env) (r : rebooter) (fuel : nat) (t : trace) :
  (fst (reboot E r fuel t) = Some 1 \/ fst (reboot E r fuel t) = None)
  /\ (fst (reboot E r fuel t) = None ->
      fst (useLock E r t) = (true, None)
      /\ (forall k, (k < fuel)%nat ->
            acquired (Lock_err E (calls is_Lock t + k)) = false)
      /\ calls is_Lock (snd (reboot E r fuel t)) = (calls is_Lock t + fuel)%nat
      /\ calls is_Reboot (snd (reboot E r fuel t)) = calls is_Reboot t).
Proof.
  destruct (fst (useLock E r t)) as [use [e|]] eqn:Huse.
  - rewrite (reboot_run_gate_error E r fuel t use e Huse). cbn [fst].
    split; [left; reflexivity | discriminate].
  - destruct use.
    + destruct (reboot_lock_path E r fuel t Huse)
        as [(Hres & _)|[(Hres & Hreb & Hlock & Hall)|(Hres & _)]].
      * rewrite Hres. split; [left; reflexivity | discriminate].
      * rewrite Hres. split; [right; reflexivity|]. intros _.
        repeat split; assumption.
      * rewrite Hres. split; [left; reflexivity | discriminate].
    + rewrite (reboot_run_no_lock E r fuel t Huse). cbn [fst].
      split; [left; reflexivity | discriminate].
Qed.

Lemma reboot_exit_status_witness :
  calls is_Lock (snd (reboot env_lock_never
                        (mkRebooter "etcd-lock" Login1Conn) 9 [])) = 9%nat
  /\ calls is_Reboot (snd (reboot env_lock_never
                        (mkRebooter "etcd-lock" Login1Conn) 9 [])) = 0%nat.
Proof.
  destruct (reboot_exit_status env_lock_never
              (mkRebooter "etcd-lock" Login1Conn) 9 []) as [_ Hrunning].
  destruct Hrunning as (_ & _ & Hlock & Hreboot); [reflexivity|].
  split; [exact Hlock | exact Hreboot].
Defined.

(** ** More on the stale-lock reaper *)

Lemma release_step_extends (E : env) (q : event -> bool) (t : trace) :
  (forall e, setup_event e = true -> q e = true) ->
  (forall e, release_event e = true -> q e = true) ->
  extends q t (snd (release_step E t)).
Proof.
  intros Hs Hr. unfold release_step.
  pose proof (setupLock_extends E q t Hs) as H1.
  destruct (setupLock E t) as [[e|lck] t2]; cbn [fst snd] in *; [exact H1|].
  pose proof (unlockIfHeld_extends E lck q t2 Hr) as H2.
  destruct (unlockIfHeld E lck t2) as [[e|] t3]; cbn [fst snd] in *;
    exact (extends_trans q _ _ _ H1 H2).
Qed.

Lemma unlockHeldLocks_tick_extends (E : env) (q : event -> bool) (t : trace) :
  (forall e, probe_event e = true -> q e = true) ->
  (forall e, setup_event e = true -> q e = true) ->
  (forall e, release_event e = true -> q e = true) ->
  extends q t (snd (unlockHeldLocks_tick E t)).
Proof.
  intros Hp Hs Hr. rewrite unlockHeldLocks_tick_run. cbv zeta.
  pose proof (etcdActive_extends E q t Hp) as H1.
  destruct (etcdActive E t) as [[[active name] err] t1]. cbn [fst snd] in *.
  destruct err as [e|]; [destruct active; exact H1|].
  destruct active.
  - exact (extends_trans q _ _ _ H1 (release_step_extends E q t1 Hs Hr)).
  - assert (H2 : extends q t (EvGetClient :: t1))
      by (apply extends_cons; [apply Hs; reflexivity | exact H1]).
    destruct (getClient_err E (calls is_GetClient t)); cbn [snd]; [exact H2|].
    exact (extends_trans q _ _ _ H2 (release_step_extends E q _ Hs Hr)).
Qed.

Lemma unlockHeldLocks_tick_calls (E : env) (p : event -> bool) (t : trace) :
  (forall e, tick_event e = true -> p e = false) ->
  calls p (snd (unlockHeldLocks_tick E t)) = calls p t.
Proof.
  intros Hp. apply (extends_calls p tick_event); [|exact Hp].
  apply unlockHeldLocks_tick_extends; intros e He; unfold tick_event;
    rewrite He, ?orb_true_r; reflexivity.
Qed.

Lemma unlockHeldLocks_loop_extends (E : env) (fuel : nat) :
  forall (interval : Duration) (t : trace),
  extends reaper_event t (snd (unlockHeldLocks_loop E fuel interval t)).
Proof.
  induction fuel as [|fuel IH]; intros interval t.
  - apply extends_refl.
  - destruct (stop_ready E (calls is_Select t)) eqn:Hstop.
    + rewrite unlockHeldLocks_loop_stop by exact Hstop. cbn [snd].
      repeat (apply extends_cons; [reflexivity|]). apply extends_refl.
    + rewrite unlockHeldLocks_loop_timer by exact Hstop. cbv zeta.
      assert (Ht : extends reaper_event t
                     (snd (unlockHeldLocks_tick E
                             (EvSelect false :: EvAfter interval :: t)))).
      { apply extends_trans with (EvSelect false :: EvAfter interval :: t).
        - repeat (apply extends_cons; [reflexivity|]). apply extends_refl.
        - apply unlockHeldLocks_tick_extends; intros e He; unfold reaper_event;
            rewrite He, ?orb_true_r; reflexivity. }
      destruct (unlockHeldLocks_tick E (EvSelect false :: EvAfter interval :: t))
        as [[reason|] t1]; cbn [fst snd] in *.
      * eapply extends_trans; [|apply IH].
        apply extends_cons; [reflexivity | exact Ht].
      * apply extends_cons; [reflexivity | exact Ht].
Qed.

(** X11: the reaper stays within its own business.  All that a run of the
    reaper adds to the trace are waits on its timer and on [stop], probes
    of systemd, calls for an etcd client, the machine id and a lock
    handle, releases, messages, and its sign-off: it never acquires the
    lock, never asks for a reboot, never sleeps and never reads the
    clock. *)
Theorem unlockHeldLocks_only_reaps (E : env) (fuel : nat) (t : trace) :
  let t' := snd (unlockHeldLocks E fuel t) in
  extends reaper_event t t'
  /\ calls is_Lock t' = calls is_Lock t
  /\ calls is_Reboot t' = calls is_Reboot t
  /\ calls is_Sleep t' = calls is_Sleep t
  /\ calls is_Now t' = calls is_Now t.
Proof.
  cbv zeta. unfold unlockHeldLocks.
  pose proof (unlockHeldLocks_loop_extends E fuel initialInterval t) as Hext.
  split; [exact Hext|].
  repeat split; apply (extends_calls _ reaper_event _ _ Hext);
    intros e He; destruct e; try reflexivity; discriminate He.
Qed.

(** X12: the reaper signs off exactly once, and as the last thing it
    does: when [unlockHeldLocks] returns, [wg.Done()] has been called
    once, at the very end; while it is still running it has not been
    called. *)
Theorem unlockHeldLocks_signs_off_once (E : env) (fuel : nat) :
  forall (interval : Duration) (t : trace),
  let res := unlockHeldLocks_loop E fuel interval t in
  (fst res = Some tt ->
   calls is_WgDone (snd res) = S (calls is_WgDone t)
   /\ exists rest, snd res = EvWgDone :: rest)
  /\ (fst res = None -> calls is_WgDone (snd res) = calls is_WgDone t).
Proof.
  induction fuel as [|fuel IH]; intros interval t; cbv zeta.
  - cbn [unlockHeldLocks_loop ret fst snd]. split; [discriminate | reflexivity].
  - destruct (stop_ready E (calls is_Select t)) eqn:Hstop.
    + rewrite unlockHeldLocks_loop_stop by exact Hstop. cbn [fst snd].
      split; [|discriminate]. intros _. rewrite !calls_cons. cbn [is_WgDone].
      split; [reflexivity | eauto].
    + rewrite unlockHeldLocks_loop_timer by exact Hstop. cbv zeta.
      pose proof (unlockHeldLocks_tick_calls E is_WgDone
                    (EvSelect false :: EvAfter interval :: t)) as Ht.
      rewrite !calls_cons in Ht. cbn [is_WgDone] in Ht.
      assert (Hdone : forall e, tick_event e = true -> is_WgDone e = false)
        by (intros e He; destruct e; try reflexivity; discriminate He).
      specialize (Ht Hdone).
      destruct (unlockHeldLocks_tick E (EvSelect false :: EvAfter interval :: t))
        as [[reason|] t1]; cbn [fst snd] in *.
      * specialize (IH (expBackoff interval)
                       (deferred_message reason (expBackoff interval) :: t1)).
        cbv zeta in IH. unfold deferred_message in IH at 2 5.
        rewrite !calls_cons in IH. cbn [is_WgDone] in IH. rewrite Ht in IH.
        exact IH.
      * split; [|discriminate]. intros _. rewrite calls_cons. cbn [is_WgDone].
        split; [congruence | eauto].
Qed.

Lemma unlockHeldLocks_signs_off_once_witness :
  calls is_WgDone (snd (unlockHeldLocks_loop env_reaper_active 1 initialInterval []))
  = 1%nat
  /\ calls is_WgDone
       (snd (unlockHeldLocks_loop env_store_unreachable 4 initialInterval []))
     = 0%nat.
Proof.
  split.
  - destruct (unlockHeldLocks_signs_off_once env_reaper_active 1
                initialInterval []) as [Hdone _].
    destruct Hdone as [Hcount _]; [reflexivity | exact Hcount].
  - destruct (unlockHeldLocks_signs_off_once env_store_unreachable 4
                initialInterval []) as [_ Hrunning].
    apply Hrunning. reflexivity.
Defined.

(** X13: the reaper stops when told.  Each turn of its loop makes one
    [select]; if the [select] that comes [n] turns from now finds [stop]
    ready, the reaper has returned after at most [n + 1] turns, whatever
    systemd and etcd answer meanwhile: the join in [runDaemon] does not
    wait for the lock to be released. *)
Theorem unlockHeldLocks_stops_when_told (E : env) (n : nat) :
  forall (fuel : nat) (interval : Duration) (t : trace),
  stop_ready E (calls is_Select t + n) = true ->
  (n < fuel)%nat ->
  fst (unlockHeldLocks_loop E fuel interval t) = Some tt
  /\ (calls is_Select (snd (unlockHeldLocks_loop E fuel interval t))
      <= calls is_Select t + S n)%nat.
Proof.
  assert (Hsel : forall e, tick_event e = true -> is_Select e = false)
    by (intros e He; destruct e; try reflexivity; discriminate He).
  induction n as [|n IH]; intros fuel interval t Hstop Hfuel;
    (destruct fuel as [|fuel]; [lia|]).
  - rewrite Nat.add_0_r in Hstop.
    rewrite unlockHeldLocks_loop_stop by exact Hstop. cbn [fst snd].
    rewrite !calls_cons. cbn [is_Select]. split; [reflexivity | lia].
  - destruct (stop_ready E (calls is_Select t)) eqn:Hnow.
    + rewrite unlockHeldLocks_loop_stop by exact Hnow. cbn [fst snd].
      rewrite !calls_cons. cbn [is_Select]. split; [reflexivity | lia].
    + rewrite unlockHeldLocks_loop_timer by exact Hnow. cbv zeta.
      pose proof (unlockHeldLocks_tick_calls E is_Select
                    (EvSelect false :: EvAfter interval :: t) Hsel) as Ht.
      rewrite !calls_cons in Ht. cbn [is_Select] in Ht.
      destruct (unlockHeldLocks_tick E (EvSelect false :: EvAfter interval :: t))
        as [[reason|] t1]; cbn [fst snd] in *.
      * assert (Hs1 : calls is_Select
                        (deferred_message reason (expBackoff interval) :: t1)
                      = S (calls is_Select t)).
        { rewrite calls_cons. exact Ht. }
        destruct (IH fuel (expBackoff interval)
                    (deferred_message reason (expBackoff interval) :: t1))
          as [Hres Hcount].
        -- rewrite Hs1. replace (S (calls is_Select t) + n)%nat
             with (calls is_Select t + S n)%nat by lia. exact Hstop.
        -- lia.
        -- split; [exact Hres | lia].
      * rewrite calls_cons. cbn [is_Select]. split; [reflexivity | lia].
Qed.

Lemma unlockHeldLocks_stops_when_told_witness :
  fst (unlockHeldLocks_loop env_stop_at_third 3 initialInterval []) = Some tt
  /\ (calls is_Select
        (snd (unlockHeldLocks_loop env_stop_at_third 3 initialInterval []))
      <= 3)%nat.
Proof.
  apply (unlockHeldLocks_stops_when_told env_stop_at_third 2 3 initialInterval []).
  - reflexivity.
  - lia.
Defined.

Lemma release_due_needs_store (E : env) (t : trace) :
  (forall k, getClient_err E k <> None) -> release_due E t = false.
Proof.
  intros Hdown. unfold release_due.
  destruct (fst (etcdActive E t)) as [[active name] [e|]]; [reflexivity|].
  cbv zeta.
  destruct (getClient_err E (if active then calls is_GetClient t
                             else S (calls is_GetClient t))) eqn:Hc.
  - cbn [is_nil]. rewrite andb_false_r. reflexivity.
  - apply Hdown in Hc. destruct Hc.
Qed.

(** X14: while the store cannot be reached the reaper releases nothing.
    If every [getClient] fails, a run of the reaper, however long, builds
    no lock handle and never calls [release()]; and unless [stop] comes it
    never returns: it is still deferring when the fuel is used up. *)
Theorem unlockHeldLocks_defers_while_unreachable (E : env) (fuel : nat) :
  (forall k, getClient_err E k <> None) ->
  forall (interval : Duration) (t : trace),
  let res := unlockHeldLocks_loop E fuel interval t in
  calls is_Unlock (snd res) = calls is_Unlock t
  /\ calls is_LockNew (snd res) = calls is_LockNew t
  /\ ((forall k, stop_ready E k = false) -> fst res = None).
Proof.
  intros Hdown. induction fuel as [|fuel IH]; intros interval t; cbv zeta.
  - cbn [unlockHeldLocks_loop ret fst snd]. repeat split.
  - destruct (stop_ready E (calls is_Select t)) eqn:Hstop.
    + rewrite unlockHeldLocks_loop_stop by exact Hstop. cbn [fst snd].
      rewrite !calls_cons. cbn [is_Unlock is_LockNew].
      repeat split. intros Hnever. rewrite Hnever in Hstop. discriminate.
    + rewrite unlockHeldLocks_loop_timer by exact Hstop. cbv zeta.
      destruct (unlockHeldLocks_tick_cases E
                  (EvSelect false :: EvAfter interval :: t)) as [_ Hdefer].
      rewrite !calls_cons in Hdefer. cbn [is_Unlock is_LockNew] in Hdefer.
      destruct (Hdefer (release_due_needs_store E _ Hdown))
        as (Hl & Hu & reason & Hr).
      destruct (unlockHeldLocks_tick E (EvSelect false :: EvAfter interval :: t))
        as [r t1]; cbn [fst snd] in *. subst r.
      specialize (IH (expBackoff interval)
                     (deferred_message reason (expBackoff interval) :: t1)).
      cbv zeta in IH.
      assert (Hu' : calls is_Unlock
                      (deferred_message reason (expBackoff interval) :: t1)
                    = calls is_Unlock t) by (rewrite calls_cons; exact Hu).
      assert (Hl' : calls is_LockNew
                      (deferred_message reason (expBackoff interval) :: t1)
                    = calls is_LockNew t) by (rewrite calls_cons; exact Hl).
      rewrite Hu', Hl' in IH. exact IH.
Qed.

Lemma unlockHeldLocks_defers_while_unreachable_witness :
  calls is_Unlock
    (snd (unlockHeldLocks_loop env_store_unreachable 5 initialInterval [])) = 0%nat
  /\ fst (unlockHeldLocks_loop env_store_unreachable 5 initialInterval []) = None.
Proof.
  destruct (unlockHeldLocks_defers_while_unreachable env_store_unreachable 5
              ltac:(intros k; discriminate) initialInterval [])
    as (Hu & _ & Hnever).
  split; [exact Hu | apply Hnever; reflexivity].
Defined.

(** ** More on the daemon *)

Lemma wait_for_window_extends {Periodic : Type}
    (DurationToStart : Periodic -> Z -> Duration) (E : env)
    (period : option Periodic) (q : event -> bool) (t : trace) :
  (forall e, orchestrator_event e = true -> q e = true) ->
  extends q t (snd (wait_for_window DurationToStart E period t)).
Proof.
  intros Hq. destruct period as [p|]; [|apply extends_refl].
  cbn [wait_for_window]. rewrite bind_run. cbn [Now emit ret bind fst snd].
  destruct (DurationToStart p (now E) >? 0).
  - rewrite bind_run. cbn [Printf Sleep emit fst snd].
    repeat (apply extends_cons; [apply Hq; reflexivity|]). apply extends_refl.
  - cbn [ret snd]. apply extends_cons; [apply Hq; reflexivity | apply extends_refl].
Qed.

(** How the coordination can end: with 1 because a collaborator is
    missing; waiting in [<-ch] for a status that does not come; still
    joining the reaper when the fuel is used up; or by handing over to
    [reboot]. *)
Lemma runDaemon_coordinate_cases {Periodic : Type}
    (DurationToStart : Periodic -> Z -> Duration) (E : env)
    (NeedReboot strategy : string) (period : option Periodic) (fuel : nat)
    (q : event -> bool) (t : trace) :
  (forall e, orchestrator_event e = true -> q e = true) ->
  (strategy <> StrategyReboot -> forall e, reaper_event e = true -> q e = true) ->
  let res := runDaemon_coordinate DurationToStart E NeedReboot strategy period
               fuel t in
  (fst res = Some 1 /\ extends q t (snd res) /\ ~ connected E)
  \/ (fst res = None /\ extends q t (snd res) /\ connected E
      /\ waits_for_signal E NeedReboot = true)
  \/ (fst res = None /\ extends q t (snd res) /\ connected E
      /\ waits_for_signal E NeedReboot = false
      /\ strategy <> StrategyReboot)
  \/ (connected E
      /\ waits_for_signal E NeedReboot = false
      /\ exists t5, extends q t t5
           /\ res = reboot E (mkRebooter strategy Login1Conn) fuel t5).
Proof.
  intros Hq Hreaper. cbv zeta.
  assert (Hgo : forall t2, extends q t t2 ->
    let res :=
      (emit EvCloseStop ;;
       emit EvWgWait ;;
       reaped <- (if negb (String.eqb strategy StrategyReboot)
                  then unlockHeldLocks E fuel else ret (Some tt)) ;;
       match reaped with
       | None => ret None
       | Some _ =>
           wait_for_window DurationToStart E period ;;
           reboot E (mkRebooter strategy Login1Conn) fuel
       end) t2 in
    (fst res = None /\ extends q t (snd res) /\ strategy <> StrategyReboot)
    \/ (exists t5, extends q t t5
          /\ res = reboot E (mkRebooter strategy Login1Conn) fuel t5)).
  { intros t2 H3. cbv zeta. rewrite !bind_run. cbn [emit fst snd].
    assert (H4 : extends q t (EvWgWait :: EvCloseStop :: t2)).
    { repeat (apply extends_cons; [apply Hq; reflexivity|]). exact H3. }
    destruct (String.eqb_spec strategy StrategyReboot) as [Hs|Hs]; cbn [negb].
    - right. cbn [ret fst snd]. rewrite bind_run.
      eexists. split; [|reflexivity].
      eapply extends_trans; [exact H4 | apply wait_for_window_extends, Hq].
    - pose proof (unlockHeldLocks_loop_extends E fuel initialInterval
                    (EvWgWait :: EvCloseStop :: t2)) as H5.
      apply (extends_weaken _ q _ _ (Hreaper Hs)) in H5.
      unfold unlockHeldLocks.
      destruct (unlockHeldLocks_loop E fuel initialInterval
                  (EvWgWait :: EvCloseStop :: t2)) as [[[]|] t4];
        cbn [fst snd] in *.
      + right. rewrite bind_run. eexists. split; [|reflexivity].
        eapply extends_trans; [exact H4|].
        eapply extends_trans; [exact H5 | apply wait_for_window_extends, Hq].
      + left. cbn [ret fst snd]. split; [reflexivity|].
        split; [exact (extends_trans q _ _ _ H4 H5) | exact Hs]. }
  unfold connected, waits_for_signal, runDaemon_coordinate.
  rewrite !bind_run. cbn [emit updateengine_New ret bind fst snd].
  assert (H0 : extends q t (EvUpdateengineNew :: EvSignalNotify :: t)).
  { repeat (apply extends_cons; [apply Hq; reflexivity|]). apply extends_refl. }
  destruct (updateengine_New_err E) as [e|].
  { left. rewrite bind_run. cbn [Fprintln_stderr emit ret fst snd].
    split; [reflexivity|]. split.
    - apply extends_cons; [apply Hq; reflexivity | exact H0].
    - intros (H & _). discriminate. }
  rewrite bind_run. cbn [login1_New emit ret bind fst snd].
  assert (H1 : extends q t (EvLogin1New :: EvUpdateengineNew :: EvSignalNotify :: t)).
  { apply extends_cons; [apply Hq; reflexivity | exact H0]. }
  destruct (login1_New_err E) as [e|].
  { left. rewrite bind_run. cbn [Fprintln_stderr emit ret fst snd].
    split; [reflexivity|]. split.
    - apply extends_cons; [apply Hq; reflexivity | exact H1].
    - intros (_ & H & _). discriminate. }
  rewrite bind_run.
  set (t1 := snd ((if negb (String.eqb strategy StrategyReboot)
                   then emit EvGoUnlockHeldLocks else ret tt)
                    (EvLogin1New :: EvUpdateengineNew :: EvSignalNotify :: t))).
  assert (H2 : extends q t t1).
  { subst t1. destruct (negb (String.eqb strategy StrategyReboot)); cbn [emit ret snd].
    - apply extends_cons; [apply Hq; reflexivity | exact H1].
    - exact H1. }
  rewrite !bind_run. cbn [emit GetStatus ret bind fst snd].
  destruct (GetStatus_result E) as [e|currentOperation].
  { left. rewrite bind_run. cbn [Fprintln_stderr emit ret fst snd].
    split; [reflexivity|]. split.
    - repeat (apply extends_cons; [apply Hq; reflexivity|]). exact H2.
    - intros (_ & _ & s & H). discriminate. }
  rewrite !bind_run. cbn [Printf emit fst snd].
  assert (HP : extends q t
                 (EvPrintf "locksmithd starting currentOperation=%q strategy=%q\n"
                    [AStr currentOperation; AStr strategy]
                  :: EvGetStatus :: EvGoRebootNeededSignal :: t1)).
  { repeat (apply extends_cons; [apply Hq; reflexivity|]). exact H2. }
  assert (Hconn : None = None (A := goerror) /\ None = None (A := goerror)
                  /\ exists status : string,
                       inr currentOperation = inr (A := goerror) status)
    by (repeat split; eauto).
  right.
  destruct (String.eqb currentOperation NeedReboot); cbn [negb andb].
  - cbn [ret fst snd]. right.
    destruct (Hgo _ HP) as [(Hn & Hext & Hs)|(t5 & Hext & Hres)].
    + left. repeat split; eauto.
    + right. split; [exact Hconn|]. split; [reflexivity|]. eauto.
  - cbn [recv_status emit ret bind fst snd].
    assert (HR : extends q t
                   (EvRecvStatus
                    :: EvPrintf "locksmithd starting currentOperation=%q strategy=%q\n"
                         [AStr currentOperation; AStr strategy]
                    :: EvGetStatus :: EvGoRebootNeededSignal :: t1))
      by (apply extends_cons; [apply Hq; reflexivity | exact HP]).
    destruct (RebootNeededSignal_fires E); cbn [negb].
    + right. destruct (Hgo _ HR) as [(Hn & Hext & Hs)|(t5 & Hext & Hres)].
      * left. repeat split; eauto.
      * right. split; [exact Hconn|]. split; [reflexivity|]. eauto.
    + left. cbn [ret fst snd]. split; [reflexivity|].
      split; [exact HR|]. split; [exact Hconn | reflexivity].
Qed.

(** How [runDaemon] can end: with 0 for strategy off; with 1 for a window
    that is not accepted; or as the coordination ends. *)
Lemma runDaemon_cases {Periodic : Type}
    (ParsePeriodic : string -> string -> goerror + Periodic)
    (DurationToStart : Periodic -> Z -> Duration) (E : env)
    (NeedReboot : string) (fuel : nat) (t : trace) :
  let run := runDaemon ParsePeriodic DurationToStart E NeedReboot fuel t in
  (configured_strategy E = StrategyOff
   /\ run = (Some 0,
             [EvFprintf_stderr "Reboot strategy is %q - shutting down.\n"
                [AStr StrategyOff];
              EvGetenv "REBOOT_STRATEGY"] ++ t)%list)
  \/ (configured_strategy E <> StrategyOff
      /\ ~ window_accepted ParsePeriodic E
      /\ exists e, orchestrator_event e = true
           /\ run = (Some 1, e :: config_reads t))
  \/ (configured_strategy E <> StrategyOff
      /\ window_accepted ParsePeriodic E
      /\ exists period,
           run = runDaemon_coordinate DurationToStart E NeedReboot
                   (configured_strategy E) period fuel (config_reads t)).
Proof.
  cbv zeta.
  destruct (String.eqb_spec (configured_strategy E) StrategyOff) as [Hoff|Hoff].
  { left. split; [exact Hoff|]. unfold runDaemon.
    rewrite bind_run, Getenv_run. cbn [fst snd]. cbv zeta.
    fold (configured_strategy E). rewrite Hoff. reflexivity. }
  right. unfold runDaemon, window_accepted.
  rewrite bind_run, Getenv_run. cbn [fst snd]. cbv zeta.
  fold (configured_strategy E).
  pose proof Hoff as Hoffb. apply String.eqb_neq in Hoffb. rewrite Hoffb.
  rewrite bind_run, Getenv_run. cbn [fst snd].
  rewrite bind_run, Getenv_run. cbn [fst snd]. fold (config_reads t).
  destruct (String.eqb_spec (getenv E "REBOOT_WINDOW_START") "") as [Hs|Hs];
    destruct (String.eqb_spec (getenv E "REBOOT_WINDOW_LENGTH") "") as [Hl|Hl];
    cbn [Bool.eqb negb andb].
  - right. split; [exact Hoff|]. split; [left; split; assumption|].
    eexists. reflexivity.
  - left. split; [exact Hoff|]. split.
    + intros [[_ H]|(H & _)]; contradiction.
    + eexists. split; [|reflexivity]. reflexivity.
  - left. split; [exact Hoff|]. split.
    + intros [[H _]|(_ & H & _)]; contradiction.
    + eexists. split; [|reflexivity]. reflexivity.
  - destruct (ParsePeriodic (getenv E "REBOOT_WINDOW_START")
                (getenv E "REBOOT_WINDOW_LENGTH")) as [err|p] eqn:Hparse.
    + left. split; [exact Hoff|]. split.
      * intros [[H _]|(_ & _ & p & Hp)]; [contradiction | discriminate].
      * eexists. split; [|reflexivity]. reflexivity.
    + right. split; [exact Hoff|]. split.
      * right. split; [exact Hs|]. split; [exact Hl|]. eauto.
      * eexists. reflexivity.
Qed.

Lemma useLock_fixed_strategy (E : env) (r : rebooter) (t : trace) :
  (strategy r = StrategyReboot -> useLock E r t = ((false, None), t))
  /\ (strategy r = StrategyEtcdLock -> useLock E r t = ((true, None), t)).
Proof.
  split; intros Hs; unfold useLock; rewrite Hs; reflexivity.
Qed.


Lemma daemon_event_no_reboot (e : event) :
  daemon_event e = true -> is_Reboot e = false.
Proof. destruct e; try reflexivity; discriminate. Qed.

Lemma daemon_event_no_lock (e : event) :
  daemon_event e = true -> is_Lock e = false.
Proof. destruct e; try reflexivity; discriminate. Qed.

Lemma orchestrator_is_daemon (e : event) :
  orchestrator_event e = true -> daemon_event e = true.
Proof. intros He. unfold daemon_event. rewrite He. reflexivity. Qed.

Lemma reaper_is_daemon (e : event) :
  reaper_event e = true -> daemon_event e = true.
Proof. intros He. unfold daemon_event. rewrite He. apply orb_true_r. Qed.



(** X16: no reboot without the collaborators.  A run of the daemon in
    which a reboot is requested has a strategy other than off, an
    accepted window, update_engine and login1 connected, and the update
    status read. *)
Theorem runDaemon_reboot_needs_collaborators {Periodic : Type}
    (ParsePeriodic : string -> string -> goerror + Periodic)
    (DurationToStart : Periodic -> Z -> Duration) (E : env)
    (NeedReboot : string) (fuel : nat) (t : trace) :
  calls is_Reboot
    (snd (runDaemon ParsePeriodic DurationToStart E NeedReboot fuel t))
  <> calls is_Reboot t ->
  configured_strategy E <> StrategyOff
  /\ window_accepted ParsePeriodic E
  /\ connected E.
Proof.
  intros Hreboot.
  destruct (runDaemon_cases ParsePeriodic DurationToStart E NeedReboot fuel t)
    as [(Hoff & Hrun)|[(Hoff & Hwin & e & He & Hrun)|(Hoff & Hwin & period & Hrun)]];
    rewrite Hrun in Hreboot; clear Hrun.
  - exfalso. apply Hreboot. reflexivity.
  - exfalso. apply Hreboot. cbn [snd]. rewrite calls_cons.
    rewrite (daemon_event_no_reboot e (orchestrator_is_daemon e He)).
    reflexivity.
  - split; [exact Hoff|]. split; [exact Hwin|].
    destruct (runDaemon_coordinate_cases DurationToStart E NeedReboot
                (configured_strategy E) period fuel daemon_event (config_reads t)
                orchestrator_is_daemon (fun _ => reaper_is_daemon))
      as [(_ & Hext & _)|[(_ & Hext & _)|[(_ & Hext & _)|(Hconn & _)]]].
    + exfalso. apply Hreboot.
      rewrite (extends_calls is_Reboot daemon_event _ _ Hext daemon_event_no_reboot).
      reflexivity.
    + exfalso. apply Hreboot.
      rewrite (extends_calls is_Reboot daemon_event _ _ Hext daemon_event_no_reboot).
      reflexivity.
    + exfalso. apply Hreboot.
      rewrite (extends_calls is_Reboot daemon_event _ _ Hext daemon_event_no_reboot).
      reflexivity.
    + exact Hconn.
Qed.

Lemma runDaemon_reboot_needs_collaborators_witness :
  calls is_Reboot
    (snd (runDaemon example_ParsePeriodic example_DurationToStart
            env_lock_fails_twice example_NeedReboot 3 [])) = 2%nat
  /\ configured_strategy env_lock_fails_twice <> StrategyOff
  /\ window_accepted example_ParsePeriodic env_lock_fails_twice
  /\ connected env_lock_fails_twice.
Proof.
  split; [reflexivity|].
  apply (runDaemon_reboot_needs_collaborators example_ParsePeriodic
           example_DurationToStart env_lock_fails_twice example_NeedReboot 3 []).
  discriminate.
Defined.

Lemma orchestrator_event_quiet (p : event -> bool) :
  (forall e, p e = true -> probe_event e || setup_event e || is_Lock e
                           || is_Unlock e || is_Select e || is_Reboot e = true) ->
  forall e, orchestrator_event e = true -> p e = false.
Proof.
  intros Hp e He. destruct (p e) eqn:Hpe; [|reflexivity].
  apply Hp in Hpe. destruct e; discriminate.
Qed.

Lemma notify_event_quiet (p : event -> bool) :
  (forall e, p e = true -> probe_event e || setup_event e || is_Lock e
                           || is_Unlock e || is_Select e = true) ->
  forall e, notify_event e = true -> p e = false.
Proof.
  intros Hp e He. destruct (p e) eqn:Hpe; [|reflexivity].
  apply Hp in Hpe. destruct e; discriminate.
Qed.

(** How [runDaemon] can end under strategy reboot. *)
Lemma runDaemon_strategy_reboot_cases {Periodic : Type}
    (ParsePeriodic : string -> string -> goerror + Periodic)
    (DurationToStart : Periodic -> Z -> Duration) (E : env)
    (NeedReboot : string) (fuel : nat) (t : trace) :
  configured_strategy E = StrategyReboot ->
  let run := runDaemon ParsePeriodic DurationToStart E NeedReboot fuel t in
  (fst run = Some 1 /\ extends orchestrator_event t (snd run)
   /\ ~ (window_accepted ParsePeriodic E /\ connected E))
  \/ (fst run = None /\ extends orchestrator_event t (snd run)
      /\ window_accepted ParsePeriodic E /\ connected E
      /\ waits_for_signal E NeedReboot = true)
  \/ (window_accepted ParsePeriodic E /\ connected E
      /\ waits_for_signal E NeedReboot = false
      /\ exists t5, extends orchestrator_event t t5
           /\ run = (Some 1,
                     EvPrintln [AStr "Error: reboot attempt never finished"]
                     :: snd (rebootAndSleep E Login1Conn t5))).
Proof.
  intros Hstrategy. cbv zeta.
  assert (Hreads : extends orchestrator_event t (config_reads t)).
  { unfold config_reads. repeat (apply extends_cons; [reflexivity|]).
    apply extends_refl. }
  destruct (runDaemon_cases ParsePeriodic DurationToStart E NeedReboot fuel t)
    as [(Hoff & _)|[(_ & Hbad & e & He & Hrun)|(_ & Hwin & period & Hrun)]].
  - rewrite Hstrategy in Hoff. discriminate.
  - left. rewrite Hrun. cbn [fst snd]. split; [reflexivity|]. split.
    + apply extends_cons; [exact He | exact Hreads].
    + intros [Hwin _]. contradiction.
  - rewrite Hrun.
    destruct (runDaemon_coordinate_cases DurationToStart E NeedReboot
                (configured_strategy E) period fuel orchestrator_event
                (config_reads t) (fun _ H => H)
                (fun Hne => match Hne Hstrategy with end))
      as [(Hres & Hext & Hno)|[(Hres & Hext & Hconn & Hwait)
                             |[(_ & _ & _ & _ & Hne)
                              |(Hconn & Hwait & t5 & Hext & Hres)]]].
    + left. split; [exact Hres|].
      split; [exact (extends_trans _ _ _ _ Hreads Hext)|].
      intros [_ Hconn]. contradiction.
    + right. left. split; [exact Hres|].
      split; [exact (extends_trans _ _ _ _ Hreads Hext)|].
      split; [exact Hwin|]. split; [exact Hconn | exact Hwait].
    + contradiction.
    + right. right. split; [exact Hwin|]. split; [exact Hconn|].
      split; [exact Hwait|]. exists t5.
      split; [exact (extends_trans _ _ _ _ Hreads Hext)|].
      rewrite Hres.
      pose proof (proj1 (useLock_fixed_strategy E
                    (mkRebooter (configured_strategy E) Login1Conn) t5) Hstrategy)
        as Hfix.
      rewrite (reboot_run_no_lock E _ fuel t5) by (rewrite Hfix; reflexivity).
      rewrite Hfix. reflexivity.
Qed.

(** X17: strategy reboot needs nobody but update_engine and login1.  With
    the strategy reboot the daemon enters neither of its loops: it never
    starts the reaper, never probes systemd, never reaches for etcd and
    never touches the lock, and the fuel plays no part.  It has not
    returned exactly when, the window accepted and the collaborators
    connected, it waits in [<-ch] for a status that has not come; it has
    then asked for no reboot.  In every other case it returns 1; and when
    the window is accepted, the collaborators are connected and the
    status has come, it has asked for the reboot exactly once. *)
Theorem runDaemon_strategy_reboot {Periodic : Type}
    (ParsePeriodic : string -> string -> goerror + Periodic)
    (DurationToStart : Periodic -> Z -> Duration) (E : env)
    (NeedReboot : string) (fuel : nat) (t : trace) :
  configured_strategy E = StrategyReboot ->
  let run := runDaemon ParsePeriodic DurationToStart E NeedReboot fuel t in
  (fst run = None <->
   window_accepted ParsePeriodic E /\ connected E
   /\ waits_for_signal E NeedReboot = true)
  /\ (fst run <> None -> fst run = Some 1)
  /\ (fst run = None -> calls is_Reboot (snd run) = calls is_Reboot t)
  /\ (window_accepted ParsePeriodic E -> connected E ->
      waits_for_signal E NeedReboot = false ->
      fst run = Some 1 /\ calls is_Reboot (snd run) = S (calls is_Reboot t))
  /\ calls is_Select (snd run) = calls is_Select t
  /\ calls probe_event (snd run) = calls probe_event t
  /\ calls setup_event (snd run) = calls setup_event t
  /\ calls is_Lock (snd run) = calls is_Lock t
  /\ calls is_Unlock (snd run) = calls is_Unlock t.
Proof.
  intros Hstrategy. cbv zeta.
  pose proof (runDaemon_strategy_reboot_cases ParsePeriodic DurationToStart E
                NeedReboot fuel t Hstrategy) as Hcases. cbv zeta in Hcases.
  assert (Hquiet : forall p : event -> bool,
    (forall e, p e = true -> probe_event e || setup_event e || is_Lock e
                             || is_Unlock e || is_Select e = true) ->
    calls p (snd (runDaemon ParsePeriodic DurationToStart E NeedReboot fuel t))
    = calls p t).
  { intros p Hp.
    assert (Hp' : forall e, p e = true -> probe_event e || setup_event e
                    || is_Lock e || is_Unlock e || is_Select e || is_Reboot e = true)
      by (intros e He; rewrite (Hp e He); reflexivity).
    destruct Hcases as [(_ & Hext & _)|[(_ & Hext & _)|(_ & _ & _ & t5 & Hext & Hrun)]].
    - exact (extends_calls p _ _ _ Hext (orchestrator_event_quiet p Hp')).
    - exact (extends_calls p _ _ _ Hext (orchestrator_event_quiet p Hp')).
    - rewrite Hrun. cbn [snd]. rewrite calls_cons.
      rewrite (notify_event_quiet p Hp (EvPrintln _) eq_refl).
      rewrite (extends_calls p notify_event t5)
        by (apply rebootAndSleep_extends || apply notify_event_quiet; auto).
      exact (extends_calls p _ _ _ Hext (orchestrator_event_quiet p Hp')). }
  assert (Hnoreboot : forall e, orchestrator_event e = true -> is_Reboot e = false)
    by (intros e He; destruct e; try reflexivity; discriminate He).
  split; [|split; [|split; [|split]]].
  - destruct Hcases as [(Hres & _ & Hno)|[(Hres & _ & Hwin & Hconn & Hwait)
                                         |(_ & _ & Hwait & t5 & _ & Hrun)]].
    + rewrite Hres. split; [discriminate|]. intros (Hwin & Hconn & _).
      exfalso. apply Hno. split; assumption.
    + rewrite Hres. split; [intros _ | reflexivity].
      split; [exact Hwin|]. split; [exact Hconn | exact Hwait].
    + rewrite Hrun. cbn [fst]. split; [discriminate|].
      intros (_ & _ & Hw). rewrite Hw in Hwait. discriminate.
  - destruct Hcases as [(Hres & _)|[(Hres & _)|(_ & _ & _ & t5 & _ & Hrun)]].
    + intros _. exact Hres.
    + intros Hne. contradiction.
    + intros _. rewrite Hrun. reflexivity.
  - destruct Hcases as [(Hres & _)|[(_ & Hext & _)|(_ & _ & _ & t5 & _ & Hrun)]].
    + rewrite Hres. discriminate.
    + intros _. exact (extends_calls is_Reboot _ _ _ Hext Hnoreboot).
    + rewrite Hrun. discriminate.
  - intros Hwin Hconn Hwait.
    destruct Hcases as [(_ & _ & Hno)|[(_ & _ & _ & _ & Hw)
                                      |(_ & _ & _ & t5 & Hext & Hrun)]].
    + exfalso. apply Hno. split; assumption.
    + rewrite Hw in Hwait. discriminate.
    + rewrite Hrun. cbn [fst snd]. split; [reflexivity|].
      rewrite calls_cons. cbn [is_Reboot]. rewrite rebootAndSleep_reboots_once.
      rewrite (extends_calls is_Reboot _ _ _ Hext Hnoreboot). reflexivity.
  - repeat split; apply Hquiet; intros e He; rewrite He;
      rewrite ?orb_true_r; reflexivity.
Qed.

Lemma runDaemon_strategy_reboot_witness :
  (fst (runDaemon example_ParsePeriodic example_DurationToStart
          env_update_comes example_NeedReboot 0 []) = Some 1
   /\ calls is_Reboot
        (snd (runDaemon example_ParsePeriodic example_DurationToStart
                env_update_comes example_NeedReboot 0 [])) = 1%nat)
  /\ (fst (runDaemon example_ParsePeriodic example_DurationToStart
             env_idle_for_ever example_NeedReboot 0 []) = None
      /\ calls is_Reboot
           (snd (runDaemon example_ParsePeriodic example_DurationToStart
                   env_idle_for_ever example_NeedReboot 0 [])) = 0%nat).
Proof.
  assert (Hwin : forall E, environ E = [("REBOOT_STRATEGY", "reboot")] ->
                           window_accepted example_ParsePeriodic E).
  { intros E HE. left. unfold getenv. rewrite HE. split; reflexivity. }
  split.
  - destruct (runDaemon_strategy_reboot example_ParsePeriodic
                example_DurationToStart env_update_comes example_NeedReboot 0 [])
      as (_ & _ & _ & Hreboot & _); [reflexivity|].
    apply Hreboot.
    + apply Hwin. reflexivity.
    + split; [reflexivity | split; [reflexivity | eexists; reflexivity]].
    + reflexivity.
  - destruct (runDaemon_strategy_reboot example_ParsePeriodic
                example_DurationToStart env_idle_for_ever example_NeedReboot 0 [])
      as (Hwait & _ & Hnone & _); [reflexivity|].
    assert (Hrun : fst (runDaemon example_ParsePeriodic example_DurationToStart
                          env_idle_for_ever example_NeedReboot 0 []) = None).
    { apply Hwait. split; [apply Hwin; reflexivity|].
      split; [|reflexivity].
      split; [reflexivity | split; [reflexivity | eexists; reflexivity]]. }
    split; [exact Hrun | apply Hnone, Hrun].
Defined.

(** X19: under strategy etcd-lock the daemon asks for a reboot only with
    the lock: a run in which a reboot is requested contains a call of
    [Lock] that succeeded or found the lock already held; so as long as
    every acquisition fails no reboot is requested, however long the
    daemon runs. *)
Theorem runDaemon_etcd_lock_reboots_with_the_lock {Periodic : Type}
    (ParsePeriodic : string -> string -> goerror + Periodic)
    (DurationToStart : Periodic -> Z -> Duration) (E : env)
    (NeedReboot : string) (fuel : nat) (t : trace) :
  configured_strategy E = StrategyEtcdLock ->
  let t' := snd (runDaemon ParsePeriodic DurationToStart E NeedReboot fuel t) in
  (calls is_Reboot t' <> calls is_Reboot t ->
   exists k, (calls is_Lock t <= k < calls is_Lock t')%nat
             /\ acquired (Lock_err E k) = true)
  /\ ((forall k, acquired (Lock_err E k) = false) ->
      calls is_Reboot t' = calls is_Reboot t).
Proof.
  intros Hstrategy. cbv zeta.
  assert (Hmain :
    calls is_Reboot
      (snd (runDaemon ParsePeriodic DurationToStart E NeedReboot fuel t))
    = calls is_Reboot t
    \/ exists k,
         (calls is_Lock t <= k
          < calls is_Lock
              (snd (runDaemon ParsePeriodic DurationToStart E NeedReboot fuel t)))%nat
         /\ acquired (Lock_err E k) = true).
  { destruct (runDaemon_cases ParsePeriodic DurationToStart E NeedReboot fuel t)
      as [(_ & Hrun)|[(_ & _ & e & He & Hrun)|(_ & _ & period & Hrun)]];
      rewrite Hrun; clear Hrun.
    - left. reflexivity.
    - left. cbn [snd]. rewrite calls_cons.
      rewrite (daemon_event_no_reboot e (orchestrator_is_daemon e He)).
      reflexivity.
    - destruct (runDaemon_coordinate_cases DurationToStart E NeedReboot
                  (configured_strategy E) period fuel daemon_event (config_reads t)
                  orchestrator_is_daemon (fun _ => reaper_is_daemon))
        as [(_ & Hext & _)|[(_ & Hext & _)|[(_ & Hext & _)
                                              |(_ & _ & t5 & Hext & Hres)]]].
      + left. apply (extends_calls is_Reboot daemon_event _ _ Hext
                       daemon_event_no_reboot).
      + left. apply (extends_calls is_Reboot daemon_event _ _ Hext
                       daemon_event_no_reboot).
      + left. apply (extends_calls is_Reboot daemon_event _ _ Hext
                       daemon_event_no_reboot).
      + rewrite Hres.
        assert (Hr5 : calls is_Reboot t5 = calls is_Reboot t)
          by apply (extends_calls is_Reboot daemon_event _ _ Hext
                      daemon_event_no_reboot).
        assert (Hl5 : calls is_Lock t5 = calls is_Lock t)
          by apply (extends_calls is_Lock daemon_event _ _ Hext
                      daemon_event_no_lock).
        assert (Huse : fst (useLock E (mkRebooter (configured_strategy E)
                                         Login1Conn) t5) = (true, None))
          by (rewrite (proj2 (useLock_fixed_strategy E (mkRebooter (configured_strategy E) Login1Conn) t5) Hstrategy);
              reflexivity).
        destruct (reboot_lock_path E _ fuel t5 Huse)
          as [(_ & Hreb & _)|[(_ & Hreb & _)|(_ & _ & n & _ & Hlock & Hacq)]].
        * left. congruence.
        * left. congruence.
        * right. exists (calls is_Lock t5 + n)%nat. split; [lia | exact Hacq]. }
  split.
  - intros Hne. destruct Hmain as [Hsame|Hk]; [contradiction | exact Hk].
  - intros Hnever. destruct Hmain as [Hsame|(k & _ & Hacq)]; [exact Hsame|].
    rewrite Hnever in Hacq. discriminate.
Qed.

Lemma runDaemon_etcd_lock_reboots_with_the_lock_witness :
  exists k,
    (0 <= k < calls is_Lock
               (snd (runDaemon example_ParsePeriodic example_DurationToStart
                       env_lock_fails_twice example_NeedReboot 3 [])))%nat
    /\ acquired (Lock_err env_lock_fails_twice k) = true.
Proof.
  destruct (runDaemon_etcd_lock_reboots_with_the_lock example_ParsePeriodic
              example_DurationToStart env_lock_fails_twice example_NeedReboot 3 [])
    as [Hlock _]; [reflexivity|].
  apply Hlock. discriminate.
Defined.

(** The coordination does not look at the process environment. *)
Lemma runDaemon_coordinate_environ {Periodic : Type}
    (DurationToStart : Periodic -> Z -> Duration) (E : env)
    (vars : list (string * string)) (NeedReboot strategy : string)
    (period : option Periodic) (fuel : nat) (t : trace) :
  runDaemon_coordinate DurationToStart (with_environ E vars) NeedReboot strategy
    period fuel t
  = runDaemon_coordinate DurationToStart E NeedReboot strategy period fuel t.
Proof. reflexivity. Qed.

(** X18: the default strategy.  A daemon started with REBOOT_STRATEGY
    unset, or set to the empty string, runs exactly as one started with
    REBOOT_STRATEGY=best-effort in an otherwise equal environment. *)
Theorem runDaemon_default_strategy {Periodic : Type}
    (ParsePeriodic : string -> string -> goerror + Periodic)
    (DurationToStart : Periodic -> Z -> Duration) (E : env)
    (NeedReboot : string) (fuel : nat) (t : trace) :
  getenv E "REBOOT_STRATEGY" = "" ->
  runDaemon ParsePeriodic DurationToStart E NeedReboot fuel t
  = runDaemon ParsePeriodic DurationToStart
      (with_environ E (("REBOOT_STRATEGY", "best-effort") :: environ E))
      NeedReboot fuel t.
Proof.
  intros Hunset.
  set (E' := with_environ E (("REBOOT_STRATEGY", "best-effort") :: environ E)).
  assert (Hs : getenv E' "REBOOT_STRATEGY" = "best-effort") by reflexivity.
  unfold runDaemon.
  rewrite !(bind_run (Getenv E "REBOOT_STRATEGY")), !(bind_run (Getenv E' "REBOOT_STRATEGY")).
  rewrite !Getenv_run. cbn [fst snd]. rewrite Hunset, Hs. cbv zeta.
  change (String.eqb "" "") with true. change (String.eqb "best-effort" "") with false.
  cbv iota.
  change (String.eqb StrategyBestEffort StrategyOff) with false.
  change (String.eqb "best-effort" StrategyOff) with false. cbv iota.
  reflexivity.
Qed.

Lemma runDaemon_default_strategy_witness :
  runDaemon example_ParsePeriodic example_DurationToStart env_quiet
    example_NeedReboot 3 []
  = runDaemon example_ParsePeriodic example_DurationToStart
      (with_environ env_quiet [("REBOOT_STRATEGY", "best-effort")])
      example_NeedReboot 3 [].
Proof.
  apply (runDaemon_default_strategy example_ParsePeriodic example_DurationToStart
           env_quiet example_NeedReboot 3 []).
  reflexivity.
Defined.

(** ** The reaper's timer *)

Lemma timers_cons (e : event) (t : trace) :
  timers (e :: t) = (timers t ++ timer_of e)%list.
Proof.
  unfold timers. cbn [rev]. rewrite flat_map_app. cbn [flat_map].
  rewrite app_nil_r. reflexivity.
Qed.

Lemma timers_extends (q : event -> bool) (t t' : trace) :
  extends q t t' -> (forall e, q e = true -> timer_of e = []) ->
  timers t' = timers t.
Proof.
  intros (new & -> & Hnew) Hq.
  induction new as [|e new IH]; [reflexivity|].
  cbn [forallb] in Hnew. apply andb_prop in Hnew as [He Hnew].
  cbn [app]. rewrite timers_cons, (Hq e He), app_nil_r. apply IH, Hnew.
Qed.

Lemma unlockHeldLocks_loop_timers (E : env) (fuel : nat) :
  forall (interval : Duration) (t : trace),
  let res := unlockHeldLocks_loop E fuel interval t in
  exists n,
    calls is_Select (snd res) = (calls is_Select t + n)%nat
    /\ (n <= fuel)%nat
    /\ (fst res = None -> n = fuel)
    /\ (fuel <> 0%nat -> n <> 0%nat)
    /\ timers (snd res)
       = (timers t ++ map (fun k => backoff_iter k interval) (seq 0 n))%list.
Proof.
  assert (Hq : forall e, tick_event e = true -> timer_of e = [])
    by (intros e He; destruct e; try reflexivity; discriminate He).
  assert (Hsel : forall e, tick_event e = true -> is_Select e = false)
    by (intros e He; destruct e; try reflexivity; discriminate He).
  induction fuel as [|fuel IH]; intros interval t; cbv zeta.
  - exists 0%nat. cbn [unlockHeldLocks_loop ret fst snd seq map].
    rewrite app_nil_r, Nat.add_0_r. repeat split; try lia; try congruence.
  - destruct (stop_ready E (calls is_Select t)) eqn:Hstop.
    + exists 1%nat.
      rewrite unlockHeldLocks_loop_stop by exact Hstop. cbn [fst snd seq map].
      rewrite !timers_cons, !calls_cons. cbn [timer_of backoff_iter is_Select].
      rewrite !app_nil_r. repeat split; try lia; try discriminate.
    + rewrite unlockHeldLocks_loop_timer by exact Hstop. cbv zeta.
      assert (Ht : timers (snd (unlockHeldLocks_tick E
                                  (EvSelect false :: EvAfter interval :: t)))
                   = (timers t ++ [interval])%list).
      { rewrite (timers_extends tick_event (EvSelect false :: EvAfter interval :: t))
          by (apply unlockHeldLocks_tick_extends || exact Hq;
              intros e He; unfold tick_event; rewrite He, ?orb_true_r; reflexivity).
        rewrite !timers_cons. cbn [timer_of]. rewrite app_nil_r. reflexivity. }
      pose proof (unlockHeldLocks_tick_calls E is_Select
                    (EvSelect false :: EvAfter interval :: t) Hsel) as Hs.
      rewrite !calls_cons in Hs. cbn [is_Select] in Hs.
      destruct (unlockHeldLocks_tick E (EvSelect false :: EvAfter interval :: t))
        as [[reason|] t1]; cbn [fst snd] in *.
      * destruct (IH (expBackoff interval)
                    (deferred_message reason (expBackoff interval) :: t1))
          as (n & Hcount & Hn & Hnone & _ & Hrun).
        assert (Hs1 : calls is_Select
                        (deferred_message reason (expBackoff interval) :: t1)
                      = S (calls is_Select t))
          by (rewrite calls_cons; exact Hs).
        exists (S n). split; [lia|]. split; [lia|].
        split; [intros H; rewrite (Hnone H); reflexivity|].
        split; [discriminate|].
        rewrite Hrun.
        unfold deferred_message. rewrite timers_cons. cbn [timer_of].
        rewrite app_nil_r, Ht, <- app_assoc. cbn [app seq map backoff_iter].
        rewrite <- seq_shift, map_map. reflexivity.
      * exists 1%nat. rewrite calls_cons, timers_cons.
        cbn [is_Select timer_of seq map backoff_iter]. rewrite app_nil_r.
        split; [lia|]. split; [lia|].
        split; [discriminate|]. split; [discriminate | exact Ht].
Qed.

(** X20: the reaper polls on the backoff schedule.  A run of the reaper
    sets its timer once in each turn of the loop, that is once for each
    [select] it makes, and the timer of turn k (from 0) is
    [min (5 s * 2^k, 5 min)]: 5 s, 10 s, 20 s, 40 s, 80 s, 160 s, then
    5 min for ever, whatever systemd, etcd and [stop] do.  With any fuel
    at least one turn is made; a run still going has made as many turns
    as it had fuel; and every wait lies between 5 s and 5 min. *)
Theorem unlockHeldLocks_timer_schedule (E : env) (fuel : nat) (t : trace) :
  let res := unlockHeldLocks E fuel t in
  let turns := (calls is_Select (snd res) - calls is_Select t)%nat in
  let schedule :=
    map (fun k => Z.min (initialInterval * 2 ^ Z.of_nat k) maxInterval)
      (seq 0 turns) in
  timers (snd res) = (timers t ++ schedule)%list
  /\ (turns <= fuel)%nat
  /\ (fuel <> 0%nat -> turns <> 0%nat)
  /\ (fst res = None -> turns = fuel)
  /\ Forall (fun d => initialInterval <= d <= maxInterval) schedule.
Proof.
  cbv zeta. unfold unlockHeldLocks.
  destruct (unlockHeldLocks_loop_timers E fuel initialInterval t)
    as (n & Hcount & Hn & Hnone & Hpos & Hrun).
  rewrite Hcount.
  replace (calls is_Select t + n - calls is_Select t)%nat with n by lia.
  split; [|split; [exact Hn | split; [exact Hpos | split; [exact Hnone|]]]].
  - rewrite Hrun. f_equal.
    apply map_ext. intros k. apply backoff_iter_closed.
    split; [reflexivity | discriminate].
  - apply Forall_map, Forall_forall. intros k _.
    assert (Hpow : 1 <= 2 ^ Z.of_nat k)
      by (apply Z.pow_le_mono_r with (b := 0); lia).
    assert (Hmax : maxInterval = 300000000000) by reflexivity.
    assert (Hini : initialInterval = 5000000000) by reflexivity.
    lia.
Qed.

Lemma unlockHeldLocks_timer_schedule_witness :
  fst (unlockHeldLocks env_store_unreachable 8 []) = None
  /\ timers (snd (unlockHeldLocks env_store_unreachable 8 [])) =
     [5000000000; 10000000000; 20000000000; 40000000000; 80000000000;
      160000000000; 300000000000; 300000000000].
Proof.
  split; [reflexivity|].
  destruct (unlockHeldLocks_timer_schedule env_store_unreachable 8 [])
    as (Htimers & _ & _ & Hnone & _).
  rewrite (Hnone eq_refl) in Htimers. rewrite Htimers. reflexivity.
Defined.

(** ** Best effort *)

(** X21: what best-effort comes to in [reboot].  When the system bus
    cannot be reached, [reboot] refuses: it returns 1 and asks for no
    reboot.  When the bus answers and no listed service is active, it
    reboots without the lock: one reboot request, and no call to etcd at
    all.  When some listed service is active, it takes the path of the
    lock, and a reboot is requested only after an acquisition that went
    through. *)
Theorem reboot_best_effort (E : env) (r : rebooter) (fuel : nat) (t : trace) :
  strategy r = StrategyBestEffort ->
  let k := calls is_DbusNew t in
  let t' := snd (reboot E r fuel t) in
  (forall e, dbus_New_err E k = Some e ->
     reboot E r fuel t = (Some 1, [EvFprintln_stderr [AErr e]; EvDbusNew] ++ t)%list)
  /\ (dbus_New_err E k = None ->
      existsb (service_active E k) etcdServices = false ->
      fst (reboot E r fuel t) = Some 1
      /\ calls is_Reboot t' = S (calls is_Reboot t)
      /\ calls setup_event t' = calls setup_event t
      /\ calls is_Lock t' = calls is_Lock t
      /\ calls is_Unlock t' = calls is_Unlock t)
  /\ (dbus_New_err E k = None ->
      existsb (service_active E k) etcdServices = true ->
      calls is_Reboot t' <> calls is_Reboot t ->
      exists n, (calls is_Lock t <= n < calls is_Lock t')%nat
                /\ acquired (Lock_err E n) = true).
Proof.
  intros Hs. cbv zeta.
  pose proof (useLock_best_effort_run E r t Hs) as Huse.
  split; [|split].
  - intros e He. rewrite He in Huse.
    rewrite (reboot_run_gate_error E r fuel t false e Huse).
    unfold useLock. rewrite Hs, String.eqb_refl, bind_run, etcdActive_run.
    cbv zeta. rewrite He. reflexivity.
  - intros Hbus Hnone. rewrite Hbus, Hnone in Huse.
    rewrite (reboot_run_no_lock E r fuel t Huse). cbn [fst snd].
    split; [reflexivity|].
    assert (Hquiet : forall p,
      (forall e, notify_event e = true -> p e = false) ->
      (forall e, probe_event e = true -> p e = false) ->
      calls p (EvPrintln [AStr "Error: reboot attempt never finished"]
               :: snd (rebootAndSleep E (lgn r) (snd (useLock E r t))))
      = calls p t).
    { intros p Hn Hb. rewrite calls_cons, (Hn (EvPrintln _) eq_refl).
      rewrite (extends_calls p notify_event (snd (useLock E r t)))
        by (apply rebootAndSleep_extends || exact Hn; auto).
      apply useLock_calls; intros;
        first [apply Hb; reflexivity | apply Hn; reflexivity]. }
    split.
    + rewrite calls_cons. cbn [is_Reboot]. rewrite rebootAndSleep_reboots_once.
      rewrite useLock_calls by reflexivity. reflexivity.
    + repeat split; apply Hquiet;
        intros e He; destruct e; try reflexivity; discriminate He.
  - intros Hbus Hsome Hreboot. rewrite Hbus, Hsome in Huse.
    destruct (reboot_lock_path E r fuel t Huse)
      as [(_ & Hreb & _)|[(_ & Hreb & _)|(_ & _ & n & _ & Hlock & Hacq)]].
    + contradiction.
    + contradiction.
    + exists (calls is_Lock t + n)%nat. split; [lia | exact Hacq].
Qed.

Lemma reboot_best_effort_witness :
  reboot env_bus_down (mkRebooter "best-effort" Login1Conn) 3 [] =
  (Some 1, [EvFprintln_stderr [AErr (Errorf "no system bus")]; EvDbusNew])
  /\ calls is_Reboot
       (snd (reboot env_quiet (mkRebooter "best-effort" Login1Conn) 3 [])) = 1%nat
  /\ calls setup_event
       (snd (reboot env_quiet (mkRebooter "best-effort" Login1Conn) 3 [])) = 0%nat.
Proof.
  split.
  - destruct (reboot_best_effort env_bus_down
                (mkRebooter "best-effort" Login1Conn) 3 []) as [Hdown _];
      [reflexivity|].
    apply (Hdown (Errorf "no system bus")). reflexivity.
  - destruct (reboot_best_effort env_quiet
                (mkRebooter "best-effort" Login1Conn) 3 []) as (_ & Hnone & _);
      [reflexivity|].
    destruct Hnone as (_ & Hreboot & Hsetup & _); [reflexivity | reflexivity |].
    split; [exact Hreboot | exact Hsetup].
Defined.
